(** * TemplateWriter: a shallow embedding of src/TemplateWriter.js

    The writer is the build orchestrator: it keeps a per-path cache of
    template handles, builds the template map of one run
    ([_addToTemplateMap]), and fires the generation of every map entry
    ([generateTemplates], [write], [getJSON]).

    The embedding is state passing over a record [TemplateWriter]; the
    collaborators that live in other files (Template, TemplateMap,
    EleventyFiles, the passthrough manager, the extension map) are either
    small records with the operations the writer calls on them, or fields
    of the environment [Env] when the writer only asks them a question. *)

From stdpp Require Import base strings gmap list.
From Stdlib Require Import Ascii Lia.

(** ** JavaScript values *)

Module JS.

(** [this.incrementalFile] is never assigned by the constructor
    (undefined), is set to null by [resetIncrementalFile] and to a path
    by [setIncrementalFile]. *)
Inductive MaybePath :=
| Undefined
| Null
| Str (s : string).

(** ToBoolean: undefined, null and the empty string are falsy. *)
Definition truthy (v : MaybePath) : bool :=
  match v with
  | Str s => negb (String.eqb s EmptyString)
  | _ => false
  end.

(** A truthy value of this type is a non-empty string. *)
Definition asTruthy (v : MaybePath) : option string :=
  match v with
  | Str s => if String.eqb s EmptyString then None else Some s
  | _ => None
  end.

(** [v === path] where [path] is a string. *)
Definition strictEq (v : MaybePath) (path : string) : bool :=
  match v with
  | Str s => String.eqb s path
  | _ => false
  end.

End JS.

(** ** TemplatePath (from the eleventy-utils package) *)

Module TemplatePath.

(** [path.replace(/^\.\//, empty)]: one leading "./" is removed. *)
Definition stripLeadingDotSlash (path : string) : string :=
  match path with
  | String "."%char (String "/"%char rest) => rest
  | _ => path
  end.

End TemplatePath.

(** ** Template handles *)

Module Template.

(** The argument of [resetCaches]: every key that is left out counts as
    false. *)
Record ResetTypes := { rt_data : bool; rt_read : bool; rt_render : bool }.

(** Modelled from the spec: Template.js is not part of the sources at
    hand. A handle owns three sub-caches that are invalidated
    independently (read, data, render), ephemeral per-run bookkeeping
    ([transient], what the argument-less [resetCaches()] clears), a
    renderable override (undefined, or a boolean) and the flags and
    bindings the writer sets on it. [tid] is the identity of the
    JavaScript object: two handles are the same instance exactly when
    their [tid] agree. *)
Record t := mk {
  tid : nat;
  inputPath : string;
  templateData : nat;
  outputFormat : string;
  transforms : list string;
  linters : list string;
  dryRun : bool;
  isVerbose : bool;
  readCache : bool;
  dataCache : bool;
  renderCache : bool;
  transient : bool;
  renderableOverride : option bool;
  dryRunViaIncremental : bool;
  templateRender : bool;
  writeCount : nat;
}.

(** [new Template(path, templateData, extensionMap, eleventyConfig)] *)
Definition new (id : nat) (path : string) (data : nat) : t :=
  {| tid := id; inputPath := path; templateData := data;
     outputFormat := EmptyString; transforms := []; linters := [];
     dryRun := false; isVerbose := true;
     readCache := false; dataCache := false; renderCache := false;
     transient := false;
     renderableOverride := None; dryRunViaIncremental := false;
     templateRender := false; writeCount := 0 |}.

(** The setters the writer calls store their argument. *)
Definition setTemplateData (data : nat) (h : t) : t :=
  {| tid := tid h; inputPath := inputPath h; templateData := data;
     outputFormat := outputFormat h; transforms := transforms h; linters := linters h;
     dryRun := dryRun h; isVerbose := isVerbose h;
     readCache := readCache h; dataCache := dataCache h; renderCache := renderCache h;
     transient := transient h;
     renderableOverride := renderableOverride h;
     dryRunViaIncremental := dryRunViaIncremental h;
     templateRender := templateRender h; writeCount := writeCount h |}.

Definition setOutputFormat (to : string) (h : t) : t :=
  {| tid := tid h; inputPath := inputPath h; templateData := templateData h;
     outputFormat := to; transforms := transforms h; linters := linters h;
     dryRun := dryRun h; isVerbose := isVerbose h;
     readCache := readCache h; dataCache := dataCache h; renderCache := renderCache h;
     transient := transient h;
     renderableOverride := renderableOverride h;
     dryRunViaIncremental := dryRunViaIncremental h;
     templateRender := templateRender h; writeCount := writeCount h |}.

Definition setTransforms (ts : list string) (h : t) : t :=
  {| tid := tid h; inputPath := inputPath h; templateData := templateData h;
     outputFormat := outputFormat h; transforms := ts; linters := linters h;
     dryRun := dryRun h; isVerbose := isVerbose h;
     readCache := readCache h; dataCache := dataCache h; renderCache := renderCache h;
     transient := transient h;
     renderableOverride := renderableOverride h;
     dryRunViaIncremental := dryRunViaIncremental h;
     templateRender := templateRender h; writeCount := writeCount h |}.

Definition addLinter (name : string) (h : t) : t :=
  {| tid := tid h; inputPath := inputPath h; templateData := templateData h;
     outputFormat := outputFormat h; transforms := transforms h;
     linters := linters h ++ [name];
     dryRun := dryRun h; isVerbose := isVerbose h;
     readCache := readCache h; dataCache := dataCache h; renderCache := renderCache h;
     transient := transient h;
     renderableOverride := renderableOverride h;
     dryRunViaIncremental := dryRunViaIncremental h;
     templateRender := templateRender h; writeCount := writeCount h |}.

Definition setDryRun (b : bool) (h : t) : t :=
  {| tid := tid h; inputPath := inputPath h; templateData := templateData h;
     outputFormat := outputFormat h; transforms := transforms h; linters := linters h;
     dryRun := b; isVerbose := isVerbose h;
     readCache := readCache h; dataCache := dataCache h; renderCache := renderCache h;
     transient := transient h;
     renderableOverride := renderableOverride h;
     dryRunViaIncremental := dryRunViaIncremental h;
     templateRender := templateRender h; writeCount := writeCount h |}.

Definition setIsVerbose (b : bool) (h : t) : t :=
  {| tid := tid h; inputPath := inputPath h; templateData := templateData h;
     outputFormat := outputFormat h; transforms := transforms h; linters := linters h;
     dryRun := dryRun h; isVerbose := b;
     readCache := readCache h; dataCache := dataCache h; renderCache := renderCache h;
     transient := transient h;
     renderableOverride := renderableOverride h;
     dryRunViaIncremental := dryRunViaIncremental h;
     templateRender := templateRender h; writeCount := writeCount h |}.

(** Modelled from the spec: [reset()] is not part of the sources at hand.
    It is the handle's own per-run reset: the per-run counter starts
    again, the caches stay. *)
Definition reset (h : t) : t :=
  {| tid := tid h; inputPath := inputPath h; templateData := templateData h;
     outputFormat := outputFormat h; transforms := transforms h; linters := linters h;
     dryRun := dryRun h; isVerbose := isVerbose h;
     readCache := readCache h; dataCache := dataCache h; renderCache := renderCache h;
     transient := transient h;
     renderableOverride := renderableOverride h;
     dryRunViaIncremental := dryRunViaIncremental h;
     templateRender := templateRender h; writeCount := 0 |}.

(** Modelled from the spec: [resetCaches(types)] is not part of the
    sources at hand. With an argument it clears exactly the sub-caches
    whose key is true, each independently of the others; without one it
    is the full soft reset of the ephemeral per-run bookkeeping. *)
Definition resetCaches (types : option ResetTypes) (h : t) : t :=
  match types with
  | Some ty =>
    {| tid := tid h; inputPath := inputPath h; templateData := templateData h;
       outputFormat := outputFormat h; transforms := transforms h; linters := linters h;
       dryRun := dryRun h; isVerbose := isVerbose h;
       readCache := if rt_read ty then false else readCache h;
       dataCache := if rt_data ty then false else dataCache h;
       renderCache := if rt_render ty then false else renderCache h;
       transient := transient h;
       renderableOverride := renderableOverride h;
       dryRunViaIncremental := dryRunViaIncremental h;
       templateRender := templateRender h; writeCount := writeCount h |}
  | None =>
    {| tid := tid h; inputPath := inputPath h; templateData := templateData h;
       outputFormat := outputFormat h; transforms := transforms h; linters := linters h;
       dryRun := dryRun h; isVerbose := isVerbose h;
       readCache := readCache h; dataCache := dataCache h; renderCache := renderCache h;
       transient := false;
       renderableOverride := renderableOverride h;
       dryRunViaIncremental := dryRunViaIncremental h;
       templateRender := templateRender h; writeCount := writeCount h |}
  end.

(** Modelled from the spec: [setRenderableOverride(v)] is not part of the
    sources at hand. It sets whether rendering is enabled: undefined
    ([None]) leaves it enabled, false disables it. *)
Definition setRenderableOverride (v : option bool) (h : t) : t :=
  {| tid := tid h; inputPath := inputPath h; templateData := templateData h;
     outputFormat := outputFormat h; transforms := transforms h; linters := linters h;
     dryRun := dryRun h; isVerbose := isVerbose h;
     readCache := readCache h; dataCache := dataCache h; renderCache := renderCache h;
     transient := transient h;
     renderableOverride := v;
     dryRunViaIncremental := dryRunViaIncremental h;
     templateRender := templateRender h; writeCount := writeCount h |}.

(** Modelled from the spec: [setDryRunViaIncremental()] is not part of the
    sources at hand. It marks the handle to render from its existing cache
    contents. *)
Definition setDryRunViaIncremental (h : t) : t :=
  {| tid := tid h; inputPath := inputPath h; templateData := templateData h;
     outputFormat := outputFormat h; transforms := transforms h; linters := linters h;
     dryRun := dryRun h; isVerbose := isVerbose h;
     readCache := readCache h; dataCache := dataCache h; renderCache := renderCache h;
     transient := transient h;
     renderableOverride := renderableOverride h;
     dryRunViaIncremental := true;
     templateRender := templateRender h; writeCount := writeCount h |}.

Definition hasTemplateRender (h : t) : bool := templateRender h.

(** Modelled from the spec: [getTemplateRender()] is not part of the
    sources at hand. Awaiting it materializes the render engine of the
    handle. *)
Definition getTemplateRender (h : t) : t :=
  {| tid := tid h; inputPath := inputPath h; templateData := templateData h;
     outputFormat := outputFormat h; transforms := transforms h; linters := linters h;
     dryRun := dryRun h; isVerbose := isVerbose h;
     readCache := readCache h; dataCache := dataCache h; renderCache := renderCache h;
     transient := transient h;
     renderableOverride := renderableOverride h;
     dryRunViaIncremental := dryRunViaIncremental h;
     templateRender := true; writeCount := writeCount h |}.

End Template.

(** ** Collaborators *)

(** A build entry of the template map: the handle (by the key under which
    the writer's cache holds it) with the input and output path computed
    for this run. *)
Record MapEntry := {
  me_template : string;
  me_inputPath : string;
  me_outputPath : string;
}.

(** What a collaborator throws. Modelled from the spec:
    EleventyErrorUtil.js is not part of the sources at hand; the
    premature-content-access failure is one distinguished kind of error. *)
Inductive RawError :=
| TemplateContentPrematureUseError
| OtherError (message : string).

Definition isPrematureTemplateContentError (e : RawError) : bool :=
  match e with
  | TemplateContentPrematureUseError => true
  | OtherError _ => false
  end.

Inductive Wave := FirstWave | SecondWave.

(** How [tmpl.generateMapEntry(mapEntry, to)] settles: with the pages it
    produced and the handle's write count, or with an error. *)
Inductive GenOutcome :=
| Generated (pages : list string) (written : nat)
| Failed (e : RawError).

(** The questions the writer asks its collaborators, and how their
    asynchronous operations settle. *)
Record Env := {
  (** [this.extensionMap.hasEngine(path)] *)
  hasEngine : string -> bool;
  (** [this.eleventyFiles.isFullTemplateFile(paths, this.incrementalFile)] *)
  isFullTemplateFile : list string -> JS.MaybePath -> bool;
  (** truthiness of [passthroughManager.isPassthroughCopyFile(paths, file)] *)
  isPassthroughCopyFile : list string -> string -> bool;
  (** [tmpl.isFileRelevantToThisTemplate(file, { isFullTemplate })] *)
  isFileRelevantToThisTemplate : Template.t -> string -> bool -> bool;
  (** [this.templateMap.setupDependencyGraphChangesForIncrementalFile(inputPath)] *)
  setupDependencyGraphChangesForIncrementalFile : string -> gset string;
  (** whether the data cascade that [this.templateMap.add(tmpl)] awaits
      succeeds, by the input path of the handle *)
  dataCascade : string -> bool;
  (** when the data cascade of an input path ends: the cascades under way
      end in the order of these numbers, and in the order they were
      started when the numbers are equal *)
  dataCascadeEnd : string -> nat;
  (** the output path the template map computes for an input path *)
  outputPathOf : string -> string;
  (** [tmpl.generateMapEntry(mapEntry, to)], per wave *)
  generateMapEntry : MapEntry -> Wave -> GenOutcome;
  (** [passthroughManager.copyAll(paths)]: [None] when it is fulfilled *)
  copyAll : list string -> option RawError;
}.

(** [this.config]: the transforms, and the linters in enumeration order
    with [typeof linter === "function"]. *)
Record Config := {
  cfg_transforms : list string;
  cfg_linters : list (string * bool);
}.

(** ** The writer *)

(** What the writer does to the template map and the dependency graph, in
    program order. *)
Inductive Event :=
| EvCreateTemplate (path : string) (wasCached : bool)
| EvTemplateMapAdd (path : string)
| EvAwaited (path : string) (fulfilled : bool)
| EvSetupDependencyGraphChanges (inputPath : string)
| EvAddToGlobalDependencyGraph
| EvTemplateMapCache
| EvSkipped (path : string).

Record TemplateWriter := {
  config : Config;
  templateData : nat;
  isVerbose : bool;
  isDryRun : bool;
  writeCount : nat;
  skippedCount : nat;
  isRunInitialBuild : bool;
  isIncremental : bool;
  incrementalFile : JS.MaybePath;
  _templatePathCache : gmap string Template.t;
  (** allocation counter: the identity the next [new Template] gets *)
  nextTemplateId : nat;
  templateMap : list MapEntry;
  trace : list Event;
}.

Inductive TemplateWriterMissingConfigArgError := MissingConfigArgument.

(** The fields as the constructor leaves them (lines 30-43). *)
Definition initial (data : nat) (cfg : Config) : TemplateWriter :=
  {| config := cfg; templateData := data; isVerbose := true;
     isDryRun := false; writeCount := 0; skippedCount := 0;
     isRunInitialBuild := true; isIncremental := false;
     incrementalFile := JS.Undefined;
     _templatePathCache := ∅; nextTemplateId := 0;
     templateMap := []; trace := [] |}.

(** [new TemplateWriter(templateFormats, templateData, eleventyConfig)] *)
Definition constructor (data : nat) (eleventyConfig : option Config)
  : TemplateWriterMissingConfigArgError + TemplateWriter :=
  match eleventyConfig with
  | None => inl MissingConfigArgument
  | Some cfg => inr (initial data cfg)
  end.

Definition withConfig (c : Config) (w : TemplateWriter) : TemplateWriter :=
  {| config := c; templateData := templateData w; isVerbose := isVerbose w;
     isDryRun := isDryRun w; writeCount := writeCount w;
     skippedCount := skippedCount w; isRunInitialBuild := isRunInitialBuild w;
     isIncremental := isIncremental w; incrementalFile := incrementalFile w;
     _templatePathCache := _templatePathCache w;
     nextTemplateId := nextTemplateId w;
     templateMap := templateMap w; trace := trace w |}.

Definition withFlags (verbose dry initial incr : bool) (w : TemplateWriter)
  : TemplateWriter :=
  {| config := config w; templateData := templateData w; isVerbose := verbose;
     isDryRun := dry; writeCount := writeCount w;
     skippedCount := skippedCount w; isRunInitialBuild := initial;
     isIncremental := incr; incrementalFile := incrementalFile w;
     _templatePathCache := _templatePathCache w;
     nextTemplateId := nextTemplateId w;
     templateMap := templateMap w; trace := trace w |}.

Definition withIncrementalFile (f : JS.MaybePath) (w : TemplateWriter)
  : TemplateWriter :=
  {| config := config w; templateData := templateData w; isVerbose := isVerbose w;
     isDryRun := isDryRun w; writeCount := writeCount w;
     skippedCount := skippedCount w; isRunInitialBuild := isRunInitialBuild w;
     isIncremental := isIncremental w; incrementalFile := f;
     _templatePathCache := _templatePathCache w;
     nextTemplateId := nextTemplateId w;
     templateMap := templateMap w; trace := trace w |}.

Definition withCounts (written skipped : nat) (w : TemplateWriter)
  : TemplateWriter :=
  {| config := config w; templateData := templateData w; isVerbose := isVerbose w;
     isDryRun := isDryRun w; writeCount := written;
     skippedCount := skipped; isRunInitialBuild := isRunInitialBuild w;
     isIncremental := isIncremental w; incrementalFile := incrementalFile w;
     _templatePathCache := _templatePathCache w;
     nextTemplateId := nextTemplateId w;
     templateMap := templateMap w; trace := trace w |}.

Definition withCache (c : gmap string Template.t) (next : nat)
  (w : TemplateWriter) : TemplateWriter :=
  {| config := config w; templateData := templateData w; isVerbose := isVerbose w;
     isDryRun := isDryRun w; writeCount := writeCount w;
     skippedCount := skippedCount w; isRunInitialBuild := isRunInitialBuild w;
     isIncremental := isIncremental w; incrementalFile := incrementalFile w;
     _templatePathCache := c; nextTemplateId := next;
     templateMap := templateMap w; trace := trace w |}.

Definition withTemplateMap (m : list MapEntry) (w : TemplateWriter)
  : TemplateWriter :=
  {| config := config w; templateData := templateData w; isVerbose := isVerbose w;
     isDryRun := isDryRun w; writeCount := writeCount w;
     skippedCount := skippedCount w; isRunInitialBuild := isRunInitialBuild w;
     isIncremental := isIncremental w; incrementalFile := incrementalFile w;
     _templatePathCache := _templatePathCache w;
     nextTemplateId := nextTemplateId w;
     templateMap := m; trace := trace w |}.

Definition record (evs : list Event) (w : TemplateWriter) : TemplateWriter :=
  {| config := config w; templateData := templateData w; isVerbose := isVerbose w;
     isDryRun := isDryRun w; writeCount := writeCount w;
     skippedCount := skippedCount w; isRunInitialBuild := isRunInitialBuild w;
     isIncremental := isIncremental w; incrementalFile := incrementalFile w;
     _templatePathCache := _templatePathCache w;
     nextTemplateId := nextTemplateId w;
     templateMap := templateMap w; trace := trace w ++ evs |}.

(** [restart()] *)
Definition restart (w : TemplateWriter) : TemplateWriter := withCounts 0 0 w.

(** The setters at the end of the class. *)
Definition overrideConfig (c : Config) (w : TemplateWriter) := withConfig c w.

Definition setVerboseOutput (b : bool) (w : TemplateWriter) :=
  withFlags b (isDryRun w) (isRunInitialBuild w) (isIncremental w) w.

Definition setDryRun (b : bool) (w : TemplateWriter) :=
  withFlags (isVerbose w) b (isRunInitialBuild w) (isIncremental w) w.

Definition setRunInitialBuild (b : bool) (w : TemplateWriter) :=
  withFlags (isVerbose w) (isDryRun w) b (isIncremental w) w.

Definition setIncrementalBuild (b : bool) (w : TemplateWriter) :=
  withFlags (isVerbose w) (isDryRun w) (isRunInitialBuild w) b w.

Definition setIncrementalFile (f : JS.MaybePath) (w : TemplateWriter) :=
  withIncrementalFile f w.

Definition resetIncrementalFile (w : TemplateWriter) :=
  withIncrementalFile JS.Null w.

Definition getWriteCount (w : TemplateWriter) : nat := writeCount w.
Definition getSkippedCount (w : TemplateWriter) : nat := skippedCount w.

(** ** Building the template map *)

Inductive Completion := Resolves | Rejects.

(** A promise of [this.templateMap.add(tmpl)], by the build entry that is
    in the map once the data cascade of the handle has succeeded. The
    cascade is under way, or the promise was awaited and is fulfilled
    (line 217). *)
Inductive Registration :=
| Registering (entry : MapEntry)
| Registered (entry : MapEntry).

(** The registrations of the [promises] array whose cascade is under
    way. *)
Definition inFlight (promises : list Registration) : list MapEntry :=
  omap (fun p =>
          match p with
          | Registering entry => Some entry
          | Registered _ => None
          end) promises.

Section Builder.

Context (E : Env).

(** [_isIncrementalFileAPassthroughCopy(paths)] *)
Definition _isIncrementalFileAPassthroughCopy (w : TemplateWriter)
  (paths : list string) : bool :=
  match JS.asTruthy (incrementalFile w) with
  | None => false
  | Some file => isPassthroughCopyFile E paths file
  end.

(** The loop over [this.config.linters]. *)
Definition addLinters (ls : list (string * bool)) (tmpl : Template.t)
  : Template.t :=
  fold_left
    (fun (t : Template.t) (l : string * bool) =>
       if snd l then Template.addLinter (fst l) t else t) ls tmpl.

(** [_createTemplate(path, to)]: the handle, [wasCached] and the writer
    afterwards. The handle is the one the cache holds under [path]. *)
Definition _createTemplate (w : TemplateWriter) (path to : string)
  : Template.t * bool * TemplateWriter :=
  let '(tmpl, wasCached, next) :=
    match _templatePathCache w !! path with
    | Some tmpl =>
      (Template.setTemplateData (templateData w) tmpl, true, nextTemplateId w)
    | None =>
      let tmpl := Template.new (nextTemplateId w) path (templateData w) in
      let tmpl := Template.setOutputFormat to tmpl in
      let tmpl := Template.setTransforms (cfg_transforms (config w)) tmpl in
      (addLinters (cfg_linters (config w)) tmpl, false, S (nextTemplateId w))
    end in
  let tmpl := Template.setDryRun (isDryRun w) tmpl in
  let tmpl := Template.setIsVerbose (isVerbose w) tmpl in
  let tmpl := Template.reset tmpl in
  (tmpl, wasCached,
   record [EvCreateTemplate path wasCached]
     (withCache (<[path := tmpl]> (_templatePathCache w)) next w)).

(** The calls on [tmpl] after [_createTemplate] mutate the cached object
    in place: the new state of the handle replaces the old one under its
    key. *)
Definition store (path : string) (tmpl : Template.t) (w : TemplateWriter)
  : TemplateWriter :=
  withCache (<[path := tmpl]> (_templatePathCache w)) (nextTemplateId w) w.

(** Modelled from the spec: TemplateMap.js is not part of the sources at
    hand. [this.templateMap.add(tmpl)] starts the data cascade of the
    handle and returns its promise, given here by the entry it stands
    for. A build entry pairs the handle with the metadata that the cascade
    produces for this run (input and output path): the call itself puts
    nothing in the map. *)
Definition TemplateMap_add (path : string) (tmpl : Template.t)
  (w : TemplateWriter) : MapEntry * TemplateWriter :=
  ({| me_template := path;
      me_inputPath := Template.inputPath tmpl;
      me_outputPath := outputPathOf E (Template.inputPath tmpl) |},
   record [EvTemplateMapAdd path] w).

(** Modelled from the spec: the data cascade of a registration ends. When
    it succeeded, the entry is added to the map and the promise is
    fulfilled; when it failed, nothing is registered and the promise is
    rejected ([None]). *)
Definition cascadeDone (entry : MapEntry) (w : TemplateWriter)
  : option TemplateWriter :=
  if dataCascade E (me_inputPath entry)
  then Some (withTemplateMap (templateMap w ++ [entry]) w)
  else None.

(** The order in which the cascades under way end is not decided by the
    writer: [dataCascadeEnd] ranks them. [endsAmong entry ended] puts a
    cascade that was started before those of [ended] at its place among
    them. *)
Fixpoint endsAmong (entry : MapEntry) (ended : list MapEntry)
  : list MapEntry :=
  match ended with
  | [] => [entry]
  | e :: rest =>
    if Nat.leb (dataCascadeEnd E (me_inputPath entry))
         (dataCascadeEnd E (me_inputPath e))
    then entry :: e :: rest
    else e :: endsAmong entry rest
  end.

(** The registrations [started], in the order in which their cascades
    end. *)
Fixpoint completionOrder (started : list MapEntry) : list MapEntry :=
  match started with
  | [] => []
  | entry :: rest => endsAmong entry (completionOrder rest)
  end.

(** The cascades end one after the other, each putting its entry in the
    map, until one fails. *)
Fixpoint cascadesEnd (entries : list MapEntry) (w : TemplateWriter)
  : TemplateWriter * Completion :=
  match entries with
  | [] => (w, Resolves)
  | entry :: rest =>
    match cascadeDone entry w with
    | Some w' => cascadesEnd rest w'
    | None => (w, Rejects)
    end
  end.

(** Lines 245-257: no incremental file. *)
Definition fullBuildPolicy (w : TemplateWriter) (wasCached : bool)
  (tmpl : Template.t) : Template.t :=
  let tmpl :=
    if negb (isRunInitialBuild w) then
      if wasCached then Template.setRenderableOverride None tmpl
      else Template.setRenderableOverride (Some false) tmpl
    else tmpl in
  if wasCached then Template.resetCaches None tmpl else tmpl.

Definition dataAndRender : Template.ResetTypes :=
  {| Template.rt_data := true; Template.rt_read := false;
     Template.rt_render := true |}.

Definition dataOnly : Template.ResetTypes :=
  {| Template.rt_data := true; Template.rt_read := false;
     Template.rt_render := false |}.

(** Lines 260-262: [relevantToDeletions.has(...)]. *)
Definition relevantToDeletions_has (relevantToDeletions : gset string)
  (tmpl : Template.t) : bool :=
  bool_decide
    (TemplatePath.stripLeadingDotSlash (Template.inputPath tmpl)
       ∈ relevantToDeletions).

(** Lines 266-268: a handle that was not cached gets its render engine
    now. *)
Definition materialize (wasCached : bool) (tmpl : Template.t)
  : Template.t :=
  if negb wasCached && negb (Template.hasTemplateRender tmpl)
  then Template.getTemplateRender tmpl else tmpl.

(** Lines 259-300: the incremental file is [file]. The boolean tells
    whether the skipped counter is incremented. *)
Definition incrementalPolicy (w : TemplateWriter) (file : string)
  (isFullTemplate : bool) (relevantToDeletions : gset string)
  (wasCached : bool) (tmpl : Template.t) : Template.t * bool :=
  let isTemplateRelevantToDeletedCollections :=
    relevantToDeletions_has relevantToDeletions tmpl in
  let tmpl := materialize wasCached tmpl in
  if isTemplateRelevantToDeletedCollections
     || isFileRelevantToThisTemplate E tmpl file isFullTemplate
  then
    let tmpl := Template.resetCaches (Some dataAndRender) tmpl in
    let tmpl :=
      if negb (isRunInitialBuild w)
      then Template.setRenderableOverride None tmpl else tmpl in
    (tmpl, false)
  else
    let tmpl := Template.resetCaches (Some dataOnly) tmpl in
    let tmpl :=
      if negb (isRunInitialBuild w)
      then Template.setRenderableOverride (Some false) tmpl else tmpl in
    (Template.setDryRunViaIncremental tmpl, true).

(** Lines 245-301: what the loop does to the handle of a path, and whether
    the skipped counter is incremented. *)
Definition policy (w : TemplateWriter) (isFullTemplate : bool)
  (relevantToDeletions : gset string) (wasCached : bool) (tmpl : Template.t)
  : Template.t * bool :=
  match JS.asTruthy (incrementalFile w) with
  | None => (fullBuildPolicy w wasCached tmpl, false)
  | Some file =>
    incrementalPolicy w file isFullTemplate relevantToDeletions wasCached tmpl
  end.

(** What the loop does with one path. *)
Inductive PathClass :=
| NoEngine
| PassthroughSkipped
| AlreadyRegistered
| Qualifying.

Definition classify (w : TemplateWriter) (isFullTemplate isPassthrough : bool)
  (path : string) : PathClass :=
  if negb (hasEngine E path) then NoEngine
  else if isPassthrough then PassthroughSkipped
  else if isFullTemplate && JS.strictEq (incrementalFile w) path
  then AlreadyRegistered
  else Qualifying.

(** One iteration of the loop of [_addToTemplateMap] (lines 228-306);
    the second component is the [promises] array. *)
Definition addPath (to : string) (isFullTemplate isPassthrough : bool)
  (relevantToDeletions : gset string)
  (st : TemplateWriter * list Registration) (path : string)
  : TemplateWriter * list Registration :=
  let '(w, promises) := st in
  match classify w isFullTemplate isPassthrough path with
  | NoEngine => (w, promises)
  | PassthroughSkipped =>
    (record [EvSkipped path]
       (withCounts (writeCount w) (S (skippedCount w)) w), promises)
  | AlreadyRegistered => (w, promises)
  | Qualifying =>
    let '(tmpl, wasCached, w1) := _createTemplate w path to in
    let '(tmpl, skipped) :=
      policy w isFullTemplate relevantToDeletions wasCached tmpl in
    let w2 := store path tmpl w1 in
    let w3 :=
      if skipped
      then withCounts (writeCount w2) (S (skippedCount w2)) w2 else w2 in
    let '(p, w4) := TemplateMap_add path tmpl w3 in
    (w4, promises ++ [Registering p])
  end.

(** Lines 206-213: the handle of the changed full template. *)
Definition changedTemplatePolicy (w : TemplateWriter) (wasCached : bool)
  (tmpl : Template.t) : Template.t :=
  let tmpl := if wasCached then Template.resetCaches None tmpl else tmpl in
  if negb (isRunInitialBuild w)
  then Template.setRenderableOverride None tmpl else tmpl.

(** Lines 204-226: the changed full template is registered first, and
    its promise is awaited: no other cascade is under way, so this one
    ends. The result is [None] when the await throws. *)
Definition preRegister (w : TemplateWriter) (file to : string)
  : TemplateWriter * option (list Registration * gset string) :=
  let '(tmpl, wasCached, w1) := _createTemplate w file to in
  let tmpl := changedTemplatePolicy w wasCached tmpl in
  let '(p, w2) := TemplateMap_add file tmpl (store file tmpl w1) in
  match cascadeDone p w2 with
  | Some w3 =>
    (record [EvAwaited file true;
             EvSetupDependencyGraphChanges (Template.inputPath tmpl);
             EvAddToGlobalDependencyGraph] w3,
     Some ([Registered p],
           setupDependencyGraphChangesForIncrementalFile E
             (Template.inputPath tmpl)))
  | None => (record [EvAwaited file false] w2, None)
  end.

(** [Promise.all(promises)] over the registrations (line 308): the
    cascades under way end in their order, and the first one that fails
    rejects the promise. What the cascades that end after it do to the
    abandoned map is not followed; the next run starts with a new map
    (line 312). *)
Definition allRegistered (promises : list Registration) (w : TemplateWriter)
  : TemplateWriter * Completion :=
  cascadesEnd (completionOrder (inFlight promises)) w.

(** [_addToTemplateMap(paths, to)] *)
Definition _addToTemplateMap (w : TemplateWriter) (paths : list string)
  (to : string) : TemplateWriter * Completion :=
  let isIncrementalFileAFullTemplate :=
    isFullTemplateFile E paths (incrementalFile w) in
  let isIncrementalFileAPassthroughCopy :=
    _isIncrementalFileAPassthroughCopy w paths in
  let loop w0 promises relevantToDeletions :=
    let '(w', promises') :=
      fold_left
        (addPath to isIncrementalFileAFullTemplate
           isIncrementalFileAPassthroughCopy relevantToDeletions)
        paths (w0, promises) in
    allRegistered promises' w' in
  match
    (if isIncrementalFileAFullTemplate
     then JS.asTruthy (incrementalFile w) else None)
  with
  | Some file =>
    match preRegister w file to with
    | (w1, Some (promises, relevantToDeletions)) =>
      loop w1 promises relevantToDeletions
    | (w1, None) => (w1, Rejects)
    end
  | None => loop w [] ∅
  end.

(** [_createTemplateMap(paths, to)] *)
Definition _createTemplateMap (w : TemplateWriter) (paths : list string)
  (to : string) : TemplateWriter * Completion :=
  let '(w1, r) := _addToTemplateMap (withTemplateMap [] w) paths to in
  match r with
  | Rejects => (w1, Rejects)
  | Resolves =>
    (record [EvAddToGlobalDependencyGraph; EvTemplateMapCache] w1, Resolves)
  end.

End Builder.

Arguments addPath : simpl never.
Arguments _createTemplate : simpl never.

(** ** Generating the templates *)

(** A run of [write] or [getJSON] is modelled in two phases, as the
    JavaScript event loop runs it. The synchronous part of
    [generateTemplates] (from the end of [await this._createTemplateMap] to
    [return promises]) runs without interruption: it calls
    [_generateTemplate] for the map entries, which starts their generation,
    and attaches the [catch] callbacks; no callback passed to [then] or
    [catch] runs during it. Afterwards the started tasks settle, one after
    the other, in an order the program does not control: the schedule. When
    a task settles, its callbacks run. *)

(** What a promise of the [promises] array waits for: the passthrough copy
    of [writePassthroughCopy], or the generation of a map entry, started by
    the first or by the second loop of [generateTemplates]. *)
Inductive Task :=
| TaskCopy (paths : list string)
| TaskGenerate (mapEntry : MapEntry) (wave : Wave).

(** The value of a fulfilled promise: undefined (a [catch] callback that
    returns nothing), the result of the copy, the pages of an entry, or one
    page after [flat()]. *)
Inductive Value :=
| VUndefined
| VCopied
| VPages (pages : list string)
| VPage (page : string).

(** The errors the writer wraps failures in (lines 18-19). *)
Inductive Error :=
| EleventyTemplateError (message : string) (originalError : RawError)
| EleventyPassthroughCopyError (message : string) (originalError : RawError).

Inductive Promise :=
| Pending
| Fulfilled (v : Value)
| Rejected (e : Error).

(** What happens in a run: a task is started (its promise is
    [promises[index]]), it settles, [Promise.all(promises)] is rejected. *)
Inductive RunEvent :=
| Started (index : nat) (task : Task)
| Settled (index : nat) (task : Task) (result : Promise)
| AllRejected (e : Error).

(** The state of one run: the writer, the array
    [usedTemplateContentTooEarlyMap] the callbacks share, the [promises]
    array (each promise with the task it waits for), the reason with which
    [Promise.all(promises)] was rejected, if it was, and what happened so
    far. *)
Record Run := {
  writer : TemplateWriter;
  usedTemplateContentTooEarlyMap : list MapEntry;
  promises : list (Task * Promise);
  rejection : option Error;
  history : list RunEvent;
}.

Definition newRun (w : TemplateWriter) : Run :=
  {| writer := w; usedTemplateContentTooEarlyMap := []; promises := [];
     rejection := None; history := [] |}.

(** [s] between double quotes, as the messages have the paths. *)
Definition quoted (s : string) : string :=
  String (ascii_of_nat 34) (s ++ String (ascii_of_nat 34) EmptyString)%string.

Definition firstPassMessage (mapEntry : MapEntry) : string :=
  ("Having trouble writing to " ++ quoted (me_outputPath mapEntry)
   ++ " from " ++ quoted (me_inputPath mapEntry))%string.

Definition secondPassMessage (mapEntry : MapEntry) : string :=
  ("Having trouble writing to (second pass) "
   ++ quoted (me_outputPath mapEntry)
   ++ " from " ++ quoted (me_inputPath mapEntry))%string.

(** How the promise of [write()] or [getJSON()] stands: fulfilled with the
    results, rejected with a wrapped error, rejected because the template
    map could not be built, or not settled yet. *)
Inductive Outcome :=
| Returned (results : list Value)
| Thrown (e : Error)
| TemplateMapRejected
| Unsettled.

Section Scheduler.

Context (E : Env).

(** A task is started: its promise is pushed to [promises]. *)
Definition start (task : Task) (r : Run) : Run :=
  {| writer := writer r;
     usedTemplateContentTooEarlyMap := usedTemplateContentTooEarlyMap r;
     promises := promises r ++ [(task, Pending)];
     rejection := rejection r;
     history := history r ++ [Started (length (promises r)) task] |}.

(** [_generateTemplate(mapEntry, to)] (lines 325-332), when the generation
    settles: the [then] callback adds the handle's write count to the
    writer's and passes the pages on; an error passes through. *)
Definition _generateTemplate (mapEntry : MapEntry) (wave : Wave) (r : Run)
  : Run * (list string + RawError) :=
  match generateMapEntry E mapEntry wave with
  | Generated pages written =>
    ({| writer :=
          withCounts (writeCount (writer r) + written)
            (skippedCount (writer r)) (writer r);
        usedTemplateContentTooEarlyMap := usedTemplateContentTooEarlyMap r;
        promises := promises r;
        rejection := rejection r;
        history := history r |},
     inl pages)
  | Failed e => (r, inr e)
  end.

(** The [catch] callback of the first loop (lines 356-369). *)
Definition firstPassCatch (mapEntry : MapEntry) (e : RawError) (r : Run)
  : Run * Promise :=
  if isPrematureTemplateContentError e then
    ({| writer := writer r;
        usedTemplateContentTooEarlyMap :=
          usedTemplateContentTooEarlyMap r ++ [mapEntry];
        promises := promises r;
        rejection := rejection r;
        history := history r |},
     Fulfilled VUndefined)
  else (r, Rejected (EleventyTemplateError (firstPassMessage mapEntry) e)).

(** The [catch] callback of the second loop (lines 375-382). *)
Definition secondPassCatch (mapEntry : MapEntry) (e : RawError) : Promise :=
  Rejected (EleventyTemplateError (secondPassMessage mapEntry) e).

(** [writePassthroughCopy(paths)] (lines 334-342), when the copy
    settles. *)
Definition writePassthroughCopy (paths : list string) : Promise :=
  match copyAll E paths with
  | None => Fulfilled VCopied
  | Some e =>
    Rejected (EleventyPassthroughCopyError "Having trouble copying" e)
  end.

(** The callbacks of a task, run when it settles. The result is the state
    of the promise that was pushed to [promises]. *)
Definition callbacks (task : Task) (r : Run) : Run * Promise :=
  match task with
  | TaskCopy paths => (r, writePassthroughCopy paths)
  | TaskGenerate mapEntry wave =>
    match _generateTemplate mapEntry wave r with
    | (r1, inl pages) => (r1, Fulfilled (VPages pages))
    | (r1, inr e) =>
      match wave with
      | FirstWave => firstPassCatch mapEntry e r1
      | SecondWave => (r1, secondPassCatch mapEntry e)
      end
    end
  end.

(** [Promise.all(promises)] is rejected by the first rejection it sees,
    with its reason. *)
Definition observe (result : Promise) (r : Run) : Run :=
  match result, rejection r with
  | Rejected e, None =>
    {| writer := writer r;
       usedTemplateContentTooEarlyMap := usedTemplateContentTooEarlyMap r;
       promises := promises r;
       rejection := Some e;
       history := history r ++ [AllRejected e] |}
  | _, _ => r
  end.

(** The task behind [promises[i]] settles. *)
Definition settle (r : Run) (i : nat) : Run :=
  match promises r !! i with
  | Some (task, Pending) =>
    let '(r1, result) := callbacks task r in
    observe result
      {| writer := writer r1;
         usedTemplateContentTooEarlyMap := usedTemplateContentTooEarlyMap r1;
         promises := <[i := (task, result)]> (promises r1);
         rejection := rejection r1;
         history := history r1 ++ [Settled i task result] |}
  | _ => r
  end.

(** [generateTemplates(paths, to)] up to [return promises]. *)
Definition generateTemplates (r : Run) (paths : list string) (to : string)
  : Run * Completion :=
  let '(w, c) := _createTemplateMap E (writer r) paths to in
  match c with
  | Rejects =>
    ({| writer := w;
        usedTemplateContentTooEarlyMap := usedTemplateContentTooEarlyMap r;
        promises := promises r; rejection := rejection r;
        history := history r |}, Rejects)
  | Resolves =>
    let r0 :=
      {| writer := w; usedTemplateContentTooEarlyMap := [];
         promises := promises r; rejection := rejection r;
         history := history r |} in
    let r1 :=
      fold_left (fun r mapEntry => start (TaskGenerate mapEntry FirstWave) r)
        (templateMap w) r0 in
    let r2 :=
      fold_left (fun r mapEntry => start (TaskGenerate mapEntry SecondWave) r)
        (usedTemplateContentTooEarlyMap r1) r1 in
    (r2, Resolves)
  end.

(** The value of [Promise.all(promises)]. *)
Definition fulfilledValue (p : Task * Promise) : option Value :=
  match snd p with
  | Fulfilled v => Some v
  | _ => None
  end.

Definition outcome (r : Run) : Outcome :=
  match rejection r with
  | Some e => Thrown e
  | None =>
    match mapM fulfilledValue (promises r) with
    | Some results => Returned results
    | None => Unsettled
    end
  end.

(** [write()], with the paths [_getAllPaths()] gives and the order in
    which the tasks settle. *)
Definition write (w : TemplateWriter) (paths : list string)
  (schedule : list nat) : Run * Outcome :=
  let r := start (TaskCopy paths) (newRun w) in
  match generateTemplates r paths "fs" with
  | (r, Rejects) => (r, TemplateMapRejected)
  | (r, Resolves) =>
    let r := fold_left settle schedule r in
    (r, outcome r)
  end.

(** [results.flat()] *)
Definition flat (results : list Value) : list Value :=
  concat
    (map (fun v => match v with
                   | VPages pages => map VPage pages
                   | _ => [v]
                   end) results).

(** [getJSON(to)] *)
Definition getJSON (w : TemplateWriter) (to : string) (paths : list string)
  (schedule : list nat) : Run * Outcome :=
  match generateTemplates (newRun w) paths to with
  | (r, Rejects) => (r, TemplateMapRejected)
  | (r, Resolves) =>
    let r := fold_left settle schedule r in
    (r, match outcome r with
        | Returned results => Returned (flat results)
        | o => o
        end)
  end.

(** The pages the caller of [write] or [getJSON] receives. *)
Definition returnedPages (o : Outcome) : list string :=
  match o with
  | Returned results =>
    concat (map (fun v => match v with
                          | VPages pages => pages
                          | VPage page => [page]
                          | _ => []
                          end) results)
  | _ => []
  end.

End Scheduler.

(** ** The operations of the writer *)

(** The methods that change the writer, with what the outside gives them:
    the paths of [_getAllPaths()] and the order in which the tasks
    settle. *)
Inductive Op :=
| OpRestart
| OpOverrideConfig (c : Config)
| OpSetVerboseOutput (b : bool)
| OpSetDryRun (b : bool)
| OpSetRunInitialBuild (b : bool)
| OpSetIncrementalBuild (b : bool)
| OpSetIncrementalFile (f : JS.MaybePath)
| OpResetIncrementalFile
| OpWrite (paths : list string) (schedule : list nat)
| OpGetJSON (to : string) (paths : list string) (schedule : list nat).

Definition perform (E : Env) (op : Op) (w : TemplateWriter) : TemplateWriter :=
  match op with
  | OpRestart => restart w
  | OpOverrideConfig c => overrideConfig c w
  | OpSetVerboseOutput b => setVerboseOutput b w
  | OpSetDryRun b => setDryRun b w
  | OpSetRunInitialBuild b => setRunInitialBuild b w
  | OpSetIncrementalBuild b => setIncrementalBuild b w
  | OpSetIncrementalFile f => setIncrementalFile f w
  | OpResetIncrementalFile => resetIncrementalFile w
  | OpWrite paths schedule => writer (write E w paths schedule).1
  | OpGetJSON to paths schedule => writer (getJSON E w to paths schedule).1
  end.

(** ** What the properties are stated with *)

(** Every handle of the cache was allocated by the writer, and no two
    keys share a handle. *)
Definition cacheOk (w : TemplateWriter) : Prop :=
  (forall p t, _templatePathCache w !! p = Some t ->
               Template.tid t < nextTemplateId w)
  /\ (forall p q t u,
        _templatePathCache w !! p = Some t ->
        _templatePathCache w !! q = Some u ->
        Template.tid t = Template.tid u -> p = q).

(** The fields the loop never assigns. *)
Definition sameSettings (w w' : TemplateWriter) : Prop :=
  incrementalFile w' = incrementalFile w
  /\ isRunInitialBuild w' = isRunInitialBuild w
  /\ writeCount w' = writeCount w
  /\ config w' = config w.

#[global] Instance PathClass_eq_dec : EqDecision PathClass.
Proof. solve_decision. Defined.

(** The events an iteration of the loop can leave in the trace. *)
Definition loopEvent (cls : string -> PathClass) (paths : list string)
  (ev : Event) : Prop :=
  match ev with
  | EvCreateTemplate p _ => p ∈ paths /\ cls p = Qualifying
  | EvTemplateMapAdd p => p ∈ paths /\ cls p = Qualifying
  | EvSkipped p => p ∈ paths /\ cls p = PassthroughSkipped
  | _ => False
  end.

(** A promise of the [promises] array is rejected. *)
Definition isRejection (ev : RunEvent) : Prop :=
  match ev with
  | Settled _ _ (Rejected _) => True
  | _ => False
  end.

(** The generation of a map entry is started in the second wave. *)
Definition isSecondWaveStart (ev : RunEvent) : Prop :=
  match ev with
  | Started _ (TaskGenerate _ SecondWave) => True
  | _ => False
  end.

(** Where the rejection of [Promise.all] stands in the history: nothing
    was rejected while there is none, and else it follows the first
    rejection at once, with its reason. *)
Definition rejectionRecorded (r : Run) : Prop :=
  match rejection r with
  | None => Forall (fun ev => ~ isRejection ev) (history r)
  | Some e =>
    exists pre j task post,
      history r = pre ++ Settled j task (Rejected e) :: AllRejected e :: post
      /\ Forall (fun ev => ~ isRejection ev) pre
  end.

(** ** The collaborators the writer creates on first use *)

(** Lines 46-134 and 420-429: the getters that build a collaborator when
    it is first asked for. The objects are told apart by the number they
    get when they are created. *)
Module Services.

(** [new ConsoleLogger()], with the value this class assigned to its
    [isVerbose]: undefined ([None]) or a boolean. *)
Record ConsoleLogger := {
  lg_id : nat;
  lg_isVerbose : option bool;
}.

(** [new EleventyErrorHandler()], with the values this class last
    assigned to its [isVerbose] and to its [logger]. What the error handler
    does with them is not part of TemplateWriter.js. *)
Record EleventyErrorHandler := {
  eh_id : nat;
  eh_isVerbose : option bool;
  eh_logger : ConsoleLogger;
}.

(** [new EleventyExtensionMap(eleventyConfig)] after [setFormats]. *)
Record EleventyExtensionMap := {
  em_id : nat;
  em_formats : list string;
}.

(** [new EleventyFiles(templateFormats, eleventyConfig)], with whether a
    file system search was set and [init()] was called. *)
Record EleventyFiles := {
  ef_id : nat;
  ef_formats : list string;
  ef_fileSystemSearch : bool;
  ef_initialized : bool;
}.

(** The fields of the writer behind the getters. [verboseMode] is read by
    the getters of the error handler and of the logger; no line of the
    class assigns it, so it is undefined unless code outside does. *)
Record t := {
  verboseMode : option bool;
  isVerbose : bool;
  _templateFormats : list string;
  _errorHandler : option EleventyErrorHandler;
  _logger : option ConsoleLogger;
  _extensionMap : option EleventyExtensionMap;
  _eleventyFiles : option EleventyFiles;
  nextObject : nat;
}.

(** The fields as the constructor leaves them (lines 34-37). *)
Definition initial (templateFormats : list string) : t :=
  {| verboseMode := None; isVerbose := true;
     _templateFormats := templateFormats;
     _errorHandler := None; _logger := None;
     _extensionMap := None; _eleventyFiles := None; nextObject := 0 |}.

(** [get templateFormats()] and [set templateFormats(value)] *)
Definition templateFormats (s : t) : list string := _templateFormats s.

Definition set_templateFormats (value : list string) (s : t) : t :=
  {| verboseMode := verboseMode s; isVerbose := isVerbose s;
     _templateFormats := value;
     _errorHandler := _errorHandler s; _logger := _logger s;
     _extensionMap := _extensionMap s; _eleventyFiles := _eleventyFiles s;
     nextObject := nextObject s |}.

(** [get logger()] (lines 78-85) *)
Definition logger (s : t) : ConsoleLogger * t :=
  match _logger s with
  | Some l => (l, s)
  | None =>
    let l := {| lg_id := nextObject s; lg_isVerbose := verboseMode s |} in
    (l,
     {| verboseMode := verboseMode s; isVerbose := isVerbose s;
        _templateFormats := _templateFormats s;
        _errorHandler := _errorHandler s; _logger := Some l;
        _extensionMap := _extensionMap s; _eleventyFiles := _eleventyFiles s;
        nextObject := S (nextObject s) |})
  end.

(** [set logger(logger)] (lines 88-90); the argument may be undefined. *)
Definition set_logger (l : option ConsoleLogger) (s : t) : t :=
  {| verboseMode := verboseMode s; isVerbose := isVerbose s;
     _templateFormats := _templateFormats s;
     _errorHandler := _errorHandler s; _logger := l;
     _extensionMap := _extensionMap s; _eleventyFiles := _eleventyFiles s;
     nextObject := nextObject s |}.

(** [get errorHandler()] (lines 67-75) *)
Definition errorHandler (s : t) : EleventyErrorHandler * t :=
  match _errorHandler s with
  | Some h => (h, s)
  | None =>
    let id := nextObject s in
    let s1 :=
      {| verboseMode := verboseMode s; isVerbose := isVerbose s;
         _templateFormats := _templateFormats s;
         _errorHandler := _errorHandler s; _logger := _logger s;
         _extensionMap := _extensionMap s; _eleventyFiles := _eleventyFiles s;
         nextObject := S (nextObject s) |} in
    let '(l, s2) := logger s1 in
    let h :=
      {| eh_id := id; eh_isVerbose := verboseMode s; eh_logger := l |} in
    (h,
     {| verboseMode := verboseMode s2; isVerbose := isVerbose s2;
        _templateFormats := _templateFormats s2;
        _errorHandler := Some h; _logger := _logger s2;
        _extensionMap := _extensionMap s2; _eleventyFiles := _eleventyFiles s2;
        nextObject := nextObject s2 |})
  end.

(** [setVerboseOutput(isVerbose)] (lines 420-423) *)
Definition setVerboseOutput (b : bool) (s : t) : t :=
  let s0 :=
    {| verboseMode := verboseMode s; isVerbose := b;
       _templateFormats := _templateFormats s;
       _errorHandler := _errorHandler s; _logger := _logger s;
       _extensionMap := _extensionMap s; _eleventyFiles := _eleventyFiles s;
       nextObject := nextObject s |} in
  let '(h, s1) := errorHandler s0 in
  {| verboseMode := verboseMode s1; isVerbose := isVerbose s1;
     _templateFormats := _templateFormats s1;
     _errorHandler :=
       Some {| eh_id := eh_id h; eh_isVerbose := Some b;
               eh_logger := eh_logger h |};
     _logger := _logger s1;
     _extensionMap := _extensionMap s1; _eleventyFiles := _eleventyFiles s1;
     nextObject := nextObject s1 |}.

(** [set extensionMap(extensionMap)] and [get extensionMap()] (lines
    103-113) *)
Definition set_extensionMap (m : option EleventyExtensionMap) (s : t) : t :=
  {| verboseMode := verboseMode s; isVerbose := isVerbose s;
     _templateFormats := _templateFormats s;
     _errorHandler := _errorHandler s; _logger := _logger s;
     _extensionMap := m; _eleventyFiles := _eleventyFiles s;
     nextObject := nextObject s |}.

Definition extensionMap (s : t) : EleventyExtensionMap * t :=
  match _extensionMap s with
  | Some m => (m, s)
  | None =>
    let m := {| em_id := nextObject s; em_formats := templateFormats s |} in
    (m,
     {| verboseMode := verboseMode s; isVerbose := isVerbose s;
        _templateFormats := _templateFormats s;
        _errorHandler := _errorHandler s; _logger := _logger s;
        _extensionMap := Some m; _eleventyFiles := _eleventyFiles s;
        nextObject := S (nextObject s) |})
  end.

(** [setEleventyFiles(eleventyFiles)], [set eleventyFiles(eleventyFiles)]
    and [get eleventyFiles()] (lines 115-134) *)
Definition setEleventyFiles (f : option EleventyFiles) (s : t) : t :=
  {| verboseMode := verboseMode s; isVerbose := isVerbose s;
     _templateFormats := _templateFormats s;
     _errorHandler := _errorHandler s; _logger := _logger s;
     _extensionMap := _extensionMap s; _eleventyFiles := f;
     nextObject := nextObject s |}.

Definition eleventyFiles (s : t) : EleventyFiles * t :=
  match _eleventyFiles s with
  | Some f => (f, s)
  | None =>
    let f :=
      {| ef_id := nextObject s; ef_formats := templateFormats s;
         ef_fileSystemSearch := true; ef_initialized := true |} in
    (f,
     {| verboseMode := verboseMode s; isVerbose := isVerbose s;
        _templateFormats := _templateFormats s;
        _errorHandler := _errorHandler s; _logger := _logger s;
        _extensionMap := _extensionMap s; _eleventyFiles := Some f;
        nextObject := S (nextObject s) |})
  end.

(** What code outside can do to the fields behind the getters, and the
    getters themselves (reading one may create the object). The other
    methods of the class reach these fields through the getters only. *)
Inductive Access :=
| GetLogger
| SetLogger (l : option ConsoleLogger)
| GetErrorHandler
| SetVerboseOutput (b : bool)
| SetTemplateFormats (value : list string)
| GetExtensionMap
| SetExtensionMap (m : option EleventyExtensionMap)
| GetEleventyFiles
| SetEleventyFiles (f : option EleventyFiles).

Definition access (a : Access) (s : t) : t :=
  match a with
  | GetLogger => (logger s).2
  | SetLogger l => set_logger l s
  | GetErrorHandler => (errorHandler s).2
  | SetVerboseOutput b => setVerboseOutput b s
  | SetTemplateFormats value => set_templateFormats value s
  | GetExtensionMap => (extensionMap s).2
  | SetExtensionMap m => set_extensionMap m s
  | GetEleventyFiles => (eleventyFiles s).2
  | SetEleventyFiles f => setEleventyFiles f s
  end.

(** A sequence of accesses. *)
Definition accessAll (accesses : list Access) (s : t) : t :=
  fold_left (fun s a => access a s) accesses s.

End Services.

(** ** What the further properties are stated with *)

(** Each handle of the cache has the key it is stored under as its input
    path. *)
Definition keysAreInputPaths (w : TemplateWriter) : Prop :=
  forall p t, _templatePathCache w !! p = Some t -> Template.inputPath t = p.

(** Every handle of [w] is still there in [w'], the same object for the
    same input path. *)
Definition keepsHandles (w w' : TemplateWriter) : Prop :=
  forall p t,
    _templatePathCache w !! p = Some t ->
    exists t',
      _templatePathCache w' !! p = Some t'
      /\ Template.tid t' = Template.tid t
      /\ Template.inputPath t' = Template.inputPath t.

(** What one iteration of the loop, or the registration before it, does
    to the cache: nothing, or it gets a handle with [_createTemplate] and
    puts back the same object under the same key. *)
Definition handleStep (w w' : TemplateWriter) : Prop :=
  (_templatePathCache w' = _templatePathCache w
   /\ nextTemplateId w' = nextTemplateId w)
  \/ exists path to tmpl,
       _templatePathCache w' = <[path := tmpl]> (_templatePathCache w)
       /\ nextTemplateId w' = nextTemplateId (_createTemplate w path to).2
       /\ Template.tid tmpl = Template.tid (_createTemplate w path to).1.1
       /\ Template.inputPath tmpl
          = Template.inputPath (_createTemplate w path to).1.1.

(** The cache of [w'] comes from the cache of [w]: it is well formed when
    that one was, and it has kept its handles. *)
Definition cacheEvolves (w w' : TemplateWriter) : Prop :=
  (cacheOk w /\ keysAreInputPaths w -> cacheOk w' /\ keysAreInputPaths w')
  /\ keepsHandles w w'.

(** A sequence of operations. *)
Definition performAll (E : Env) (ops : list Op) (w : TemplateWriter)
  : TemplateWriter :=
  fold_left (fun w op => perform E op w) ops w.

(** How the promise of a task ends up, whenever the task settles. *)
Definition resultOf (E : Env) (task : Task) : Promise :=
  match task with
  | TaskCopy paths => writePassthroughCopy E paths
  | TaskGenerate mapEntry wave =>
    match generateMapEntry E mapEntry wave with
    | Generated pages _ => Fulfilled (VPages pages)
    | Failed e =>
      match wave with
      | FirstWave =>
        if isPrematureTemplateContentError e then Fulfilled VUndefined
        else Rejected (EleventyTemplateError (firstPassMessage mapEntry) e)
      | SecondWave => secondPassCatch mapEntry e
      end
    end
  end.

(** Every promise is pending, or settled the way its task settles. *)
Definition settledAsTasks (E : Env) (r : Run) : Prop :=
  Forall (fun tp => tp.2 = Pending \/ tp.2 = resultOf E tp.1) (promises r).

(** What the [then] callback of a task adds to the write count. *)
Definition writtenBy (E : Env) (task : Task) : nat :=
  match task with
  | TaskCopy _ => 0
  | TaskGenerate mapEntry wave =>
    match generateMapEntry E mapEntry wave with
    | Generated _ written => written
    | Failed _ => 0
    end
  end.

(** The value [write()] has for a map entry when it is fulfilled. *)
Definition entryValue (E : Env) (mapEntry : MapEntry) : Value :=
  match generateMapEntry E mapEntry FirstWave with
  | Generated pages _ => VPages pages
  | Failed _ => VUndefined
  end.

(** The paths whose registration was started ([this.templateMap.add] was
    called), in the order of the calls. *)
Definition registrationsStarted (evs : list Event) : list string :=
  omap (fun ev =>
          match ev with
          | EvTemplateMapAdd path => Some path
          | _ => None
          end) evs.

(** The build entry of a handle whose input path is its key. *)
Definition entryOf (E : Env) (path : string) : MapEntry :=
  {| me_template := path; me_inputPath := path;
     me_outputPath := outputPathOf E path |}.

(** ** Sample inputs *)

Module Sample.

Definition cfg : Config :=
  {| cfg_transforms := ["minify"]; cfg_linters := [("links", true); ("off", false)] |}.

(** Every path has an engine; nothing is relevant to anything. *)
Definition env : Env :=
  {| hasEngine := fun _ => true;
     isFullTemplateFile := fun _ _ => false;
     isPassthroughCopyFile := fun _ _ => false;
     isFileRelevantToThisTemplate := fun _ _ _ => false;
     setupDependencyGraphChangesForIncrementalFile := fun _ => ∅;
     dataCascade := fun _ => true;
     dataCascadeEnd := fun _ => 0;
     outputPathOf := fun s => ("_site/" ++ s)%string;
     generateMapEntry := fun me _ => Generated [me_outputPath me] 1;
     copyAll := fun _ => None |}.

Definition fresh : TemplateWriter := initial 0 cfg.

(** Every generation fails with a premature use of template content, in
    the first and in the second wave. *)
Definition prematureEnv : Env :=
  {| hasEngine := fun _ => true;
     isFullTemplateFile := fun _ _ => false;
     isPassthroughCopyFile := fun _ _ => false;
     isFileRelevantToThisTemplate := fun _ _ _ => false;
     setupDependencyGraphChangesForIncrementalFile := fun _ => ∅;
     dataCascade := fun _ => true;
     dataCascadeEnd := fun _ => 0;
     outputPathOf := fun s => ("_site/" ++ s)%string;
     generateMapEntry := fun _ _ => Failed TemplateContentPrematureUseError;
     copyAll := fun _ => None |}.



(** The changed file is a full template. *)
Definition changedTemplateEnv : Env :=
  {| hasEngine := fun _ => true;
     isFullTemplateFile := fun _ _ => true;
     isPassthroughCopyFile := fun _ _ => false;
     isFileRelevantToThisTemplate := fun _ _ _ => false;
     setupDependencyGraphChangesForIncrementalFile := fun _ => ∅;
     dataCascade := fun _ => true;
     dataCascadeEnd := fun _ => 0;
     outputPathOf := fun s => ("_site/" ++ s)%string;
     generateMapEntry := fun me _ => Generated [me_outputPath me] 1;
     copyAll := fun _ => None |}.

(** The changed file is copied and is no template. *)
Definition copiedAssetEnv : Env :=
  {| hasEngine := fun _ => true;
     isFullTemplateFile := fun _ _ => false;
     isPassthroughCopyFile := fun _ _ => true;
     isFileRelevantToThisTemplate := fun _ _ _ => false;
     setupDependencyGraphChangesForIncrementalFile := fun _ => ∅;
     dataCascade := fun _ => true;
     dataCascadeEnd := fun _ => 0;
     outputPathOf := fun s => ("_site/" ++ s)%string;
     generateMapEntry := fun me _ => Generated [me_outputPath me] 1;
     copyAll := fun _ => None |}.

(** An incremental run after b.md changed, with the initial build
    suppressed. *)
Definition incremental : TemplateWriter :=
  setIncrementalFile (JS.Str "b.md") (setRunInitialBuild false fresh).


Definition entryA : MapEntry :=
  {| me_template := "a.md"; me_inputPath := "a.md";
     me_outputPath := "_site/a.md" |}.

Definition entryB : MapEntry :=
  {| me_template := "b.md"; me_inputPath := "b.md";
     me_outputPath := "_site/b.md" |}.

(** The file logo.png has no engine. *)
Definition assetEnv : Env :=
  {| hasEngine := fun p => negb (String.eqb p "logo.png");
     isFullTemplateFile := fun _ _ => false;
     isPassthroughCopyFile := fun _ _ => false;
     isFileRelevantToThisTemplate := fun _ _ _ => false;
     setupDependencyGraphChangesForIncrementalFile := fun _ => ∅;
     dataCascade := fun _ => true;
     dataCascadeEnd := fun _ => 0;
     outputPathOf := fun s => ("_site/" ++ s)%string;
     generateMapEntry := fun me _ => Generated [me_outputPath me] 1;
     copyAll := fun _ => None |}.

(** The changed file is a full template, and every data cascade fails. *)
Definition brokenDataEnv : Env :=
  {| hasEngine := fun _ => true;
     isFullTemplateFile := fun _ _ => true;
     isPassthroughCopyFile := fun _ _ => false;
     isFileRelevantToThisTemplate := fun _ _ _ => false;
     setupDependencyGraphChangesForIncrementalFile := fun _ => ∅;
     dataCascade := fun _ => false;
     dataCascadeEnd := fun _ => 0;
     outputPathOf := fun s => ("_site/" ++ s)%string;
     generateMapEntry := fun me _ => Generated [me_outputPath me] 1;
     copyAll := fun _ => None |}.




(** The data cascade of a.md ends after the others, and logo.png has no
    engine. *)
Definition slowFirstEnv : Env :=
  {| hasEngine := fun p => negb (String.eqb p "logo.png");
     isFullTemplateFile := fun _ _ => false;
     isPassthroughCopyFile := fun _ _ => false;
     isFileRelevantToThisTemplate := fun _ _ _ => false;
     setupDependencyGraphChangesForIncrementalFile := fun _ => ∅;
     dataCascade := fun _ => true;
     dataCascadeEnd := fun p => if String.eqb p "a.md" then 1 else 0;
     outputPathOf := fun s => ("_site/" ++ s)%string;
     generateMapEntry := fun me _ => Generated [me_outputPath me] 1;
     copyAll := fun _ => None |}.

(** The data cascade of a.md fails. *)
Definition brokenCascadeEnv : Env :=
  {| hasEngine := fun _ => true;
     isFullTemplateFile := fun _ _ => false;
     isPassthroughCopyFile := fun _ _ => false;
     isFileRelevantToThisTemplate := fun _ _ _ => false;
     setupDependencyGraphChangesForIncrementalFile := fun _ => ∅;
     dataCascade := fun p => negb (String.eqb p "a.md");
     dataCascadeEnd := fun _ => 0;
     outputPathOf := fun s => ("_site/" ++ s)%string;
     generateMapEntry := fun me _ => Generated [me_outputPath me] 1;
     copyAll := fun _ => None |}.

(** The passthrough copy fails. *)
Definition brokenCopyEnv : Env :=
  {| hasEngine := fun _ => true;
     isFullTemplateFile := fun _ _ => false;
     isPassthroughCopyFile := fun _ _ => false;
     isFileRelevantToThisTemplate := fun _ _ _ => false;
     setupDependencyGraphChangesForIncrementalFile := fun _ => ∅;
     dataCascade := fun _ => true;
     dataCascadeEnd := fun _ => 0;
     outputPathOf := fun s => ("_site/" ++ s)%string;
     generateMapEntry := fun me _ => Generated [me_outputPath me] 1;
     copyAll := fun _ => Some (OtherError "no space left") |}.

End Sample.

(** * Properties *)

(** ** JavaScript values *)

Lemma strictEq_true v path : JS.strictEq v path = true <-> v = JS.Str path.
Proof.
  destruct v as [| |s]; simpl; try (split; [discriminate|discriminate]).
  rewrite String.eqb_eq. split; [intros ->; reflexivity | intros [= ->]; reflexivity].
Qed.

Lemma asTruthy_None v : JS.asTruthy v = None <-> JS.truthy v = false.
Proof.
  destruct v as [| |s]; simpl; [tauto|tauto|].
  destruct (String.eqb s EmptyString); simpl; split; congruence.
Qed.

Lemma asTruthy_Some v s : JS.asTruthy v = Some s -> v = JS.Str s.
Proof.
  destruct v as [| |s']; simpl; try discriminate.
  destruct (String.eqb s' EmptyString); [discriminate|]. intros [= ->]. reflexivity.
Qed.

(** ** The template cache *)

Section CacheProperties.

Context (E : Env).

Lemma addLinters_tid ls tmpl :
  Template.tid (addLinters ls tmpl) = Template.tid tmpl.
Proof.
  revert tmpl. induction ls as [|[name isFn] ls IH]; intros tmpl; [reflexivity|].
  simpl. rewrite IH. destruct isFn; reflexivity.
Qed.

Lemma addLinters_inputPath ls tmpl :
  Template.inputPath (addLinters ls tmpl) = Template.inputPath tmpl.
Proof.
  revert tmpl. induction ls as [|[name isFn] ls IH]; intros tmpl; [reflexivity|].
  simpl. rewrite IH. destruct isFn; reflexivity.
Qed.

Lemma addLinters_caches ls tmpl :
  Template.readCache (addLinters ls tmpl) = Template.readCache tmpl
  /\ Template.dataCache (addLinters ls tmpl) = Template.dataCache tmpl
  /\ Template.renderCache (addLinters ls tmpl) = Template.renderCache tmpl
  /\ Template.transient (addLinters ls tmpl) = Template.transient tmpl
  /\ Template.renderableOverride (addLinters ls tmpl)
     = Template.renderableOverride tmpl
  /\ Template.dryRunViaIncremental (addLinters ls tmpl)
     = Template.dryRunViaIncremental tmpl.
Proof.
  revert tmpl. induction ls as [|[name isFn] ls IH]; intros tmpl; [tauto|].
  simpl. destruct (IH (if isFn then Template.addLinter name tmpl else tmpl))
    as (-> & -> & -> & -> & -> & ->).
  destruct isFn; simpl; tauto.
Qed.

(** What [_createTemplate] does to the writer: the handle it returns is
    the one stored under [path], and nothing else changes. *)
Lemma _createTemplate_writer w path to tmpl wasCached w' :
  _createTemplate w path to = (tmpl, wasCached, w') ->
  _templatePathCache w' = <[path := tmpl]> (_templatePathCache w)
  /\ trace w' = trace w ++ [EvCreateTemplate path wasCached]
  /\ templateMap w' = templateMap w
  /\ writeCount w' = writeCount w
  /\ skippedCount w' = skippedCount w
  /\ incrementalFile w' = incrementalFile w
  /\ isRunInitialBuild w' = isRunInitialBuild w
  /\ config w' = config w.
Proof.
  unfold _createTemplate.
  destruct (_templatePathCache w !! path); intros [= <- <- <-]; simpl; tauto.
Qed.

(** [wasCached] tells whether the cache had the key, and the identity of
    the handle is the cached one, or a new one. *)
Lemma _createTemplate_cached w path to old :
  _templatePathCache w !! path = Some old ->
  exists tmpl w',
    _createTemplate w path to = (tmpl, true, w')
    /\ nextTemplateId w' = nextTemplateId w
    /\ Template.tid tmpl = Template.tid old
    /\ Template.inputPath tmpl = Template.inputPath old
    /\ Template.readCache tmpl = Template.readCache old
    /\ Template.dataCache tmpl = Template.dataCache old
    /\ Template.renderCache tmpl = Template.renderCache old
    /\ Template.renderableOverride tmpl = Template.renderableOverride old
    /\ Template.transient tmpl = Template.transient old.
Proof.
  intros H. unfold _createTemplate. rewrite H. simpl.
  eexists _, _. split; [reflexivity|]. simpl. tauto.
Qed.

Lemma _createTemplate_fresh w path to :
  _templatePathCache w !! path = None ->
  exists tmpl w',
    _createTemplate w path to = (tmpl, false, w')
    /\ nextTemplateId w' = S (nextTemplateId w)
    /\ Template.tid tmpl = nextTemplateId w
    /\ Template.inputPath tmpl = path
    /\ Template.readCache tmpl = false
    /\ Template.dataCache tmpl = false
    /\ Template.renderCache tmpl = false
    /\ Template.renderableOverride tmpl = None
    /\ Template.transient tmpl = false.
Proof.
  intros H. unfold _createTemplate. rewrite H. simpl.
  eexists _, _. split; [reflexivity|]. simpl.
  rewrite addLinters_tid, addLinters_inputPath.
  destruct (addLinters_caches (cfg_linters (config w))
              (Template.setTransforms (cfg_transforms (config w))
                 (Template.setOutputFormat to
                    (Template.new (nextTemplateId w) path (templateData w)))))
    as (-> & -> & -> & -> & -> & _).
  simpl. tauto.
Qed.

Lemma cacheOk_initial data cfg : cacheOk (initial data cfg).
Proof.
  split; simpl; intros *; rewrite lookup_empty; discriminate.
Qed.

Lemma _createTemplate_cacheOk w path to tmpl wasCached w' :
  cacheOk w ->
  _createTemplate w path to = (tmpl, wasCached, w') ->
  cacheOk w'.
Proof.
  intros [Hlt Hinj] Hc.
  destruct (_templatePathCache w !! path) as [old|] eqn:Hold.
  - destruct (_createTemplate_cached w path to old Hold)
      as (t1 & w1 & Heq & Hnext & Htid & _).
    destruct (_createTemplate_writer _ _ _ _ _ _ Hc) as (Hcache & _).
    rewrite Heq in Hc. injection Hc as <- <- <-.
    split.
    + intros p t. rewrite Hcache, Hnext, lookup_insert.
      case_decide; [intros [= <-]; rewrite Htid; eauto | eauto].
    + intros p q t u. rewrite Hcache, !lookup_insert.
      repeat case_decide; subst; intros Hp Hq; simplify_eq; try done.
      * rewrite Htid. intros Ht. symmetry. eapply Hinj; eauto.
      * rewrite Htid. intros Ht. eapply Hinj; eauto.
      * eauto.
  - destruct (_createTemplate_fresh w path to Hold)
      as (t1 & w1 & Heq & Hnext & Htid & _).
    destruct (_createTemplate_writer _ _ _ _ _ _ Hc) as (Hcache & _).
    rewrite Heq in Hc. injection Hc as <- <- <-.
    split.
    + intros p t. rewrite Hcache, Hnext, lookup_insert.
      case_decide; [intros [= <-]; lia | intros Hp; apply Hlt in Hp; lia].
    + intros p q t u. rewrite Hcache, !lookup_insert.
      repeat case_decide; subst; intros Hp Hq; simplify_eq; try done.
      * apply Hlt in Hq. lia.
      * apply Hlt in Hp. lia.
      * eauto.
Qed.

End CacheProperties.

(** ** The classification loop *)

Section LoopProperties.

Context (E : Env).

Lemma sameSettings_refl w : sameSettings w w.
Proof. repeat split. Qed.

Lemma sameSettings_trans w1 w2 w3 :
  sameSettings w1 w2 -> sameSettings w2 w3 -> sameSettings w1 w3.
Proof.
  intros (? & ? & ? & ?) (? & ? & ? & ?). repeat split; congruence.
Qed.

Lemma classify_sameSettings w w' isFull isPass path :
  sameSettings w w' ->
  classify E w' isFull isPass path = classify E w isFull isPass path.
Proof. intros (Hf & _). unfold classify. rewrite Hf. reflexivity. Qed.

(** One iteration, by the class of its path. *)
Lemma addPath_NoEngine to isFull isPass relDel w promises path :
  classify E w isFull isPass path = NoEngine ->
  addPath E to isFull isPass relDel (w, promises) path = (w, promises).
Proof. intros H. unfold addPath. rewrite H. reflexivity. Qed.

Lemma addPath_AlreadyRegistered to isFull isPass relDel w promises path :
  classify E w isFull isPass path = AlreadyRegistered ->
  addPath E to isFull isPass relDel (w, promises) path = (w, promises).
Proof. intros H. unfold addPath. rewrite H. reflexivity. Qed.

Lemma addPath_PassthroughSkipped to isFull isPass relDel w promises path :
  classify E w isFull isPass path = PassthroughSkipped ->
  addPath E to isFull isPass relDel (w, promises) path
  = (record [EvSkipped path]
       (withCounts (writeCount w) (S (skippedCount w)) w), promises).
Proof. intros H. unfold addPath. rewrite H. reflexivity. Qed.

Lemma addPath_Qualifying to isFull isPass relDel w promises path
      tmpl0 wasCached w1 :
  classify E w isFull isPass path = Qualifying ->
  _createTemplate w path to = (tmpl0, wasCached, w1) ->
  let tmpl := (policy E w isFull relDel wasCached tmpl0).1 in
  let skipped := (policy E w isFull relDel wasCached tmpl0).2 in
  let w' := (addPath E to isFull isPass relDel (w, promises) path).1 in
  (addPath E to isFull isPass relDel (w, promises) path).2
  = promises ++
    [Registering
       {| me_template := path;
          me_inputPath := Template.inputPath tmpl;
          me_outputPath := outputPathOf E (Template.inputPath tmpl) |}]
  /\ _templatePathCache w' = <[path := tmpl]> (_templatePathCache w)
  /\ skippedCount w' = (if skipped then S (skippedCount w) else skippedCount w)
  /\ templateMap w' = templateMap w
  /\ trace w'
     = trace w ++ [EvCreateTemplate path wasCached; EvTemplateMapAdd path]
  /\ sameSettings w w'.
Proof.
  intros Hcl Hc. unfold addPath. rewrite Hcl, Hc.
  destruct (_createTemplate_writer _ _ _ _ _ _ Hc)
    as (Hcache & Htr & Hmap & Hwc & Hsc & Hinc & Hinit & Hcfg).
  destruct (policy E w isFull relDel wasCached tmpl0)
    as [tmpl skipped] eqn:Hp.
  simpl. destruct skipped; simpl; rewrite ?Hcache, ?Htr, ?Hmap, ?Hsc,
    ?insert_insert_eq, <- ?app_assoc; simpl;
    repeat split; try reflexivity; try assumption.
Qed.

Lemma addPath_sameSettings to isFull isPass relDel w promises path :
  sameSettings w (addPath E to isFull isPass relDel (w, promises) path).1.
Proof.
  destruct (classify E w isFull isPass path) eqn:Hcl.
  - rewrite addPath_NoEngine by assumption. apply sameSettings_refl.
  - rewrite addPath_PassthroughSkipped by assumption. repeat split.
  - rewrite addPath_AlreadyRegistered by assumption. apply sameSettings_refl.
  - destruct (_createTemplate w path to) as [[tmpl0 wasCached] w1] eqn:Hc.
    apply (addPath_Qualifying to isFull isPass relDel w promises path
             tmpl0 wasCached w1 Hcl Hc).
Qed.

Lemma fold_addPath_sameSettings to isFull isPass relDel paths w promises :
  sameSettings w
    (fold_left (addPath E to isFull isPass relDel) paths (w, promises)).1.
Proof.
  revert w promises. induction paths as [|path paths IH]; intros w promises.
  - apply sameSettings_refl.
  - simpl.
    destruct (addPath E to isFull isPass relDel (w, promises) path)
      as [w1 promises1] eqn:H1.
    eapply sameSettings_trans; [|apply IH].
    change w1 with (w1, promises1).1. rewrite <- H1.
    apply addPath_sameSettings.
Qed.

(** An iteration touches no handle but the one of its path. *)
Lemma addPath_other to isFull isPass relDel w promises path q :
  q <> path ->
  _templatePathCache
    (addPath E to isFull isPass relDel (w, promises) path).1 !! q
  = _templatePathCache w !! q.
Proof.
  intros Hq. destruct (classify E w isFull isPass path) eqn:Hcl.
  - rewrite addPath_NoEngine by assumption. reflexivity.
  - rewrite addPath_PassthroughSkipped by assumption. reflexivity.
  - rewrite addPath_AlreadyRegistered by assumption. reflexivity.
  - destruct (_createTemplate w path to) as [[tmpl0 wasCached] w1] eqn:Hc.
    destruct (addPath_Qualifying to isFull isPass relDel w promises path
                tmpl0 wasCached w1 Hcl Hc) as (_ & -> & _).
    rewrite lookup_insert_ne by congruence. reflexivity.
Qed.

(** The cascades under way end in some order: all of them. *)
Lemma endsAmong_Permutation entry ended :
  endsAmong E entry ended ≡ₚ entry :: ended.
Proof.
  induction ended as [|e rest IH]; [reflexivity|]. simpl.
  destruct (Nat.leb _ _); [reflexivity|].
  rewrite IH. apply perm_swap.
Qed.

Lemma completionOrder_Permutation started :
  completionOrder E started ≡ₚ started.
Proof.
  induction started as [|entry rest IH]; [reflexivity|]. simpl.
  rewrite endsAmong_Permutation, IH. reflexivity.
Qed.

(** What the end of the cascades does to the writer: the entries of those
    that succeeded before the first failure are added to the map, in
    their order, and nothing else changes. *)
Lemma cascadesEnd_spec entries w :
  exists regs,
    (cascadesEnd E entries w).1 = withTemplateMap (templateMap w ++ regs) w
    /\ regs `prefix_of` entries
    /\ Forall (fun e => dataCascade E (me_inputPath e) = true) regs
    /\ ((cascadesEnd E entries w).2 = Resolves <-> regs = entries)
    /\ ((cascadesEnd E entries w).2 = Resolves
        <-> Forall (fun e => dataCascade E (me_inputPath e) = true) entries).
Proof.
  revert w. induction entries as [|entry rest IH]; intros w.
  - exists []. simpl. rewrite app_nil_r.
    split; [destruct w; reflexivity|]. split; [reflexivity|].
    split; [constructor|]. split; split; auto.
  - simpl. unfold cascadeDone.
    destruct (dataCascade E (me_inputPath entry)) eqn:Hok.
    + destruct (IH (withTemplateMap (templateMap w ++ [entry]) w))
        as (regs & H1 & H2 & H3 & H4 & H5).
      exists (entry :: regs). rewrite H1. simpl. rewrite <- app_assoc. simpl.
      split; [reflexivity|]. split; [apply prefix_cons; assumption|].
      split; [constructor; assumption|]. split.
      * rewrite H4. split; [intros ->; reflexivity|intros [= ->]; reflexivity].
      * rewrite H5. split; [intros H; constructor; assumption|].
        intros H. apply Forall_cons in H as [_ H]. assumption.
    + exists []. simpl. rewrite app_nil_r.
      split; [destruct w; reflexivity|]. split; [apply prefix_nil|].
      split; [constructor|]. split; split; try discriminate.
      intros H. apply Forall_cons in H as [H _]. congruence.
Qed.

(** [Promise.all] over the registrations: the map gets entries of
    cascades that were under way and succeeded, all of them when the
    promise is fulfilled, and the promise is fulfilled exactly when all
    cascades under way succeed. *)
Lemma allRegistered_spec promises w :
  exists regs,
    (allRegistered E promises w).1
    = withTemplateMap (templateMap w ++ regs) w
    /\ regs ⊆+ inFlight promises
    /\ Forall (fun e => dataCascade E (me_inputPath e) = true) regs
    /\ ((allRegistered E promises w).2 = Resolves ->
        regs = completionOrder E (inFlight promises))
    /\ ((allRegistered E promises w).2 = Resolves
        <-> Forall (fun e => dataCascade E (me_inputPath e) = true)
              (inFlight promises)).
Proof.
  unfold allRegistered.
  destruct (cascadesEnd_spec (completionOrder E (inFlight promises)) w)
    as (regs & H1 & H2 & H3 & H4 & H5).
  exists regs. split; [assumption|]. split.
  - rewrite <- (completionOrder_Permutation (inFlight promises)).
    destruct H2 as [k ->]. apply sublist_submseteq, sublist_inserts_r.
    reflexivity.
  - split; [assumption|]. split; [apply H4|].
    rewrite H5. rewrite (completionOrder_Permutation (inFlight promises)).
    reflexivity.
Qed.

(** [Promise.all] over the registrations changes the map only. *)
Lemma allRegistered_frame promises w :
  let w' := (allRegistered E promises w).1 in
  writeCount w' = writeCount w
  /\ skippedCount w' = skippedCount w
  /\ _templatePathCache w' = _templatePathCache w
  /\ nextTemplateId w' = nextTemplateId w
  /\ trace w' = trace w
  /\ sameSettings w w'.
Proof.
  destruct (allRegistered_spec promises w) as (regs & H & _).
  cbn zeta. rewrite H. simpl. repeat split.
Qed.

Lemma fold_addPath_other to isFull isPass relDel paths w promises q :
  q ∉ paths ->
  _templatePathCache
    (fold_left (addPath E to isFull isPass relDel) paths (w, promises)).1 !! q
  = _templatePathCache w !! q.
Proof.
  revert w promises. induction paths as [|path paths IH]; intros w promises Hq.
  - reflexivity.
  - simpl. apply not_elem_of_cons in Hq as [Hne Hq].
    destruct (addPath E to isFull isPass relDel (w, promises) path)
      as [w1 promises1] eqn:H1.
    rewrite IH by assumption.
    change w1 with (w1, promises1).1. rewrite <- H1.
    apply addPath_other. assumption.
Qed.

End LoopProperties.

(** ** Claims about the template cache *)

(** C4 (amended). Two consecutive [_createTemplate] calls with the same
    path string return the same handle instance, the second one with
    [wasCached = true]. The cache is keyed by the string as it is passed:
    a third call with a different string returns a different handle, also
    when the two strings name the same file. *)
Theorem C4_cache_is_keyed_by_the_path_string w p q to :
  cacheOk w -> p <> q ->
  let r1 := _createTemplate w p to in
  let r2 := _createTemplate r1.2 p to in
  let r3 := _createTemplate r2.2 q to in
  Template.tid r2.1.1 = Template.tid r1.1.1
  /\ r2.1.2 = true
  /\ Template.tid r3.1.1 <> Template.tid r1.1.1.
Proof.
  intros Hok Hpq.
  destruct (_createTemplate w p to) as [[t1 c1] w1] eqn:H1. simpl.
  pose proof (_createTemplate_cacheOk _ _ _ _ _ _ Hok H1) as Hok1.
  destruct (_createTemplate_writer _ _ _ _ _ _ H1) as (Hc1 & _).
  assert (Hp1 : _templatePathCache w1 !! p = Some t1)
    by (rewrite Hc1; apply lookup_insert_eq).
  destruct (_createTemplate_cached w1 p to t1 Hp1)
    as (t2 & w2 & H2 & _ & Htid2 & _).
  rewrite H2. simpl.
  pose proof (_createTemplate_cacheOk _ _ _ _ _ _ Hok1 H2) as Hok2.
  destruct (_createTemplate_writer _ _ _ _ _ _ H2) as (Hc2 & _).
  assert (Hp2 : _templatePathCache w2 !! p = Some t2)
    by (rewrite Hc2; apply lookup_insert_eq).
  split; [assumption|]. split; [reflexivity|].
  rewrite <- Htid2.
  destruct Hok2 as [Hlt Hinj].
  destruct (_templatePathCache w2 !! q) as [old|] eqn:Hq.
  - destruct (_createTemplate_cached w2 q to old Hq)
      as (t3 & w3 & H3 & _ & Htid3 & _).
    rewrite H3. simpl. rewrite Htid3. intros Heq.
    apply Hpq. symmetry. eapply Hinj; eassumption.
  - destruct (_createTemplate_fresh w2 q to Hq)
      as (t3 & w3 & H3 & _ & Htid3 & _).
    rewrite H3. simpl. rewrite Htid3.
    apply Hlt in Hp2. lia.
Qed.

(** C4 (as proved) at a sample input. *)
Lemma C4_witness :
  cacheOk Sample.fresh /\ "a.md" <> "./a.md"
  /\ (let r1 := _createTemplate Sample.fresh "a.md" "fs" in
      let r2 := _createTemplate r1.2 "a.md" "fs" in
      let r3 := _createTemplate r2.2 "./a.md" "fs" in
      Template.tid r2.1.1 = Template.tid r1.1.1
      /\ r2.1.2 = true
      /\ Template.tid r3.1.1 <> Template.tid r1.1.1).
Proof.
  split; [apply cacheOk_initial|]. split; [discriminate|].
  apply (C4_cache_is_keyed_by_the_path_string Sample.fresh "a.md" "./a.md" "fs");
    [apply cacheOk_initial | discriminate].
Defined.

(** C4 as the claim states it fails: "./a.md" and "a.md" are equal after
    the leading "./" is stripped, yet the third call creates a second
    handle. *)
Lemma C4_counterexample :
  let r1 := _createTemplate Sample.fresh "a.md" "fs" in
  let r2 := _createTemplate r1.2 "a.md" "fs" in
  let r3 := _createTemplate r2.2 "./a.md" "fs" in
  TemplatePath.stripLeadingDotSlash "./a.md" = "a.md"
  /\ r3.1.2 = false
  /\ ~ Template.tid r3.1.1 = Template.tid r1.1.1.
Proof.
  vm_compute. repeat split. discriminate.
Qed.

(** ** Claims about one iteration of the classification loop *)

Section IterationClaims.

Context (E : Env).



End IterationClaims.

(** ** The whole loop *)

Section WholeLoop.

Context (E : Env).

Lemma loopEvent_cons cls path paths ev :
  loopEvent cls paths ev -> loopEvent cls (path :: paths) ev.
Proof.
  destruct ev; simpl; try tauto; intros [? ?]; split; try assumption;
    apply elem_of_cons; right; assumption.
Qed.

Lemma inFlight_app promises entry :
  inFlight (promises ++ [Registering entry]) = inFlight promises ++ [entry].
Proof. unfold inFlight. rewrite omap_app. reflexivity. Qed.

(** The loop starts the registration of exactly the qualifying paths, in
    order, puts nothing in the map itself, and leaves only the events of
    these paths and the skips. *)
Lemma fold_addPath_registered_from w0 to isFull isPass relDel paths w promises :
  sameSettings w0 w ->
  let cls := classify E w0 isFull isPass in
  let st := fold_left (addPath E to isFull isPass relDel) paths (w, promises) in
  me_template <$> inFlight st.2
  = (me_template <$> inFlight promises)
    ++ filter (fun p => cls p = Qualifying) paths
  /\ templateMap st.1 = templateMap w
  /\ exists evs, trace st.1 = trace w ++ evs /\ Forall (loopEvent cls paths) evs.
Proof.
  revert w promises. induction paths as [|path paths IH]; intros w promises H0.
  - simpl. rewrite app_nil_r. split; [reflexivity|]. split; [reflexivity|].
    exists []. rewrite app_nil_r. split; [reflexivity|constructor].
  - cbn [fold_left].
    pose proof (addPath_sameSettings E to isFull isPass relDel w promises path)
      as Hsame.
    destruct (addPath E to isFull isPass relDel (w, promises) path)
      as [w1 promises1] eqn:H1.
    cbn [fst] in Hsame.
    destruct (IH w1 promises1 (sameSettings_trans _ _ _ H0 Hsame))
      as (Hkeys & Hmap & evs & Htr & Hevs).
    cbn zeta in *.
    rewrite Hkeys, Hmap, Htr. rewrite filter_cons.
    rewrite <- (classify_sameSettings E w0 w isFull isPass path H0).
    destruct (classify E w isFull isPass path) eqn:Hcl.
    + rewrite addPath_NoEngine in H1 by assumption. injection H1 as <- <-.
      rewrite decide_False by discriminate.
      split; [reflexivity|]. split; [reflexivity|].
      exists evs. split; [reflexivity|].
      eapply Forall_impl; [eassumption|]. intros. apply loopEvent_cons; assumption.
    + rewrite addPath_PassthroughSkipped in H1 by assumption.
      injection H1 as <- <-. rewrite decide_False by discriminate.
      split; [reflexivity|]. split; [reflexivity|].
      exists (EvSkipped path :: evs). simpl. rewrite <- app_assoc.
      split; [reflexivity|]. constructor.
      * simpl. split; [apply elem_of_cons; left; reflexivity|].
        rewrite <- (classify_sameSettings E w0 w isFull isPass path H0).
        assumption.
      * eapply Forall_impl; [eassumption|]. intros. apply loopEvent_cons; assumption.
    + rewrite addPath_AlreadyRegistered in H1 by assumption.
      injection H1 as <- <-. rewrite decide_False by discriminate.
      split; [reflexivity|]. split; [reflexivity|].
      exists evs. split; [reflexivity|].
      eapply Forall_impl; [eassumption|]. intros. apply loopEvent_cons; assumption.
    + destruct (_createTemplate w path to) as [[tmpl0 wasCached] w2] eqn:Hc.
      destruct (addPath_Qualifying E to isFull isPass relDel w promises path
                  tmpl0 wasCached w2 Hcl Hc) as (Hp & _ & _ & Hm & Ht & _).
      rewrite H1 in Hp, Hm, Ht. cbn [fst snd] in Hp, Hm, Ht.
      rewrite Hp, Hm, Ht. rewrite decide_True by reflexivity.
      rewrite inFlight_app, fmap_app. simpl. rewrite <- !app_assoc. simpl.
      split; [reflexivity|]. split; [reflexivity|].
      eexists. split; [reflexivity|].
      assert (Hq : classify E w0 isFull isPass path = Qualifying).
      { rewrite <- (classify_sameSettings E w0 w isFull isPass path H0).
        assumption. }
      constructor; [|constructor].
      * simpl. split; [apply elem_of_cons; left; reflexivity|assumption].
      * simpl. split; [apply elem_of_cons; left; reflexivity|assumption].
      * eapply Forall_impl; [eassumption|]. intros. apply loopEvent_cons; assumption.
Qed.


(** Without incremental file and short-circuit, the loop never counts. *)
Lemma fold_addPath_not_incremental to isFull relDel paths w promises :
  JS.asTruthy (incrementalFile w) = None ->
  skippedCount
    (fold_left (addPath E to isFull false relDel) paths (w, promises)).1
  = skippedCount w.
Proof.
  revert w promises. induction paths as [|path paths IH]; intros w promises Hf.
  - reflexivity.
  - cbn [fold_left].
    pose proof (addPath_sameSettings E to isFull false relDel w promises path)
      as (Hinc & _).
    destruct (classify E w isFull false path) eqn:Hcl.
    + rewrite addPath_NoEngine by assumption. apply IH. assumption.
    + unfold classify in Hcl. destruct (negb (hasEngine E path)); [discriminate|].
      simpl in Hcl.
      destruct (isFull && JS.strictEq (incrementalFile w) path); discriminate.
    + rewrite addPath_AlreadyRegistered by assumption. apply IH. assumption.
    + destruct (_createTemplate w path to) as [[tmpl0 wasCached] w2] eqn:Hc.
      destruct (addPath_Qualifying E to isFull false relDel w promises path
                  tmpl0 wasCached w2 Hcl Hc) as (_ & _ & Hsk & _).
      unfold policy in Hsk. rewrite Hf in Hsk. cbn [snd] in Hsk.
      destruct (addPath E to isFull false relDel (w, promises) path)
        as [w1 promises1] eqn:H1.
      cbn [fst] in Hsk, Hinc. rewrite IH by congruence. assumption.
Qed.

(** The registration of the changed full template (lines 204-226): its
    entry is in the map when the awaited cascade succeeded. *)
Lemma preRegister_spec w file to :
  exists tmpl wasCached,
    let ok := dataCascade E (Template.inputPath tmpl) in
    let entry :=
      {| me_template := file;
         me_inputPath := Template.inputPath tmpl;
         me_outputPath := outputPathOf E (Template.inputPath tmpl) |} in
    let w1 := (preRegister E w file to).1 in
    (preRegister E w file to).2
    = (if ok
       then Some ([Registered entry],
                  setupDependencyGraphChangesForIncrementalFile E
                    (Template.inputPath tmpl))
       else None)
    /\ _templatePathCache w1 = <[file := tmpl]> (_templatePathCache w)
    /\ templateMap w1 = templateMap w ++ (if ok then [entry] else [])
    /\ skippedCount w1 = skippedCount w
    /\ sameSettings w w1
    /\ trace w1
       = trace w ++
         EvCreateTemplate file wasCached :: EvTemplateMapAdd file
         :: EvAwaited file ok
         :: (if ok
             then [EvSetupDependencyGraphChanges (Template.inputPath tmpl);
                   EvAddToGlobalDependencyGraph]
             else []).
Proof.
  unfold preRegister.
  destruct (_createTemplate w file to) as [[tmpl0 wasCached] w1] eqn:Hc.
  destruct (_createTemplate_writer _ _ _ _ _ _ Hc)
    as (Hcache & Htr & Hmap & Hwc & Hsc & Hinc & Hinit & Hcfg).
  exists (changedTemplatePolicy w wasCached tmpl0), wasCached. cbn zeta.
  unfold TemplateMap_add, cascadeDone. cbn [me_inputPath].
  destruct (dataCascade E
              (Template.inputPath (changedTemplatePolicy w wasCached tmpl0)))
    eqn:Hok; cbn [fst snd]; simpl;
    rewrite ?Hcache, ?Htr, ?Hmap, ?Hsc, ?insert_insert_eq, <- ?app_assoc,
      ?app_nil_r;
    (split; [reflexivity|]); (split; [reflexivity|]);
    (split; [reflexivity|]); (split; [reflexivity|]);
    (split; [repeat split; assumption|]); reflexivity.
Qed.

(** With distinct paths, the handle a path of the collection has after
    the loop is the one its own iteration left, and that iteration started
    from the handle (if any) the path had before the loop. *)
Lemma fold_addPath_at to isFull isPass relDel paths path w promises :
  NoDup paths -> path ∈ paths ->
  exists w0 promises0,
    sameSettings w w0
    /\ _templatePathCache w0 !! path = _templatePathCache w !! path
    /\ _templatePathCache
         (fold_left (addPath E to isFull isPass relDel) paths (w, promises)).1
         !! path
       = _templatePathCache
           (addPath E to isFull isPass relDel (w0, promises0) path).1 !! path.
Proof.
  intros Hnd Hin.
  apply list_elem_of_split in Hin as (l1 & l2 & ->).
  apply NoDup_app in Hnd as (_ & Hl1 & Hnd2).
  apply NoDup_cons in Hnd2 as (Hl2 & _).
  rewrite fold_left_app. cbn [fold_left].
  pose proof (fold_addPath_sameSettings E to isFull isPass relDel l1 w promises)
    as Hsame.
  pose proof (fold_addPath_other E to isFull isPass relDel l1 w promises path)
    as Hother.
  destruct (fold_left (addPath E to isFull isPass relDel) l1 (w, promises))
    as [w0 promises0].
  cbn [fst] in *. exists w0, promises0.
  split; [assumption|]. split.
  - apply Hother. intros Hin. eapply Hl1; [eassumption|].
    apply elem_of_cons. left. reflexivity.
  - destruct (addPath E to isFull isPass relDel (w0, promises0) path)
      as [w1 promises1].
    cbn [fst]. apply fold_addPath_other. assumption.
Qed.

End WholeLoop.

(** ** Claims about the whole template map *)

Section TemplateMapClaims.

Context (E : Env).

(** C10. When no incremental file is set (the field is undefined or null;
    the same holds for any falsy value), the passthrough classification of
    the changed file is false whatever the paths are, so the short-circuit
    of the loop does not fire: building the template map leaves the
    skipped counter as it was and records no skip. *)
Theorem C10_no_passthrough_skip_without_incremental_file w :
  JS.truthy (incrementalFile w) = false ->
  forall paths to,
    _isIncrementalFileAPassthroughCopy E w paths = false
    /\ skippedCount (_addToTemplateMap E w paths to).1 = skippedCount w
    /\ exists evs,
         trace (_addToTemplateMap E w paths to).1 = trace w ++ evs
         /\ Forall (fun ev => forall p, ev <> EvSkipped p) evs.
Proof.
  intros Hfalsy paths to. apply asTruthy_None in Hfalsy.
  assert (Hpass : _isIncrementalFileAPassthroughCopy E w paths = false)
    by (unfold _isIncrementalFileAPassthroughCopy; rewrite Hfalsy; reflexivity).
  split; [assumption|].
  unfold _addToTemplateMap. rewrite Hpass, Hfalsy.
  replace (if isFullTemplateFile E paths (incrementalFile w)
           then @None string else None) with (@None string)
    by (destruct (isFullTemplateFile E paths (incrementalFile w)); reflexivity).
  pose proof (fold_addPath_not_incremental E to
                (isFullTemplateFile E paths (incrementalFile w)) ∅ paths w []
                Hfalsy) as Hsk.
  destruct (fold_addPath_registered_from E w to
              (isFullTemplateFile E paths (incrementalFile w)) false ∅ paths
              w [] (sameSettings_refl w)) as (_ & _ & evs & Htr & Hevs).
  destruct (fold_left _ paths (w, [])) as [w' promises'].
  cbn [fst] in *.
  destruct (allRegistered_spec E promises' w') as (regs & -> & _).
  cbn [fst]. simpl. split; [assumption|].
  exists evs. split; [assumption|].
  eapply Forall_impl; [eassumption|].
  intros ev Hev p ->. simpl in Hev. destruct Hev as [_ Hcl].
  unfold classify in Hcl.
  destruct (negb (hasEngine E p)); [discriminate|]. simpl in Hcl.
  destruct (isFullTemplateFile E paths (incrementalFile w)
            && JS.strictEq (incrementalFile w) p); discriminate.
Qed.


(** The changed full template is never a qualifying path of the loop. *)
Lemma classify_changed_template w isPass file :
  JS.asTruthy (incrementalFile w) = Some file ->
  classify E w true isPass file <> Qualifying.
Proof.
  intros Hfile. apply asTruthy_Some in Hfile.
  unfold classify. rewrite Hfile. simpl. rewrite String.eqb_refl.
  destruct (negb (hasEngine E file)); [discriminate|].
  destruct isPass; discriminate.
Qed.

Lemma submseteq_NoDup_l {A} (l k : list A) : l ⊆+ k -> NoDup k -> NoDup l.
Proof.
  intros Hsub Hnd. apply submseteq_Permutation in Hsub as [k' Hk].
  rewrite Hk in Hnd. apply NoDup_app in Hnd as (H & _). assumption.
Qed.

(** C6. In an incremental run whose changed path [file] is a full
    template, building the template map starts with this path: its handle
    is obtained, its registration is started and awaited, and (when the
    await does not throw) the dependency graph changes are set up and
    committed; everything the loop does comes later in the trace, and the
    loop neither creates the handle of [file] nor registers it again. So,
    the awaited registration having succeeded, the entry of [file] is the
    first of the build set and the only one for [file] (when it failed,
    the map is empty and the build is rejected), and, the paths being
    distinct files, no path has two build entries. *)
Theorem C6_changed_template_is_registered_first w paths to file :
  JS.asTruthy (incrementalFile w) = Some file ->
  isFullTemplateFile E paths (incrementalFile w) = true ->
  let w' := (_createTemplateMap E w paths to).1 in
  let c := (_createTemplateMap E w paths to).2 in
  exists cached ok later,
    trace w'
    = trace w ++
      EvCreateTemplate file cached :: EvTemplateMapAdd file
      :: EvAwaited file ok :: later
    /\ (if ok then
          exists inputPath loop,
            later
            = EvSetupDependencyGraphChanges inputPath
              :: EvAddToGlobalDependencyGraph :: loop
            /\ Forall (fun ev =>
                         ev <> EvTemplateMapAdd file
                         /\ forall b, ev <> EvCreateTemplate file b) loop
        else later = [] /\ c = Rejects)
    /\ exists others,
         me_template <$> templateMap w' = (if ok then file :: others else [])
         /\ (file ∉ others)
         /\ (NoDup paths -> NoDup (file :: others)).
Proof.
  intros Hfile Hfull. cbn zeta.
  unfold _createTemplateMap, _addToTemplateMap.
  change (incrementalFile (withTemplateMap [] w)) with (incrementalFile w).
  rewrite Hfull, Hfile.
  destruct (preRegister_spec E (withTemplateMap [] w) file to)
    as (tmpl & wasCached & Hres & Hcache & Hmap & Hsk & Hsame & Htr).
  cbn zeta in *.
  destruct (preRegister E (withTemplateMap [] w) file to) as [w1 res].
  cbn [fst snd] in *. rewrite Hres.
  change (trace (withTemplateMap [] w)) with (trace w) in Htr.
  change (templateMap (withTemplateMap [] w)) with (@nil MapEntry) in Hmap.
  destruct (dataCascade E (Template.inputPath tmpl)) eqn:Hok.
  - set (isPass := _isIncrementalFileAPassthroughCopy E (withTemplateMap [] w) paths).
    set (relDel := setupDependencyGraphChangesForIncrementalFile E
                     (Template.inputPath tmpl)).
    set (entry := {| me_template := file;
                     me_inputPath := Template.inputPath tmpl;
                     me_outputPath := outputPathOf E (Template.inputPath tmpl) |})
      in *.
    destruct (fold_addPath_registered_from E (withTemplateMap [] w) to true
                isPass relDel paths w1 [Registered entry] Hsame)
      as (Hkeys & Hmap2 & evs & Htr2 & Hevs).
    cbn zeta in *.
    destruct (fold_left _ paths (w1, [Registered entry]))
      as [w2 promises2].
    cbn [fst snd] in *.
    assert (Hnq : classify E (withTemplateMap [] w) true isPass file
                  <> Qualifying)
      by (apply classify_changed_template; assumption).
    assert (Hloop : Forall (fun ev =>
                      ev <> EvTemplateMapAdd file
                      /\ forall b, ev <> EvCreateTemplate file b) evs).
    { eapply Forall_impl; [eassumption|].
      intros ev Hev. split; [intros -> | intros b ->];
        simpl in Hev; destruct Hev as [_ Hq]; contradiction. }
    destruct (allRegistered_spec E promises2 w2)
      as (regs & Hall & Hsub & _).
    assert (Hsub' :
              me_template <$> regs
              ⊆+ filter (fun p => classify E (withTemplateMap [] w) true
                                    isPass p = Qualifying) paths).
    { change (filter _ paths)
        with ([] ++ filter (fun p => classify E (withTemplateMap [] w) true
                                       isPass p = Qualifying) paths).
      change (@nil string) with (me_template <$> inFlight [Registered entry]).
      rewrite <- Hkeys. apply fmap_submseteq. assumption. }
    assert (Hthe_keys :
              me_template <$> templateMap (allRegistered E promises2 w2).1
              = file :: (me_template <$> regs)).
    { rewrite Hall. simpl. rewrite Hmap2, Hmap, fmap_app. reflexivity. }
    assert (Hnotin : file ∉ me_template <$> regs).
    { intros Hin. eapply elem_of_submseteq in Hin; [|exact Hsub'].
      apply list_elem_of_filter in Hin as [Hq _]. contradiction. }
    assert (Hnodup : NoDup paths -> NoDup (file :: (me_template <$> regs))).
    { intros Hnd. apply NoDup_cons. split; [assumption|].
      eapply submseteq_NoDup_l; [exact Hsub'|].
      apply NoDup_filter. assumption. }
    assert (Htrace : trace (allRegistered E promises2 w2).1 = trace w2)
      by (rewrite Hall; reflexivity).
    destruct (allRegistered E promises2 w2) as [w3 [|]]; cbn [fst snd] in *.
    + exists wasCached, true. eexists. simpl.
      rewrite Htrace, Htr2, Htr, <- !app_assoc. simpl. split; [reflexivity|].
      split.
      * eexists _, _. split; [reflexivity|].
        apply Forall_app. split; [assumption|].
        constructor; [split; [discriminate|intros; discriminate]|].
        constructor; [split; [discriminate|intros; discriminate]|constructor].
      * eexists. split; [exact Hthe_keys|]. split; [exact Hnotin|exact Hnodup].
    + exists wasCached, true. eexists.
      rewrite Htrace, Htr2, Htr, <- !app_assoc. simpl. split; [reflexivity|].
      split.
      * eexists _, _. split; [reflexivity|assumption].
      * eexists. split; [exact Hthe_keys|]. split; [exact Hnotin|exact Hnodup].
  - cbn [fst snd]. exists wasCached, false, []. rewrite Htr.
    split; [reflexivity|]. split; [split; reflexivity|].
    exists []. rewrite Hmap. simpl. split; [reflexivity|].
    split; [apply not_elem_of_nil|]. intros _. apply NoDup_singleton.
Qed.

End TemplateMapClaims.

(** ** The generation scheduler *)

Section SchedulerProperties.

Context (E : Env).

Lemma start_history task r :
  history (start task r) = history r ++ [Started (length (promises r)) task].
Proof. reflexivity. Qed.

(** The callbacks of a task never start a task, and change the writer by
    the write count only. *)
Lemma callbacks_frame task r :
  let r1 := (callbacks E task r).1 in
  history r1 = history r
  /\ promises r1 = promises r
  /\ rejection r1 = rejection r
  /\ writeCount (writer r) <= writeCount (writer r1)
  /\ skippedCount (writer r1) = skippedCount (writer r)
  /\ templateMap (writer r1) = templateMap (writer r).
Proof.
  destruct task as [paths|mapEntry wave]; simpl.
  - repeat split; lia.
  - unfold _generateTemplate.
    destruct (generateMapEntry E mapEntry wave) as [pages written|e]; simpl.
    + repeat split; lia.
    + unfold firstPassCatch.
      destruct wave; [destruct (isPrematureTemplateContentError e)|];
        simpl; repeat split; lia.
Qed.

(** The three [catch] callbacks, case by case. *)
Lemma first_wave_premature_failure_is_swallowed mapEntry e r :
  generateMapEntry E mapEntry FirstWave = Failed e ->
  isPrematureTemplateContentError e = true ->
  (callbacks E (TaskGenerate mapEntry FirstWave) r).2 = Fulfilled VUndefined
  /\ usedTemplateContentTooEarlyMap
       (callbacks E (TaskGenerate mapEntry FirstWave) r).1
     = usedTemplateContentTooEarlyMap r ++ [mapEntry].
Proof. intros Hg Hp. simpl. unfold _generateTemplate, firstPassCatch. rewrite Hg, Hp. split; reflexivity. Qed.

Lemma first_wave_other_failure_is_wrapped mapEntry e r :
  generateMapEntry E mapEntry FirstWave = Failed e ->
  isPrematureTemplateContentError e = false ->
  (callbacks E (TaskGenerate mapEntry FirstWave) r).2
  = Rejected (EleventyTemplateError (firstPassMessage mapEntry) e).
Proof. intros Hg Hp. simpl. unfold _generateTemplate, firstPassCatch. rewrite Hg, Hp. reflexivity. Qed.

Lemma second_wave_failure_is_wrapped mapEntry e r :
  generateMapEntry E mapEntry SecondWave = Failed e ->
  (callbacks E (TaskGenerate mapEntry SecondWave) r).2
  = Rejected (EleventyTemplateError (secondPassMessage mapEntry) e)
  /\ usedTemplateContentTooEarlyMap
       (callbacks E (TaskGenerate mapEntry SecondWave) r).1
     = usedTemplateContentTooEarlyMap r.
Proof. intros Hg. simpl. unfold _generateTemplate. rewrite Hg. split; reflexivity. Qed.

(** A settlement adds its own event, and the rejection of [Promise.all]
    when it is the first rejection. *)
Lemma settle_history r i :
  history (settle E r i) = history r
  \/ exists task result,
       promises r !! i = Some (task, Pending)
       /\ result = (callbacks E task r).2
       /\ history (settle E r i)
          = history r ++ Settled i task result
            :: match result, rejection r with
               | Rejected e, None => [AllRejected e]
               | _, _ => []
               end.
Proof.
  unfold settle.
  destruct (promises r !! i) as [[task [| |]]|] eqn:Hi; try (left; reflexivity).
  right. exists task, (callbacks E task r).2.
  split; [reflexivity|]. split; [reflexivity|].
  destruct (callbacks_frame task r) as (Hh & _ & Hr & _). cbn zeta in *.
  destruct (callbacks E task r) as [r1 result]. cbn [fst snd] in *.
  unfold observe. cbn [rejection history]. rewrite Hr, Hh.
  destruct result as [|v|e]; try reflexivity.
  destruct (rejection r); [reflexivity|]. cbn. rewrite <- app_assoc. reflexivity.
Qed.

Lemma settle_rejection r i :
  rejection (settle E r i)
  = match rejection r, promises r !! i with
    | None, Some (task, Pending) =>
      match (callbacks E task r).2 with
      | Rejected e => Some e
      | _ => None
      end
    | old, _ => old
    end.
Proof.
  unfold settle.
  destruct (promises r !! i) as [[task [| |]]|] eqn:Hi;
    try (destruct (rejection r); reflexivity).
  destruct (callbacks_frame task r) as (_ & _ & Hr & _). cbn zeta in *.
  destruct (callbacks E task r) as [r1 result]. cbn [fst snd] in *.
  unfold observe. cbn [rejection]. rewrite Hr.
  destruct result as [|v|e]; destruct (rejection r); reflexivity.
Qed.

Lemma settle_writer r i :
  writeCount (writer r) <= writeCount (writer (settle E r i))
  /\ skippedCount (writer (settle E r i)) = skippedCount (writer r).
Proof.
  unfold settle.
  destruct (promises r !! i) as [[task [| |]]|] eqn:Hi; try (split; [lia|reflexivity]).
  destruct (callbacks_frame task r) as (_ & _ & _ & Hw & Hs & _).
  cbn zeta in *.
  destruct (callbacks E task r) as [r1 result]. cbn [fst snd] in *.
  unfold observe. cbn [rejection].
  destruct result as [|v|e]; [| |destruct (rejection r1)]; cbn; split; assumption.
Qed.

Lemma settle_tasks r i :
  fst <$> promises (settle E r i) = fst <$> promises r.
Proof.
  unfold settle.
  destruct (promises r !! i) as [[task [| |]]|] eqn:Hi; try reflexivity.
  destruct (callbacks_frame task r) as (_ & Hp & _). cbn zeta in *.
  destruct (callbacks E task r) as [r1 result]. cbn [fst snd] in *.
  assert (Hgoal : fst <$> <[i := (task, result)]> (promises r1)
                  = fst <$> promises r).
  { rewrite Hp, list_fmap_insert. cbn [fst].
    apply list_insert_id. rewrite list_lookup_fmap, Hi. reflexivity. }
  unfold observe. cbn [rejection].
  destruct result as [|v|e]; [| |destruct (rejection r1)]; cbn; assumption.
Qed.

(** Establish, preserve: the rejection of a run is recorded. *)
Lemma settle_rejectionRecorded r i :
  rejectionRecorded r -> rejectionRecorded (settle E r i).
Proof.
  unfold rejectionRecorded. intros Hinv.
  rewrite settle_rejection.
  destruct (settle_history r i) as [Hsame|(task & result & Hi & Hres & Hh)].
  - rewrite Hsame.
    destruct (rejection r) as [e|]; [assumption|].
    destruct (promises r !! i) as [[task [| |]]|] eqn:Hi; try assumption.
    (* the history did not change, so the promise was not pending *)
    exfalso. unfold settle in Hsame. rewrite Hi in Hsame.
    destruct (callbacks_frame task r) as (Hh & _). cbn zeta in *.
    destruct (callbacks E task r) as [r1 result]. cbn [fst] in *.
    unfold observe in Hsame. cbn [rejection history] in Hsame.
    destruct result as [|v|e]; [| |destruct (rejection r1)];
      cbn [history] in Hsame; apply (f_equal length) in Hsame;
      rewrite ?length_app, ?Hh in Hsame; simpl in Hsame; lia.
  - rewrite Hh, Hi. subst result.
    destruct (rejection r) as [e|].
    + destruct Hinv as (pre & j & t & post & Hhist & Hpre).
      exists pre, j, t. eexists. split; [|exact Hpre].
      rewrite Hhist, <- app_assoc. simpl. reflexivity.
    + destruct ((callbacks E task r).2) as [|v|e] eqn:Hcb.
      * apply Forall_app. split; [assumption|].
        constructor; [simpl; tauto|constructor].
      * apply Forall_app. split; [assumption|].
        constructor; [simpl; tauto|constructor].
      * exists (history r), i, task, []. split; [reflexivity|assumption].
Qed.

Lemma run_rejectionRecorded schedule r :
  rejectionRecorded r -> rejectionRecorded (fold_left (settle E) schedule r).
Proof.
  revert r. induction schedule as [|i schedule IH]; intros r Hinv.
  - assumption.
  - simpl. apply IH, settle_rejectionRecorded. assumption.
Qed.

(** Use: a run in which a promise is rejected is rejected with the reason
    of the first rejection, at once. *)
Lemma run_first_rejection schedule r :
  rejectionRecorded r ->
  Exists isRejection (history (fold_left (settle E) schedule r)) ->
  exists e pre j task post,
    history (fold_left (settle E) schedule r)
    = pre ++ Settled j task (Rejected e) :: AllRejected e :: post
    /\ Forall (fun ev => ~ isRejection ev) pre
    /\ outcome (fold_left (settle E) schedule r) = Thrown e.
Proof.
  intros Hinv Hex.
  pose proof (run_rejectionRecorded schedule r Hinv) as Hfinal.
  unfold rejectionRecorded in Hfinal. unfold outcome.
  destruct (rejection (fold_left (settle E) schedule r)) as [e|].
  - destruct Hfinal as (pre & j & task & post & Hhist & Hpre).
    exists e, pre, j, task, post. repeat split; assumption.
  - exfalso. apply Exists_exists in Hex as (ev & Hin & Hev).
    rewrite Forall_forall in Hfinal. exact (Hfinal ev Hin Hev).
Qed.

(** The history only grows. *)
Lemma run_history_grows schedule r (P : RunEvent -> Prop) :
  Exists P (history r) ->
  Exists P (history (fold_left (settle E) schedule r)).
Proof.
  revert r. induction schedule as [|i schedule IH]; intros r Hr.
  - assumption.
  - simpl. apply IH.
    destruct (settle_history r i) as [->|(task & result & _ & _ & ->)];
      [assumption|].
    apply Exists_app. left. assumption.
Qed.

(** A pending promise stays pending until its own task settles. *)
Lemma settle_other_pending r i j task :
  promises r !! i = Some (task, Pending) -> j <> i ->
  promises (settle E r j) !! i = Some (task, Pending).
Proof.
  intros Hi Hne. unfold settle.
  destruct (promises r !! j) as [[taskj [| |]]|] eqn:Hj; try assumption.
  destruct (callbacks_frame taskj r) as (_ & Hp & _). cbn zeta in *.
  destruct (callbacks E taskj r) as [r1 result]. cbn [fst snd] in *.
  assert (Hgoal : <[j := (taskj, result)]> (promises r1) !! i
                  = Some (task, Pending)).
  { rewrite Hp, list_lookup_insert_ne by assumption. assumption. }
  unfold observe. cbn [rejection].
  destruct result as [|v|e]; [| |destruct (rejection r1)]; cbn; assumption.
Qed.

(** A task whose callbacks reject its promise, once it settles, leaves a
    rejection in the history. *)
Lemma run_rejects schedule r i task :
  promises r !! i = Some (task, Pending) ->
  (forall r', exists e, (callbacks E task r').2 = Rejected e) ->
  i ∈ schedule ->
  Exists isRejection (history (fold_left (settle E) schedule r)).
Proof.
  intros Hi Hrej. revert r Hi.
  induction schedule as [|j schedule IH]; intros r Hi Hin.
  - apply elem_of_nil in Hin. contradiction.
  - simpl. destruct (decide (j = i)) as [->|Hne].
    + apply run_history_grows.
      destruct (settle_history r i) as [Hsame|(task' & result & Hi' & Hres & ->)].
      * exfalso. unfold settle in Hsame. rewrite Hi in Hsame.
        destruct (callbacks_frame task r) as (Hh & _). cbn zeta in *.
        destruct (callbacks E task r) as [r1 result]. cbn [fst] in *.
        unfold observe in Hsame. cbn [rejection history] in Hsame.
        destruct result as [|v|e]; [| |destruct (rejection r1)];
          cbn [history] in Hsame; apply (f_equal length) in Hsame;
          rewrite ?length_app, ?Hh in Hsame; simpl in Hsame; lia.
      * rewrite Hi in Hi'. injection Hi' as <-.
        destruct (Hrej r) as [e He]. rewrite He in Hres. subst result.
        apply Exists_app. right. apply Exists_cons_hd. exact I.
    + apply IH.
      * apply settle_other_pending; assumption.
      * apply elem_of_cons in Hin as [->|Hin]; [contradiction|assumption].
Qed.

End SchedulerProperties.

(** ** Counters *)

Section CounterProperties.

Context (E : Env).

Lemma addPath_skippedCount to isFull isPass relDel w promises path :
  skippedCount w
  <= skippedCount (addPath E to isFull isPass relDel (w, promises) path).1.
Proof.
  destruct (classify E w isFull isPass path) eqn:Hcl.
  - rewrite addPath_NoEngine by assumption. reflexivity.
  - rewrite addPath_PassthroughSkipped by assumption. simpl. lia.
  - rewrite addPath_AlreadyRegistered by assumption. reflexivity.
  - destruct (_createTemplate w path to) as [[tmpl0 wasCached] w1] eqn:Hc.
    destruct (addPath_Qualifying E to isFull isPass relDel w promises path
                tmpl0 wasCached w1 Hcl Hc) as (_ & _ & -> & _).
    destruct (policy E w isFull relDel wasCached tmpl0).2; lia.
Qed.

Lemma fold_addPath_skippedCount to isFull isPass relDel paths w promises :
  skippedCount w
  <= skippedCount
       (fold_left (addPath E to isFull isPass relDel) paths (w, promises)).1.
Proof.
  revert w promises. induction paths as [|path paths IH]; intros w promises.
  - reflexivity.
  - cbn [fold_left].
    pose proof (addPath_skippedCount to isFull isPass relDel w promises path).
    destruct (addPath E to isFull isPass relDel (w, promises) path)
      as [w1 promises1].
    cbn [fst] in *. etransitivity; [eassumption|apply IH].
Qed.

(** Building the template map never writes and never lowers the skipped
    counter. *)
Lemma _addToTemplateMap_counts w paths to :
  writeCount (_addToTemplateMap E w paths to).1 = writeCount w
  /\ skippedCount w <= skippedCount (_addToTemplateMap E w paths to).1.
Proof.
  unfold _addToTemplateMap.
  set (isFull := isFullTemplateFile E paths (incrementalFile w)).
  set (isPass := _isIncrementalFileAPassthroughCopy E w paths).
  destruct (if isFull then JS.asTruthy (incrementalFile w) else None)
    as [file|].
  - destruct (preRegister_spec E w file to)
      as (tmpl & wasCached & Hres & _ & _ & Hsk & Hsame & _).
    cbn zeta in *.
    destruct (preRegister E w file to) as [w1 res]. cbn [fst snd] in *.
    destruct Hsame as (_ & _ & Hwc & _).
    destruct res as [[promises relDel]|]; cbn [fst]; [|split; [assumption|lia]].
    pose proof (fold_addPath_sameSettings E to isFull isPass relDel paths w1
                  promises) as (_ & _ & Hwc2 & _).
    pose proof (fold_addPath_skippedCount to isFull isPass relDel paths w1
                  promises) as Hsk2.
    destruct (fold_left _ paths (w1, promises)) as [w2 promises2].
    destruct (allRegistered_frame E promises2 w2) as (-> & -> & _).
    cbn [fst] in *. split; [congruence|lia].
  - pose proof (fold_addPath_sameSettings E to isFull isPass ∅ paths w [])
      as (_ & _ & Hwc2 & _).
    pose proof (fold_addPath_skippedCount to isFull isPass ∅ paths w [])
      as Hsk2.
    destruct (fold_left _ paths (w, [])) as [w2 promises2].
    destruct (allRegistered_frame E promises2 w2) as (-> & -> & _).
    cbn [fst] in *. split; [congruence|lia].
Qed.

Lemma _createTemplateMap_counts w paths to :
  writeCount (_createTemplateMap E w paths to).1 = writeCount w
  /\ skippedCount w <= skippedCount (_createTemplateMap E w paths to).1.
Proof.
  unfold _createTemplateMap.
  pose proof (_addToTemplateMap_counts (withTemplateMap [] w) paths to)
    as [Hw Hs].
  destruct (_addToTemplateMap E (withTemplateMap [] w) paths to) as [w1 c].
  cbn [fst] in *. destruct c; cbn [fst]; simpl; split; assumption.
Qed.

Lemma fold_start_frame wave entries r :
  let r' :=
    fold_left (fun r mapEntry => start (TaskGenerate mapEntry wave) r)
      entries r in
  writer r' = writer r
  /\ usedTemplateContentTooEarlyMap r' = usedTemplateContentTooEarlyMap r
  /\ rejection r' = rejection r
  /\ exists evs,
       history r' = history r ++ evs
       /\ Forall (fun ev => exists i mapEntry,
                    ev = Started i (TaskGenerate mapEntry wave)) evs.
Proof.
  revert r. induction entries as [|mapEntry entries IH]; intros r.
  - simpl. repeat split. exists []. rewrite app_nil_r. split; [reflexivity|constructor].
  - cbn [fold_left].
    destruct (IH (start (TaskGenerate mapEntry wave) r))
      as (Hw & Hu & Hr & evs & Hh & Hevs).
    cbn zeta in *. rewrite Hw, Hu, Hr, Hh. repeat split.
    eexists. rewrite start_history, <- app_assoc. split; [reflexivity|].
    constructor; [eauto|assumption].
Qed.

(** The synchronous part of [generateTemplates]: it starts first-wave
    generations only, because [usedTemplateContentTooEarlyMap] is still
    empty when the second loop reads it. *)
Lemma generateTemplates_frame r paths to :
  let r' := (generateTemplates E r paths to).1 in
  rejection r' = rejection r
  /\ writeCount (writer r') = writeCount (writer r)
  /\ skippedCount (writer r) <= skippedCount (writer r')
  /\ exists evs,
       history r' = history r ++ evs
       /\ Forall (fun ev => exists i mapEntry,
                    ev = Started i (TaskGenerate mapEntry FirstWave)) evs.
Proof.
  unfold generateTemplates.
  pose proof (_createTemplateMap_counts (writer r) paths to) as [Hw Hs].
  destruct (_createTemplateMap E (writer r) paths to) as [w c].
  cbn [fst] in *. destruct c; cbn [fst].
  - match goal with
    | |- context [fold_left ?f (templateMap w) ?r0] =>
      destruct (fold_start_frame FirstWave (templateMap w) r0)
        as (Hw1 & Hu1 & Hr1 & evs & Hh1 & Hevs)
    end.
    cbn zeta in *. cbn [usedTemplateContentTooEarlyMap] in Hu1.
    rewrite Hu1. cbn [fold_left]. rewrite Hw1, Hr1, Hh1. simpl.
    repeat split; try assumption. exists evs. split; [reflexivity|assumption].
  - simpl. repeat split; try assumption.
    exists []. rewrite app_nil_r. split; [reflexivity|constructor].
Qed.

Lemma run_writer schedule r :
  writeCount (writer r) <= writeCount (writer (fold_left (settle E) schedule r))
  /\ skippedCount (writer (fold_left (settle E) schedule r))
     = skippedCount (writer r).
Proof.
  revert r. induction schedule as [|i schedule IH]; intros r.
  - split; reflexivity.
  - simpl. destruct (IH (settle E r i)) as [H1 H2].
    destruct (settle_writer E r i) as [H3 H4]. split; [lia|congruence].
Qed.

(** No settlement starts a task. *)
Lemma run_starts schedule r (P : RunEvent -> Prop) :
  (forall i task result, P (Settled i task result)) ->
  (forall e, P (AllRejected e)) ->
  Forall P (history r) ->
  Forall P (history (fold_left (settle E) schedule r)).
Proof.
  intros Hs Ha. revert r. induction schedule as [|i schedule IH]; intros r Hr.
  - assumption.
  - simpl. apply IH.
    destruct (settle_history E r i) as [->|(task & result & _ & _ & ->)];
      [assumption|].
    apply Forall_app. split; [assumption|].
    constructor; [apply Hs|].
    destruct result; try constructor.
    destruct (rejection r); constructor; [apply Ha|constructor].
Qed.

End CounterProperties.

(** ** The claim about incremental invalidation *)

Section IncrementalClaim.

Context (E : Env).








End IncrementalClaim.


Section GenerationClaims.

Context (E : Env).

(** Whatever the paths and the schedule, [write] starts no generation of
    the second wave. *)
Lemma write_starts_no_second_wave w paths schedule :
  Forall (fun ev => ~ isSecondWaveStart ev)
    (history (write E w paths schedule).1).
Proof.
  unfold write.
  destruct (generateTemplates_frame E (start (TaskCopy paths) (newRun w))
              paths "fs") as (_ & _ & _ & evs & Hh & Hevs).
  cbn zeta in *.
  assert (Hstarted : Forall (fun ev => ~ isSecondWaveStart ev)
            (history (generateTemplates E (start (TaskCopy paths) (newRun w))
                        paths "fs").1)).
  { rewrite Hh. apply Forall_app. split.
    - simpl. constructor; [simpl; tauto|constructor].
    - eapply Forall_impl; [eassumption|].
      intros ev (i & mapEntry & ->). simpl. tauto. }
  destruct (generateTemplates E (start (TaskCopy paths) (newRun w)) paths "fs")
    as [r c].
  cbn [fst] in *. destruct c; cbn [fst]; [|assumption].
  apply run_starts; [intros; simpl; tauto|intros; simpl; tauto|assumption].
Qed.

(** When no task of the run can be rejected, the run is not rejected. *)
Lemma run_never_rejected schedule r :
  Forall (fun task => forall r' e, (callbacks E task r').2 <> Rejected e)
    (fst <$> promises r) ->
  rejection r = None ->
  rejection (fold_left (settle E) schedule r) = None.
Proof.
  revert r. induction schedule as [|i schedule IH]; intros r Htasks Hnone.
  - assumption.
  - simpl. apply IH.
    + rewrite settle_tasks. assumption.
    + rewrite settle_rejection, Hnone.
      destruct (promises r !! i) as [[task [| |]]|] eqn:Hi; try reflexivity.
      assert (Hin : task ∈ fst <$> promises r).
      { apply list_elem_of_fmap. exists (task, Pending).
        split; [reflexivity|]. eapply list_elem_of_lookup_2. eassumption. }
      rewrite Forall_forall in Htasks. specialize (Htasks task Hin r).
      destruct ((callbacks E task r).2); try reflexivity.
      exfalso. eapply Htasks. reflexivity.
Qed.


(** The same for [getJSON]. *)
Lemma getJSON_first_rejection_rejects_the_run w to paths schedule :
  Exists isRejection (history (getJSON E w to paths schedule).1) ->
  exists e pre j task post,
    history (getJSON E w to paths schedule).1
    = pre ++ Settled j task (Rejected e) :: AllRejected e :: post
    /\ Forall (fun ev => ~ isRejection ev) pre
    /\ (getJSON E w to paths schedule).2 = Thrown e
    /\ returnedPages (getJSON E w to paths schedule).2 = [].
Proof.
  unfold getJSON.
  destruct (generateTemplates_frame E (newRun w) paths to)
    as (Hrej & _ & _ & evs & Hh & Hevs).
  cbn zeta in *.
  assert (Hinv : rejectionRecorded (generateTemplates E (newRun w) paths to).1).
  { unfold rejectionRecorded. rewrite Hrej, Hh. simpl.
    eapply Forall_impl; [eassumption|].
    intros ev (i & mapEntry & ->). simpl. tauto. }
  destruct (generateTemplates E (newRun w) paths to) as [r c].
  cbn [fst] in *. destruct c; cbn [fst snd].
  - intros Hex.
    destruct (run_first_rejection E schedule r Hinv Hex)
      as (e & pre & j & task & post & Hhist & Hpre & Ho).
    exists e, pre, j, task, post. rewrite Ho. repeat split; assumption.
  - intros Hex. exfalso. unfold rejectionRecorded in Hinv.
    rewrite Hrej in Hinv. simpl in Hinv.
    apply Exists_exists in Hex as (ev & Hin & Hev).
    rewrite Forall_forall in Hinv. exact (Hinv ev Hin Hev).
Qed.

(** C9 (amended). [restart()] sets both counters to zero, and it is the
    only operation that lowers them: every other operation of the writer,
    [write] and [getJSON] included, leaves each counter where it was or
    higher. A run does not reset them when it starts; they add up over the
    runs until [restart()] is called. *)
Theorem C9_counters_are_reset_by_restart_only op w :
  match op with
  | OpRestart =>
    writeCount (perform E op w) = 0 /\ skippedCount (perform E op w) = 0
  | _ =>
    writeCount w <= writeCount (perform E op w)
    /\ skippedCount w <= skippedCount (perform E op w)
  end.
Proof.
  destruct op; try (split; reflexivity).
  - simpl. unfold write.
    destruct (generateTemplates_frame E (start (TaskCopy paths) (newRun w))
                paths "fs") as (_ & Hw & Hs & _).
    cbn zeta in *.
    destruct (generateTemplates E (start (TaskCopy paths) (newRun w)) paths "fs")
      as [r c].
    cbn [fst] in *. simpl in Hw, Hs.
    destruct c; cbn [fst]; [|split; lia].
    destruct (run_writer E schedule r). split; lia.
  - simpl. unfold getJSON.
    destruct (generateTemplates_frame E (newRun w) paths to)
      as (_ & Hw & Hs & _).
    cbn zeta in *.
    destruct (generateTemplates E (newRun w) paths to) as [r c].
    cbn [fst] in *. simpl in Hw, Hs.
    destruct c; cbn [fst]; [|split; lia].
    destruct (run_writer E schedule r). split; lia.
Qed.

(** A new writer starts with both counters at zero. *)
Lemma constructor_counts data cfg w :
  constructor data (Some cfg) = inr w ->
  writeCount w = 0 /\ skippedCount w = 0.
Proof. intros [= <-]. split; reflexivity. Qed.

Lemma write_unfold w paths schedule :
  write E w paths schedule
  = let g := generateTemplates E (start (TaskCopy paths) (newRun w)) paths "fs" in
    match g.2 with
    | Rejects => (g.1, TemplateMapRejected)
    | Resolves =>
      (fold_left (settle E) schedule g.1,
       outcome (fold_left (settle E) schedule g.1))
    end.
Proof.
  unfold write.
  destruct (generateTemplates E (start (TaskCopy paths) (newRun w)) paths "fs")
    as [r []]; reflexivity.
Qed.

End GenerationClaims.

(** ** The claims at sample inputs *)

(** C1: the code does not do what the claim says. The generation of a.md
    fails with a premature use of template content. The callback swallows
    the failure (the promise is fulfilled with undefined) and pushes the
    entry to [usedTemplateContentTooEarlyMap], but the loop over that array
    has already run, on the empty array: the entry is not generated again,
    under any schedule ([write_starts_no_second_wave] says so for every
    run). *)
Theorem C1_premature_entry_is_not_generated_again :
  history (write Sample.prematureEnv Sample.fresh ["a.md"] [0; 1]).1
  = [Started 0 (TaskCopy ["a.md"]);
     Started 1 (TaskGenerate Sample.entryA FirstWave);
     Settled 0 (TaskCopy ["a.md"]) (Fulfilled VCopied);
     Settled 1 (TaskGenerate Sample.entryA FirstWave) (Fulfilled VUndefined)]
  /\ usedTemplateContentTooEarlyMap
       (write Sample.prematureEnv Sample.fresh ["a.md"] [0; 1]).1
     = [Sample.entryA]
  /\ forall schedule,
       Forall (fun ev => ~ isSecondWaveStart ev)
         (history (write Sample.prematureEnv Sample.fresh ["a.md"] schedule).1).
Proof.
  split; [vm_compute; reflexivity|]. split; [vm_compute; reflexivity|].
  intros schedule. apply write_starts_no_second_wave.
Qed.

(** C2: the code does not do what the claim says. The generation of a.md
    fails with a premature use of template content in the first wave and
    would fail again in the second. The first failure is swallowed and no
    second attempt is made, so [write] is fulfilled (with undefined in the
    place of the entry) and under no schedule rejected: no
    EleventyTemplateError of a second pass is thrown. *)
Theorem C2_second_failure_is_not_surfaced :
  generateMapEntry Sample.prematureEnv Sample.entryA FirstWave
  = Failed TemplateContentPrematureUseError
  /\ generateMapEntry Sample.prematureEnv Sample.entryA SecondWave
     = Failed TemplateContentPrematureUseError
  /\ (write Sample.prematureEnv Sample.fresh ["a.md"] [0; 1]).2
     = Returned [VCopied; VUndefined]
  /\ forall schedule,
       rejection (write Sample.prematureEnv Sample.fresh ["a.md"] schedule).1
       = None.
Proof.
  split; [reflexivity|]. split; [reflexivity|].
  split; [vm_compute; reflexivity|].
  intros schedule. rewrite write_unfold. cbn zeta.
  set (g := generateTemplates Sample.prematureEnv
              (start (TaskCopy ["a.md"]) (newRun Sample.fresh)) ["a.md"] "fs").
  assert (Hc : g.2 = Resolves) by (vm_compute; reflexivity).
  assert (Htasks : fst <$> promises g.1
                   = [TaskCopy ["a.md"]; TaskGenerate Sample.entryA FirstWave])
    by (vm_compute; reflexivity).
  assert (Hrej : rejection g.1 = None) by (vm_compute; reflexivity).
  rewrite Hc. cbn [fst].
  apply run_never_rejected; [|assumption].
  rewrite Htasks.
  constructor; [intros r' e; simpl; discriminate|].
  constructor; [intros r' e; simpl; discriminate|constructor].
Qed.




(** C6 (as proved) at a sample input. *)
Lemma C6_witness :
  JS.asTruthy (incrementalFile (setIncrementalFile (JS.Str "a.md") Sample.fresh))
  = Some "a.md"
  /\ isFullTemplateFile Sample.changedTemplateEnv ["a.md"; "b.md"]
       (incrementalFile (setIncrementalFile (JS.Str "a.md") Sample.fresh))
     = true
  /\ NoDup ["a.md"; "b.md"]
  /\ exists others,
       me_template <$>
         templateMap
           (_createTemplateMap Sample.changedTemplateEnv
              (setIncrementalFile (JS.Str "a.md") Sample.fresh)
              ["a.md"; "b.md"] "fs").1
       = "a.md" :: others
       /\ NoDup ("a.md" :: others).
Proof.
  assert (Hnd : NoDup ["a.md"; "b.md"]).
  { apply NoDup_cons. split; [|apply NoDup_singleton].
    intros H. apply list_elem_of_singleton in H. discriminate. }
  split; [reflexivity|]. split; [reflexivity|]. split; [exact Hnd|].
  destruct (C6_changed_template_is_registered_first Sample.changedTemplateEnv
              (setIncrementalFile (JS.Str "a.md") Sample.fresh)
              ["a.md"; "b.md"] "fs" "a.md" eq_refl eq_refl)
    as (cached & ok & later & _ & _ & others & Hk & _ & Hn).
  destruct ok; [|vm_compute in Hk; discriminate].
  exists others. split; [assumption|]. apply Hn. exact Hnd.
Defined.




(** C9 as the claim states it fails. A second full run starts from the
    write count of the first and ends at their sum; had the counters been
    reset before it, it would end at one. In the same way the skip counted
    by an incremental run is still there after the full run that
    follows. *)
Lemma C9_counterexample :
  JS.truthy (incrementalFile Sample.fresh) = false
  /\ writeCount (perform Sample.env (OpWrite ["a.md"] [0; 1]) Sample.fresh) = 1
  /\ writeCount
       (perform Sample.env (OpWrite ["a.md"] [0; 1])
          (perform Sample.env (OpWrite ["a.md"] [0; 1]) Sample.fresh))
     = 2
  /\ writeCount
       (perform Sample.env (OpWrite ["a.md"] [0; 1])
          (perform Sample.env OpRestart
             (perform Sample.env (OpWrite ["a.md"] [0; 1]) Sample.fresh)))
     = 1
  /\ skippedCount
       (perform Sample.env (OpWrite ["a.md"] [0; 1])
          (perform Sample.env OpResetIncrementalFile
             (perform Sample.env (OpWrite ["a.md"] [0; 1])
                (perform Sample.env (OpSetIncrementalFile (JS.Str "b.md"))
                   Sample.fresh))))
     = 1.
Proof.
  split; [reflexivity|]. repeat split; vm_compute; reflexivity.
Qed.

(** C10 (as proved) at a sample input. *)
Lemma C10_witness :
  JS.truthy (incrementalFile Sample.fresh) = false
  /\ _isIncrementalFileAPassthroughCopy Sample.copiedAssetEnv Sample.fresh
       ["a.md"; "logo.png"]
     = false
  /\ skippedCount
       (_addToTemplateMap Sample.copiedAssetEnv Sample.fresh
          ["a.md"; "logo.png"] "fs").1
     = skippedCount Sample.fresh.
Proof.
  split; [reflexivity|].
  destruct (C10_no_passthrough_skip_without_incremental_file
              Sample.copiedAssetEnv Sample.fresh eq_refl
              ["a.md"; "logo.png"] "fs") as (Hp & Hs & _).
  split; assumption.
Defined.

(** * Further properties *)

(** ** Creating handles *)

Lemma addLinters_bindings ls tmpl :
  Template.outputFormat (addLinters ls tmpl) = Template.outputFormat tmpl
  /\ Template.transforms (addLinters ls tmpl) = Template.transforms tmpl
  /\ Template.templateData (addLinters ls tmpl) = Template.templateData tmpl.
Proof.
  revert tmpl. induction ls as [|[name isFn] ls IH]; intros tmpl; [tauto|].
  simpl. destruct (IH (if isFn then Template.addLinter name tmpl else tmpl))
    as (-> & -> & ->).
  destruct isFn; simpl; tauto.
Qed.

Lemma addLinters_linters ls tmpl :
  Template.linters (addLinters ls tmpl)
  = Template.linters tmpl ++ map fst (List.filter snd ls).
Proof.
  revert tmpl. induction ls as [|[name isFn] ls IH]; intros tmpl.
  - simpl. rewrite app_nil_r. reflexivity.
  - simpl. rewrite IH. destruct isFn; simpl; [|reflexivity].
    rewrite <- app_assoc. reflexivity.
Qed.

(** X1. A handle that [_createTemplate] creates has the path as its input
    path, the output format [to], the transforms of the configuration, and
    as linters exactly the linters of the configuration that are
    functions, in their order; the other values of [config.linters] are
    left out. *)
Theorem X1_new_handle_takes_format_transforms_and_function_linters
  w path to :
  _templatePathCache w !! path = None ->
  (_createTemplate w path to).1.2 = false
  /\ Template.inputPath (_createTemplate w path to).1.1 = path
  /\ Template.outputFormat (_createTemplate w path to).1.1 = to
  /\ Template.transforms (_createTemplate w path to).1.1
     = cfg_transforms (config w)
  /\ Template.linters (_createTemplate w path to).1.1
     = map fst (List.filter snd (cfg_linters (config w))).
Proof.
  intros Hnone. unfold _createTemplate. rewrite Hnone. cbn.
  rewrite addLinters_inputPath, addLinters_linters.
  destruct (addLinters_bindings (cfg_linters (config w))
              (Template.setTransforms (cfg_transforms (config w))
                 (Template.setOutputFormat to
                    (Template.new (nextTemplateId w) path (templateData w)))))
    as (-> & -> & _).
  cbn. repeat split; reflexivity.
Qed.

(** X1 at a sample input. *)
Lemma X1_witness :
  _templatePathCache Sample.fresh !! "a.md" = None
  /\ Template.linters (_createTemplate Sample.fresh "a.md" "json").1.1
     = ["links"]
  /\ Template.outputFormat (_createTemplate Sample.fresh "a.md" "json").1.1
     = "json".
Proof.
  split; [reflexivity|].
  destruct (X1_new_handle_takes_format_transforms_and_function_linters
              Sample.fresh "a.md" "json" eq_refl)
    as (_ & _ & Hf & _ & Hl).
  split; [exact Hl|exact Hf].
Defined.

(** X2. Whether the handle is new or comes from the cache,
    [_createTemplate] returns it with the writer's current dry-run flag,
    verbose flag and template data, and that handle is what the cache
    holds under the path afterwards: a flag set after a handle was created
    still reaches it at its next use. *)
Theorem X2_current_flags_reach_new_and_cached_handles w path to :
  _templatePathCache (_createTemplate w path to).2 !! path
  = Some (_createTemplate w path to).1.1
  /\ Template.dryRun (_createTemplate w path to).1.1 = isDryRun w
  /\ Template.isVerbose (_createTemplate w path to).1.1 = isVerbose w
  /\ Template.templateData (_createTemplate w path to).1.1 = templateData w
  /\ (_createTemplate w path to).1.2
     = bool_decide (is_Some (_templatePathCache w !! path)).
Proof.
  unfold _createTemplate.
  destruct (_templatePathCache w !! path) as [old|] eqn:Hold; cbn.
  - rewrite lookup_insert_eq. repeat split.
  - rewrite lookup_insert_eq.
    destruct (addLinters_bindings (cfg_linters (config w))
                (Template.setTransforms (cfg_transforms (config w))
                   (Template.setOutputFormat to
                      (Template.new (nextTemplateId w) path (templateData w)))))
      as (_ & _ & ->).
    repeat split.
Qed.

(** X3. For a handle that is in the cache, [_createTemplate] ignores its
    [to] argument and the current configuration: the handle keeps the
    output format, the transforms and the linters it was created with (and
    its identity and input path). *)
Theorem X3_cached_handle_keeps_format_transforms_and_linters
  w path to old :
  _templatePathCache w !! path = Some old ->
  (_createTemplate w path to).1.2 = true
  /\ Template.tid (_createTemplate w path to).1.1 = Template.tid old
  /\ Template.inputPath (_createTemplate w path to).1.1
     = Template.inputPath old
  /\ Template.outputFormat (_createTemplate w path to).1.1
     = Template.outputFormat old
  /\ Template.transforms (_createTemplate w path to).1.1
     = Template.transforms old
  /\ Template.linters (_createTemplate w path to).1.1 = Template.linters old
  /\ nextTemplateId (_createTemplate w path to).2 = nextTemplateId w.
Proof.
  intros Hold. unfold _createTemplate. rewrite Hold. cbn. repeat split.
Qed.

(** X3 at a sample input: a handle created for the file system keeps that
    format when it is asked for again for JSON, after the configuration
    was replaced. *)
Lemma X3_witness :
  _templatePathCache (_createTemplate Sample.fresh "a.md" "fs").2 !! "a.md"
  = Some (_createTemplate Sample.fresh "a.md" "fs").1.1
  /\ Template.outputFormat
       (_createTemplate
          (overrideConfig {| cfg_transforms := []; cfg_linters := [] |}
             (_createTemplate Sample.fresh "a.md" "fs").2)
          "a.md" "json").1.1
     = "fs".
Proof.
  split; [vm_compute; reflexivity|].
  destruct (X3_cached_handle_keeps_format_transforms_and_linters
              (overrideConfig {| cfg_transforms := []; cfg_linters := [] |}
                 (_createTemplate Sample.fresh "a.md" "fs").2)
              "a.md" "json" (_createTemplate Sample.fresh "a.md" "fs").1.1)
    as (_ & _ & _ & Hf & _).
  - vm_compute. reflexivity.
  - rewrite Hf. vm_compute. reflexivity.
Defined.

(** ** The cache over the life of a writer *)

Section CacheInvariants.

Context (E : Env).

Lemma cacheEvolves_refl w : cacheEvolves w w.
Proof. split; [tauto|]. intros p t H. exists t. auto. Qed.

Lemma cacheEvolves_trans w1 w2 w3 :
  cacheEvolves w1 w2 -> cacheEvolves w2 w3 -> cacheEvolves w1 w3.
Proof.
  intros [H12 K12] [H23 K23]. split; [tauto|].
  intros p t H. destruct (K12 p t H) as (t2 & H2 & Ht2 & Hi2).
  destruct (K23 p t2 H2) as (t3 & H3 & Ht3 & Hi3).
  exists t3. repeat split; congruence.
Qed.

Lemma cacheEvolves_same w w' :
  _templatePathCache w' = _templatePathCache w ->
  nextTemplateId w' = nextTemplateId w ->
  cacheEvolves w w'.
Proof.
  intros Hc Hn. split.
  - unfold cacheOk, keysAreInputPaths. rewrite Hc, Hn. tauto.
  - intros p t H. exists t. rewrite Hc. auto.
Qed.

Lemma handleStep_cacheEvolves w w' : handleStep w w' -> cacheEvolves w w'.
Proof.
  intros [[Hc Hn]|(path & to & tmpl & Hc & Hn & Htid & Hip)].
  { apply cacheEvolves_same; assumption. }
  destruct (_createTemplate w path to) as [[t0 c] w1] eqn:Hcreate.
  cbn [fst snd] in *.
  destruct (_createTemplate_writer _ _ _ _ _ _ Hcreate) as (Hc1 & _).
  assert (Hshape :
            match _templatePathCache w !! path with
            | Some old =>
              Template.tid t0 = Template.tid old
              /\ Template.inputPath t0 = Template.inputPath old
            | None => Template.inputPath t0 = path
            end).
  { destruct (_templatePathCache w !! path) as [old|] eqn:Hold.
    - destruct (_createTemplate_cached w path to old Hold)
        as (t & w2 & Heq & _ & Ht & Hi & _).
      rewrite Hcreate in Heq. injection Heq as <- _ _. auto.
    - destruct (_createTemplate_fresh w path to Hold)
        as (t & w2 & Heq & _ & _ & Hi & _).
      rewrite Hcreate in Heq. injection Heq as <- _ _. auto. }
  split.
  - intros [Hok Hkeys].
    pose proof (_createTemplate_cacheOk _ _ _ _ _ _ Hok Hcreate) as [Hlt Hinj].
    split; [split|].
    + intros p t. rewrite Hc, Hn, lookup_insert.
      case_decide as Hp.
      * intros [= <-]. rewrite Htid. apply (Hlt path).
        rewrite Hc1. apply lookup_insert_eq.
      * intros Hlook. apply (Hlt p). rewrite Hc1, lookup_insert_ne by done.
        assumption.
    + intros p q t u. rewrite Hc, !lookup_insert.
      assert (Hpath : _templatePathCache w1 !! path = Some t0)
        by (rewrite Hc1; apply lookup_insert_eq).
      repeat case_decide; subst; intros Hp Hq; simplify_eq; try done.
      * rewrite Htid. intros Heq. eapply Hinj; [exact Hpath| |exact Heq].
        rewrite Hc1, lookup_insert_ne by done. assumption.
      * rewrite Htid. intros Heq. eapply Hinj; [|exact Hpath|exact Heq].
        rewrite Hc1, lookup_insert_ne by done. assumption.
      * intros Heq. eapply Hinj; [| |exact Heq];
          rewrite Hc1, lookup_insert_ne by done; assumption.
    + intros p t. rewrite Hc, lookup_insert.
      case_decide as Hp.
      * intros [= <-]. subst p. rewrite Hip.
        destruct (_templatePathCache w !! path) as [old|] eqn:Hold.
        -- destruct Hshape as [_ ->]. apply Hkeys. assumption.
        -- assumption.
      * apply Hkeys.
  - intros p t Hlook. rewrite Hc, lookup_insert.
    case_decide as Hp.
    + subst p. rewrite Hlook in Hshape. destruct Hshape as [Ht Hi].
      exists tmpl. repeat split; congruence.
    + exists t. auto.
Qed.

(** The policies work on the handle they are given. *)
Lemma policy_identity w isFull relDel wasCached tmpl :
  Template.tid (policy E w isFull relDel wasCached tmpl).1 = Template.tid tmpl
  /\ Template.inputPath (policy E w isFull relDel wasCached tmpl).1
     = Template.inputPath tmpl.
Proof.
  unfold policy, fullBuildPolicy, incrementalPolicy, materialize.
  destruct (JS.asTruthy (incrementalFile w)) as [file|].
  - destruct (negb wasCached && negb (Template.hasTemplateRender tmpl));
      match goal with
      | |- context [if ?b then _ else _] => destruct b
      end; destruct (isRunInitialBuild w); cbn; split; reflexivity.
  - destruct (isRunInitialBuild w), wasCached; cbn; split; reflexivity.
Qed.

Lemma changedTemplatePolicy_identity w wasCached tmpl :
  Template.tid (changedTemplatePolicy w wasCached tmpl) = Template.tid tmpl
  /\ Template.inputPath (changedTemplatePolicy w wasCached tmpl)
     = Template.inputPath tmpl.
Proof.
  unfold changedTemplatePolicy.
  destruct (isRunInitialBuild w), wasCached; cbn; split; reflexivity.
Qed.

Lemma addPath_handleStep to isFull isPass relDel w promises path :
  handleStep w (addPath E to isFull isPass relDel (w, promises) path).1.
Proof.
  destruct (classify E w isFull isPass path) eqn:Hcl.
  - rewrite addPath_NoEngine by assumption. left. split; reflexivity.
  - rewrite addPath_PassthroughSkipped by assumption. left. split; reflexivity.
  - rewrite addPath_AlreadyRegistered by assumption. left. split; reflexivity.
  - right. unfold addPath. rewrite Hcl.
    destruct (_createTemplate w path to) as [[tmpl0 wasCached] w1] eqn:Hc.
    destruct (_createTemplate_writer _ _ _ _ _ _ Hc) as (Hcache & _).
    pose proof (policy_identity w isFull relDel wasCached tmpl0) as [Ht Hi].
    destruct (policy E w isFull relDel wasCached tmpl0) as [tmpl skipped].
    cbn [fst] in Ht, Hi.
    exists path, to, tmpl. rewrite Hc. cbn [fst snd].
    destruct skipped; cbn; rewrite Hcache, insert_insert_eq; auto.
Qed.

Lemma preRegister_handleStep w file to :
  handleStep w (preRegister E w file to).1.
Proof.
  right. unfold preRegister.
  destruct (_createTemplate w file to) as [[tmpl0 wasCached] w1] eqn:Hc.
  destruct (_createTemplate_writer _ _ _ _ _ _ Hc) as (Hcache & _).
  pose proof (changedTemplatePolicy_identity w wasCached tmpl0) as [Ht Hi].
  exists file, to, (changedTemplatePolicy w wasCached tmpl0).
  rewrite Hc. cbn [fst snd]. unfold TemplateMap_add, cascadeDone.
  cbn [me_inputPath].
  destruct (dataCascade E
              (Template.inputPath (changedTemplatePolicy w wasCached tmpl0)));
    cbn; rewrite Hcache, insert_insert_eq; auto.
Qed.

Lemma fold_addPath_cacheEvolves to isFull isPass relDel paths w promises :
  cacheEvolves w
    (fold_left (addPath E to isFull isPass relDel) paths (w, promises)).1.
Proof.
  revert w promises. induction paths as [|path paths IH]; intros w promises.
  - apply cacheEvolves_refl.
  - cbn [fold_left].
    pose proof (addPath_handleStep to isFull isPass relDel w promises path)
      as Hstep.
    destruct (addPath E to isFull isPass relDel (w, promises) path)
      as [w1 promises1].
    eapply cacheEvolves_trans; [|apply IH].
    apply handleStep_cacheEvolves. exact Hstep.
Qed.

Lemma _addToTemplateMap_cacheEvolves w paths to :
  cacheEvolves w (_addToTemplateMap E w paths to).1.
Proof.
  unfold _addToTemplateMap.
  set (isFull := isFullTemplateFile E paths (incrementalFile w)).
  set (isPass := _isIncrementalFileAPassthroughCopy E w paths).
  destruct (if isFull then JS.asTruthy (incrementalFile w) else None)
    as [file|].
  - pose proof (handleStep_cacheEvolves _ _ (preRegister_handleStep w file to))
      as Hpre.
    destruct (preRegister E w file to) as [w1 [[promises relDel]|]];
      cbn [fst] in *; [|assumption].
    pose proof (fold_addPath_cacheEvolves to isFull isPass relDel paths w1
                  promises) as Hloop.
    destruct (fold_left _ paths (w1, promises)) as [w2 promises2].
    destruct (allRegistered_frame E promises2 w2) as (_ & _ & Hc & Hn & _).
    cbn [fst] in *.
    eapply cacheEvolves_trans; [eassumption|].
    eapply cacheEvolves_trans; [eassumption|].
    apply cacheEvolves_same; assumption.
  - pose proof (fold_addPath_cacheEvolves to isFull isPass ∅ paths w [])
      as Hloop.
    destruct (fold_left _ paths (w, [])) as [w2 promises2].
    destruct (allRegistered_frame E promises2 w2) as (_ & _ & Hc & Hn & _).
    cbn [fst] in *.
    eapply cacheEvolves_trans; [eassumption|].
    apply cacheEvolves_same; assumption.
Qed.

Lemma _createTemplateMap_cacheEvolves w paths to :
  cacheEvolves w (_createTemplateMap E w paths to).1.
Proof.
  unfold _createTemplateMap.
  pose proof (_addToTemplateMap_cacheEvolves (withTemplateMap [] w) paths to)
    as Hadd.
  destruct (_addToTemplateMap E (withTemplateMap [] w) paths to) as [w1 c].
  cbn [fst] in *.
  eapply cacheEvolves_trans;
    [apply (cacheEvolves_same w (withTemplateMap [] w)); reflexivity|].
  destruct c; cbn [fst]; [|assumption].
  eapply cacheEvolves_trans; [eassumption|].
  apply cacheEvolves_same; reflexivity.
Qed.

(** The callbacks of the tasks leave the cache alone. *)
Lemma settle_cache r i :
  _templatePathCache (writer (settle E r i)) = _templatePathCache (writer r)
  /\ nextTemplateId (writer (settle E r i)) = nextTemplateId (writer r)
  /\ templateMap (writer (settle E r i)) = templateMap (writer r).
Proof.
  unfold settle.
  destruct (promises r !! i) as [[task [| |]]|]; try (repeat split; reflexivity).
  assert (Hcb : _templatePathCache (writer (callbacks E task r).1)
                = _templatePathCache (writer r)
                /\ nextTemplateId (writer (callbacks E task r).1)
                   = nextTemplateId (writer r)
                /\ templateMap (writer (callbacks E task r).1)
                   = templateMap (writer r)).
  { destruct task as [paths|mapEntry wave]; simpl; [repeat split|].
    unfold _generateTemplate, firstPassCatch.
    destruct (generateMapEntry E mapEntry wave) as [pages written|e]; simpl;
      [repeat split|].
    destruct wave; [destruct (isPrematureTemplateContentError e)|];
      simpl; repeat split. }
  destruct (callbacks E task r) as [r1 result]. cbn [fst] in Hcb.
  unfold observe. cbn [rejection].
  destruct result as [|v|e]; [| |destruct (rejection r1)]; cbn; assumption.
Qed.

Lemma run_cache schedule r :
  _templatePathCache (writer (fold_left (settle E) schedule r))
  = _templatePathCache (writer r)
  /\ nextTemplateId (writer (fold_left (settle E) schedule r))
     = nextTemplateId (writer r)
  /\ templateMap (writer (fold_left (settle E) schedule r))
     = templateMap (writer r).
Proof.
  revert r. induction schedule as [|i schedule IH]; intros r.
  - repeat split.
  - simpl. destruct (IH (settle E r i)) as (-> & -> & ->). apply settle_cache.
Qed.

(** The writer of a run after the synchronous part of
    [generateTemplates] is the one [_createTemplateMap] left. *)
Lemma generateTemplates_writer r paths to :
  writer (generateTemplates E r paths to).1
  = (_createTemplateMap E (writer r) paths to).1.
Proof.
  unfold generateTemplates.
  destruct (_createTemplateMap E (writer r) paths to) as [w c].
  destruct c; cbn [fst]; [|reflexivity].
  match goal with
  | |- context [fold_left ?f (templateMap w) ?r0] =>
    destruct (fold_start_frame FirstWave (templateMap w) r0)
      as (Hw1 & Hu1 & _)
  end.
  cbn zeta in *. cbn [usedTemplateContentTooEarlyMap] in Hu1.
  rewrite Hu1. cbn [fold_left]. rewrite Hw1. reflexivity.
Qed.

Lemma write_writer w paths schedule :
  _templatePathCache (writer (write E w paths schedule).1)
  = _templatePathCache (_createTemplateMap E w paths "fs").1
  /\ nextTemplateId (writer (write E w paths schedule).1)
     = nextTemplateId (_createTemplateMap E w paths "fs").1
  /\ templateMap (writer (write E w paths schedule).1)
     = templateMap (_createTemplateMap E w paths "fs").1.
Proof.
  unfold write.
  pose proof (generateTemplates_writer (start (TaskCopy paths) (newRun w))
                paths "fs") as Hw.
  destruct (generateTemplates E (start (TaskCopy paths) (newRun w)) paths "fs")
    as [r c].
  cbn [fst] in Hw. change (writer (start (TaskCopy paths) (newRun w))) with w in Hw.
  destruct c; cbn [fst]; [|rewrite Hw; repeat split].
  destruct (run_cache schedule r) as (-> & -> & ->). rewrite Hw. repeat split.
Qed.

Lemma getJSON_writer w to paths schedule :
  _templatePathCache (writer (getJSON E w to paths schedule).1)
  = _templatePathCache (_createTemplateMap E w paths to).1
  /\ nextTemplateId (writer (getJSON E w to paths schedule).1)
     = nextTemplateId (_createTemplateMap E w paths to).1
  /\ templateMap (writer (getJSON E w to paths schedule).1)
     = templateMap (_createTemplateMap E w paths to).1.
Proof.
  unfold getJSON.
  pose proof (generateTemplates_writer (newRun w) paths to) as Hw.
  destruct (generateTemplates E (newRun w) paths to) as [r c].
  cbn [fst] in Hw. change (writer (newRun w)) with w in Hw.
  destruct c; cbn [fst]; [|rewrite Hw; repeat split].
  destruct (run_cache schedule r) as (-> & -> & ->). rewrite Hw. repeat split.
Qed.

Lemma perform_cacheEvolves op w : cacheEvolves w (perform E op w).
Proof.
  destruct op; try (apply cacheEvolves_same; reflexivity).
  - simpl. destruct (write_writer w paths schedule) as (Hc & Hn & _).
    eapply cacheEvolves_trans; [apply _createTemplateMap_cacheEvolves|].
    apply cacheEvolves_same; eassumption.
  - simpl. destruct (getJSON_writer w to paths schedule) as (Hc & Hn & _).
    eapply cacheEvolves_trans; [apply _createTemplateMap_cacheEvolves|].
    apply cacheEvolves_same; eassumption.
Qed.

Lemma performAll_cacheEvolves ops w : cacheEvolves w (performAll E ops w).
Proof.
  revert w. induction ops as [|op ops IH]; intros w.
  - apply cacheEvolves_refl.
  - simpl. eapply cacheEvolves_trans; [apply perform_cacheEvolves|apply IH].
Qed.

Lemma keysAreInputPaths_initial data cfg : keysAreInputPaths (initial data cfg).
Proof. intros p t. simpl. rewrite lookup_empty. discriminate. Qed.

(** X4. Whatever is done with a new writer (runs of [write] and [getJSON]
    with any paths and schedules, restarts, setters), its cache stays well
    formed: every handle in it was allocated by the writer, no two paths
    share a handle object, and each handle has the key it is stored under
    as its input path. *)
Theorem X4_cache_of_a_writer_stays_well_formed data cfg ops :
  cacheOk (performAll E ops (initial data cfg))
  /\ keysAreInputPaths (performAll E ops (initial data cfg)).
Proof.
  apply (performAll_cacheEvolves ops (initial data cfg)).
  split; [apply cacheOk_initial|apply keysAreInputPaths_initial].
Qed.

(** X5. No operation of the writer evicts or replaces a handle: a path
    that has a handle keeps that same object, with the same input path,
    through every later run, restart and setter. *)
Theorem X5_handles_survive_every_operation ops w p t :
  _templatePathCache w !! p = Some t ->
  exists t',
    _templatePathCache (performAll E ops w) !! p = Some t'
    /\ Template.tid t' = Template.tid t
    /\ Template.inputPath t' = Template.inputPath t.
Proof.
  intros H. apply (performAll_cacheEvolves ops w). exact H.
Qed.

End CacheInvariants.

(** ** More on building the template map *)

Section BuilderExtras.

Context (E : Env).

Lemma _createTemplate_inputPath w path to :
  keysAreInputPaths w ->
  Template.inputPath (_createTemplate w path to).1.1 = path.
Proof.
  intros Hkeys.
  destruct (_templatePathCache w !! path) as [old|] eqn:Hold.
  - destruct (_createTemplate_cached w path to old Hold)
      as (t & w1 & Heq & _ & _ & Hi & _).
    rewrite Heq. cbn [fst]. rewrite Hi. apply Hkeys. assumption.
  - destruct (_createTemplate_fresh w path to Hold)
      as (t & w1 & Heq & _ & _ & Hi & _).
    rewrite Heq. cbn [fst]. exact Hi.
Qed.

(** What the loop does for a path when no incremental file is set. *)
Lemma classify_full_run w isFull path :
  (forall s, incrementalFile w <> JS.Str s) ->
  classify E w isFull false path
  = if hasEngine E path then Qualifying else NoEngine.
Proof.
  intros Hns. unfold classify.
  destruct (hasEngine E path); [|reflexivity]. simpl.
  destruct (incrementalFile w) as [| |s]; simpl;
    rewrite ?andb_false_r; try reflexivity.
  exfalso. apply (Hns s). reflexivity.
Qed.

Lemma asTruthy_not_a_string v :
  (forall s, v <> JS.Str s) -> JS.asTruthy v = None.
Proof.
  intros Hns. destruct v as [| |s]; try reflexivity.
  exfalso. apply (Hns s). reflexivity.
Qed.

Lemma registrationsStarted_app evs evs' :
  registrationsStarted (evs ++ evs')
  = registrationsStarted evs ++ registrationsStarted evs'.
Proof. apply omap_app. Qed.

(** The loop of a run without incremental file starts the registration of
    every listed path with an engine, in order, and puts nothing in the
    map itself. *)
Lemma fold_addPath_full_run to isFull relDel paths w promises :
  (forall s, incrementalFile w <> JS.Str s) ->
  cacheOk w /\ keysAreInputPaths w ->
  let st := fold_left (addPath E to isFull false relDel) paths (w, promises) in
  inFlight st.2
  = inFlight promises ++ map (entryOf E) (List.filter (hasEngine E) paths)
  /\ templateMap st.1 = templateMap w
  /\ registrationsStarted (trace st.1)
     = registrationsStarted (trace w) ++ List.filter (hasEngine E) paths.
Proof.
  revert w promises. induction paths as [|path paths IH];
    intros w promises Hns Hgood.
  - simpl. rewrite !app_nil_r. repeat split.
  - cbn [fold_left List.filter].
    pose proof (addPath_sameSettings E to isFull false relDel w promises path)
      as (Hinc & _).
    pose proof (handleStep_cacheEvolves _ _
                  (addPath_handleStep E to isFull false relDel w promises path))
      as [Hkeep _].
    pose proof (classify_full_run w isFull path Hns) as Hcl.
    destruct (hasEngine E path) eqn:He.
    + destruct (_createTemplate w path to) as [[tmpl0 wasCached] w0] eqn:Hc.
      destruct (addPath_Qualifying E to isFull false relDel w promises path
                  tmpl0 wasCached w0 Hcl Hc) as (Hp & _ & _ & Hm & Ht & _).
      pose proof (policy_identity E w isFull relDel wasCached tmpl0) as [_ Hi].
      pose proof (_createTemplate_inputPath w path to (proj2 Hgood)) as Hip.
      rewrite Hc in Hip. cbn [fst] in Hip.
      destruct (addPath E to isFull false relDel (w, promises) path)
        as [w1 promises1].
      cbn [fst snd] in *.
      destruct (IH w1 promises1) as (H1 & H2 & H3);
        [rewrite Hinc; assumption|apply Hkeep; assumption|].
      cbn zeta in *.
      rewrite H1, H2, H3, Hp, Hm, Ht, Hi, Hip, inFlight_app,
        registrationsStarted_app, <- !app_assoc.
      repeat split.
    + rewrite addPath_NoEngine by assumption. apply IH; assumption.
Qed.

(** A run without incremental file is the loop and the end of the
    cascades it started. *)
Lemma _createTemplateMap_full_run_map w paths to :
  (forall s, incrementalFile w <> JS.Str s) ->
  cacheOk w -> keysAreInputPaths w ->
  let w' := (_createTemplateMap E w paths to).1 in
  let c := (_createTemplateMap E w paths to).2 in
  let started := map (entryOf E) (List.filter (hasEngine E) paths) in
  registrationsStarted (trace w')
  = registrationsStarted (trace w) ++ List.filter (hasEngine E) paths
  /\ (Forall (fun e => dataCascade E (me_inputPath e) = true) (templateMap w'))
  /\ (c = Resolves -> templateMap w' = completionOrder E started)
  /\ (c = Resolves
      <-> Forall (fun e => dataCascade E (me_inputPath e) = true) started).
Proof.
  intros Hns Hok Hkeys. cbn zeta.
  unfold _createTemplateMap, _addToTemplateMap.
  change (incrementalFile (withTemplateMap [] w)) with (incrementalFile w).
  assert (Hpass : _isIncrementalFileAPassthroughCopy E (withTemplateMap [] w)
                    paths = false).
  { unfold _isIncrementalFileAPassthroughCopy.
    change (incrementalFile (withTemplateMap [] w)) with (incrementalFile w).
    rewrite asTruthy_not_a_string by assumption. reflexivity. }
  rewrite Hpass, asTruthy_not_a_string by assumption.
  replace (if isFullTemplateFile E paths (incrementalFile w)
           then @None string else None) with (@None string)
    by (destruct (isFullTemplateFile E paths (incrementalFile w)); reflexivity).
  destruct (fold_addPath_full_run to
              (isFullTemplateFile E paths (incrementalFile w)) ∅ paths
              (withTemplateMap [] w) [] Hns (conj Hok Hkeys))
    as (Hp & Hm & Ht).
  cbn zeta in *.
  destruct (fold_left _ paths (withTemplateMap [] w, [])) as [w2 promises2].
  cbn [fst snd] in *. simpl in Hp, Hm, Ht.
  destruct (allRegistered_spec E promises2 w2)
    as (regs & Hall & _ & Hgood & Horder & Hiff).
  rewrite Hp in Horder, Hiff.
  assert (Hmap : templateMap (allRegistered E promises2 w2).1 = regs)
    by (rewrite Hall; simpl; rewrite Hm; reflexivity).
  assert (Htr : trace (allRegistered E promises2 w2).1 = trace w2)
    by (rewrite Hall; reflexivity).
  destruct (allRegistered E promises2 w2) as [w3 [|]]; cbn [fst snd] in *.
  - simpl. rewrite Hmap, Htr, registrationsStarted_app, Ht. simpl.
    rewrite app_nil_r. split; [reflexivity|]. split; [assumption|].
    split; [assumption|]. assumption.
  - rewrite Hmap, Htr, Ht. split; [reflexivity|]. split; [assumption|].
    split; [discriminate|]. assumption.
Qed.

(** X7. With no incremental file set, building the template map starts
    one registration for each listed path that has an engine, in the
    order of the paths, and none for a path without engine, whatever the
    data cascades do. When the build resolves, the template map holds
    exactly the entries of these paths (the path as input path, with the
    output path computed for it), in the order in which their data
    cascades ended; what the previous run left in the map is gone. *)
Theorem X7_full_run_registers_the_paths_with_an_engine w paths to :
  (forall s, incrementalFile w <> JS.Str s) ->
  cacheOk w -> keysAreInputPaths w ->
  let w' := (_createTemplateMap E w paths to).1 in
  registrationsStarted (trace w')
  = registrationsStarted (trace w) ++ List.filter (hasEngine E) paths
  /\ ((_createTemplateMap E w paths to).2 = Resolves ->
      templateMap w'
      = completionOrder E (map (entryOf E) (List.filter (hasEngine E) paths))
      /\ templateMap w'
         ≡ₚ map (entryOf E) (List.filter (hasEngine E) paths)).
Proof.
  intros Hns Hok Hkeys.
  destruct (_createTemplateMap_full_run_map w paths to Hns Hok Hkeys)
    as (Hstarted & _ & Horder & _).
  cbn zeta in *. split; [assumption|]. intros Hres.
  split; [apply Horder; assumption|].
  rewrite (Horder Hres). apply completionOrder_Permutation.
Qed.

(** X8. With no incremental file set, when the data cascade of a listed
    path with an engine fails, building the template map is rejected. The
    failure does not stop the loop: the registration of every listed path
    with an engine was started all the same (the rejection comes from the
    [Promise.all] at the end), and the failing path has no entry in the
    map. *)
Theorem X8_failing_cascade_rejects_the_build_after_the_loop w paths to p :
  (forall s, incrementalFile w <> JS.Str s) ->
  cacheOk w -> keysAreInputPaths w ->
  p ∈ paths -> hasEngine E p = true -> dataCascade E p = false ->
  let w' := (_createTemplateMap E w paths to).1 in
  (_createTemplateMap E w paths to).2 = Rejects
  /\ registrationsStarted (trace w')
     = registrationsStarted (trace w) ++ List.filter (hasEngine E) paths
  /\ (p ∉ me_inputPath <$> templateMap w').
Proof.
  intros Hns Hok Hkeys Hin He Hfail.
  destruct (_createTemplateMap_full_run_map w paths to Hns Hok Hkeys)
    as (Hstarted & Hgood & _ & Hiff).
  cbn zeta in *. split; [|split; [assumption|]].
  - destruct ((_createTemplateMap E w paths to).2) eqn:Hc; [|reflexivity].
    exfalso. destruct Hiff as [Hall _]. specialize (Hall eq_refl).
    rewrite Forall_forall in Hall.
    specialize (Hall (entryOf E p)). simpl in Hall.
    rewrite Hfail in Hall. enough (true = false) by discriminate.
    symmetry. apply Hall. apply list_elem_of_fmap. exists p.
    split; [reflexivity|].
    apply list_elem_of_In, filter_In. split; [|assumption].
    apply list_elem_of_In. assumption.
  - intros Hp. apply list_elem_of_fmap in Hp as (e & -> & Hp).
    rewrite Forall_forall in Hgood. specialize (Hgood e Hp). congruence.
Qed.

(** A path the loop classifies gets counted at most once, and only when
    it has an engine. *)
Lemma fold_addPath_skipped_bound to isFull isPass relDel paths w promises :
  skippedCount
    (fold_left (addPath E to isFull isPass relDel) paths (w, promises)).1
  <= skippedCount w + length (List.filter (hasEngine E) paths).
Proof.
  revert w promises. induction paths as [|path paths IH]; intros w promises.
  - simpl. lia.
  - cbn [fold_left List.filter].
    destruct (classify E w isFull isPass path) eqn:Hcl.
    + rewrite addPath_NoEngine by assumption.
      etransitivity; [apply IH|]. destruct (hasEngine E path); simpl; lia.
    + rewrite addPath_PassthroughSkipped by assumption.
      etransitivity; [apply IH|]. simpl.
      unfold classify in Hcl. destruct (hasEngine E path); [simpl; lia|].
      discriminate.
    + rewrite addPath_AlreadyRegistered by assumption.
      etransitivity; [apply IH|]. destruct (hasEngine E path); simpl; lia.
    + destruct (_createTemplate w path to) as [[tmpl0 wasCached] w0] eqn:Hc.
      destruct (addPath_Qualifying E to isFull isPass relDel w promises path
                  tmpl0 wasCached w0 Hcl Hc) as (_ & _ & Hsk & _).
      destruct (addPath E to isFull isPass relDel (w, promises) path)
        as [w1 promises1].
      cbn [fst] in Hsk. etransitivity; [apply IH|]. rewrite Hsk.
      unfold classify in Hcl. destruct (hasEngine E path); [|discriminate].
      destruct (policy E w isFull relDel wasCached tmpl0).2; simpl; lia.
Qed.

(** X10. Building the template map never changes the write counter, never
    lowers the skipped counter, and raises it by at most the number of
    listed paths that have an engine (a path is counted as skipped at most
    once, the changed template registered before the loop never). *)
Theorem X10_building_counts_each_engine_path_at_most_once w paths to :
  writeCount (_addToTemplateMap E w paths to).1 = writeCount w
  /\ skippedCount w <= skippedCount (_addToTemplateMap E w paths to).1
  /\ skippedCount (_addToTemplateMap E w paths to).1
     <= skippedCount w + length (List.filter (hasEngine E) paths).
Proof.
  destruct (_addToTemplateMap_counts E w paths to) as [Hw Hlow].
  split; [assumption|]. split; [assumption|].
  unfold _addToTemplateMap.
  set (isFull := isFullTemplateFile E paths (incrementalFile w)).
  set (isPass := _isIncrementalFileAPassthroughCopy E w paths).
  destruct (if isFull then JS.asTruthy (incrementalFile w) else None)
    as [file|].
  - destruct (preRegister_spec E w file to)
      as (tmpl & wasCached & _ & _ & _ & Hsk & _).
    cbn zeta in *.
    destruct (preRegister E w file to) as [w1 [[promises relDel]|]];
      cbn [fst] in *; [|lia].
    pose proof (fold_addPath_skipped_bound to isFull isPass relDel paths w1
                  promises) as Hb.
    destruct (fold_left _ paths (w1, promises)) as [w2 promises2].
    destruct (allRegistered_frame E promises2 w2) as (_ & -> & _).
    cbn [fst] in *. lia.
  - pose proof (fold_addPath_skipped_bound to isFull isPass ∅ paths w [])
      as Hb.
    destruct (fold_left _ paths (w, [])) as [w2 promises2].
    destruct (allRegistered_frame E promises2 w2) as (_ & -> & _).
    cbn [fst] in *. assumption.
Qed.

Lemma fold_addPath_no_engine to isFull isPass relDel paths w promises p :
  hasEngine E p = false ->
  _templatePathCache
    (fold_left (addPath E to isFull isPass relDel) paths (w, promises)).1 !! p
  = _templatePathCache w !! p.
Proof.
  intros He. revert w promises.
  induction paths as [|path paths IH]; intros w promises; [reflexivity|].
  cbn [fold_left].
  assert (Hstep : _templatePathCache
                    (addPath E to isFull isPass relDel (w, promises) path).1 !! p
                  = _templatePathCache w !! p).
  { destruct (decide (p = path)) as [->|Hne].
    - rewrite addPath_NoEngine; [reflexivity|].
      unfold classify. rewrite He. reflexivity.
    - apply addPath_other. assumption. }
  destruct (addPath E to isFull isPass relDel (w, promises) path)
    as [w1 promises1].
  cbn [fst] in Hstep. rewrite IH. assumption.
Qed.

(** What the loop and the end of the cascades it started add to the map
    are entries of qualifying paths. *)
Lemma loop_registers_qualifying w0 to isFull isPass relDel paths w promises :
  sameSettings w0 w ->
  let st := fold_left (addPath E to isFull isPass relDel) paths (w, promises) in
  exists regs,
    templateMap (allRegistered E st.2 st.1).1 = templateMap w ++ regs
    /\ me_template <$> regs
       ⊆+ (me_template <$> inFlight promises)
          ++ filter (fun p => classify E w0 isFull isPass p = Qualifying) paths.
Proof.
  intros Hsame. cbn zeta.
  destruct (fold_addPath_registered_from E w0 to isFull isPass relDel paths
              w promises Hsame) as (Hkeys & Hmap & _).
  cbn zeta in *.
  destruct (fold_left _ paths (w, promises)) as [w2 promises2].
  cbn [fst snd] in *.
  destruct (allRegistered_spec E promises2 w2) as (regs & Hall & Hsub & _).
  exists regs. rewrite Hall. simpl. rewrite Hmap. split; [reflexivity|].
  rewrite <- Hkeys. apply fmap_submseteq. assumption.
Qed.

(** X6. A listed path for which the extension map has no engine, and
    which is not the changed file, is ignored by the whole map building:
    no handle is created or touched for it, and it gets no build entry. *)
Theorem X6_path_without_engine_gets_no_handle_and_no_entry w paths to p :
  hasEngine E p = false ->
  incrementalFile w <> JS.Str p ->
  _templatePathCache (_addToTemplateMap E w paths to).1 !! p
  = _templatePathCache w !! p
  /\ (p ∈ me_template <$> templateMap (_addToTemplateMap E w paths to).1 ->
      p ∈ me_template <$> templateMap w).
Proof.
  intros He Hnot. unfold _addToTemplateMap.
  set (isFull := isFullTemplateFile E paths (incrementalFile w)).
  set (isPass := _isIncrementalFileAPassthroughCopy E w paths).
  assert (Hnq : forall w0, classify E w0 isFull isPass p <> Qualifying).
  { intros w0. unfold classify. rewrite He. discriminate. }
  destruct (if isFull then JS.asTruthy (incrementalFile w) else None)
    as [file|] eqn:Hfile.
  - assert (Hne : p <> file).
    { intros ->. destruct isFull; [|discriminate].
      apply asTruthy_Some in Hfile. contradiction. }
    destruct (preRegister_spec E w file to)
      as (tmpl & wasCached & Hres & Hcache & Hmap & _ & Hsame & _).
    cbn zeta in *.
    assert (Hpre : p ∈ me_template <$> templateMap (preRegister E w file to).1
                   -> p ∈ me_template <$> templateMap w).
    { rewrite Hmap, fmap_app, elem_of_app. intros [Hin|Hin]; [assumption|].
      destruct (dataCascade E (Template.inputPath tmpl)); simpl in Hin.
      - apply list_elem_of_singleton in Hin. contradiction.
      - apply elem_of_nil in Hin. contradiction. }
    destruct (preRegister E w file to) as [w1 [[promises relDel]|]];
      cbn [fst snd] in *.
    + pose proof (fold_addPath_no_engine to isFull isPass relDel paths w1
                    promises p He) as Hc.
      destruct (loop_registers_qualifying w to isFull isPass relDel paths
                  w1 promises Hsame) as (regs & Hregs & Hsub).
      cbn zeta in *.
      assert (Hprom : inFlight promises = []).
      { destruct (dataCascade E (Template.inputPath tmpl)); [|discriminate].
        injection Hres as -> _. reflexivity. }
      rewrite Hprom in Hsub. simpl in Hsub.
      destruct (fold_left _ paths (w1, promises)) as [w2 promises2].
      destruct (allRegistered_frame E promises2 w2) as (_ & _ & Hcc & _).
      cbn [fst snd] in *. split.
      * rewrite Hcc, Hc, Hcache, lookup_insert_ne by congruence. reflexivity.
      * rewrite Hregs, fmap_app, elem_of_app.
        intros [Hin|Hin]; [apply Hpre; assumption|].
        eapply elem_of_submseteq in Hin; [|exact Hsub].
        apply list_elem_of_filter in Hin as [Hq _].
        exfalso. exact (Hnq w Hq).
    + split; [|assumption].
      rewrite Hcache, lookup_insert_ne by congruence. reflexivity.
  - pose proof (fold_addPath_no_engine to isFull isPass ∅ paths w [] p He)
      as Hc.
    destruct (loop_registers_qualifying w to isFull isPass ∅ paths
                w [] (sameSettings_refl w)) as (regs & Hregs & Hsub).
    cbn zeta in *. simpl in Hsub.
    destruct (fold_left _ paths (w, [])) as [w2 promises2].
    destruct (allRegistered_frame E promises2 w2) as (_ & _ & Hcc & _).
    cbn [fst snd] in *. split; [rewrite Hcc; assumption|].
    rewrite Hregs, fmap_app, elem_of_app. intros [Hin|Hin]; [assumption|].
    eapply elem_of_submseteq in Hin; [|exact Hsub].
    apply list_elem_of_filter in Hin as [Hq _]. exfalso. exact (Hnq w Hq).
Qed.

(** X9. In an incremental run whose changed file is a full template, when
    the data cascade of the changed file fails, awaiting its registration
    throws: building the template map is rejected before the loop. The
    changed file has its handle but no entry in the map, no other path is
    touched, and nothing is counted as skipped. *)
Theorem X9_failed_registration_of_the_changed_template_stops_the_build
  w paths to file :
  keysAreInputPaths w ->
  JS.asTruthy (incrementalFile w) = Some file ->
  isFullTemplateFile E paths (incrementalFile w) = true ->
  dataCascade E file = false ->
  (_addToTemplateMap E w paths to).2 = Rejects
  /\ templateMap (_addToTemplateMap E w paths to).1 = templateMap w
  /\ skippedCount (_addToTemplateMap E w paths to).1 = skippedCount w
  /\ (forall p, p <> file ->
        _templatePathCache (_addToTemplateMap E w paths to).1 !! p
        = _templatePathCache w !! p)
  /\ exists wasCached,
       trace (_addToTemplateMap E w paths to).1
       = trace w ++ [EvCreateTemplate file wasCached; EvTemplateMapAdd file;
                     EvAwaited file false].
Proof.
  intros Hkeys Hfile Hfull Hfail. unfold _addToTemplateMap.
  rewrite Hfull, Hfile.
  assert (Hip : Template.inputPath
                  (changedTemplatePolicy w (_createTemplate w file to).1.2
                     (_createTemplate w file to).1.1) = file).
  { destruct (changedTemplatePolicy_identity w (_createTemplate w file to).1.2
                (_createTemplate w file to).1.1) as [_ ->].
    apply _createTemplate_inputPath. assumption. }
  unfold preRegister.
  destruct (_createTemplate w file to) as [[tmpl0 wasCached] w1] eqn:Hc.
  cbn [fst snd] in Hip.
  destruct (_createTemplate_writer _ _ _ _ _ _ Hc)
    as (Hcache & Htr & Hmap & _ & Hsc & _).
  unfold TemplateMap_add, cascadeDone. cbn [me_inputPath].
  rewrite Hip, Hfail. cbn.
  rewrite Hcache, Htr, Hmap, Hsc.
  split; [reflexivity|]. split; [reflexivity|]. split; [reflexivity|].
  split.
  - intros p Hne. rewrite insert_insert_eq, lookup_insert_ne by congruence.
    reflexivity.
  - exists wasCached. rewrite <- !app_assoc. reflexivity.
Qed.

(** The handle counter after an iteration on a qualifying path. *)
Lemma addPath_nextTemplateId to isFull isPass relDel w promises path :
  classify E w isFull isPass path = Qualifying ->
  nextTemplateId (addPath E to isFull isPass relDel (w, promises) path).1
  = nextTemplateId (_createTemplate w path to).2.
Proof.
  intros Hcl. unfold addPath. rewrite Hcl.
  destruct (_createTemplate w path to) as [[tmpl0 wasCached] w1].
  destruct (policy E w isFull relDel wasCached tmpl0) as [tmpl skipped].
  destruct skipped; reflexivity.
Qed.

(** After the loop of a run without incremental file, every listed path
    with an engine has a handle. *)
Lemma fold_addPath_full_run_cached to isFull relDel paths w promises p :
  (forall s, incrementalFile w <> JS.Str s) ->
  p ∈ paths -> hasEngine E p = true ->
  is_Some
    (_templatePathCache
       (fold_left (addPath E to isFull false relDel) paths (w, promises)).1
       !! p).
Proof.
  revert w promises. induction paths as [|path paths IH];
    intros w promises Hns Hin He.
  - apply elem_of_nil in Hin. contradiction.
  - cbn [fold_left].
    pose proof (addPath_sameSettings E to isFull false relDel w promises path)
      as (Hinc & _).
    pose proof (classify_full_run w isFull path Hns) as Hcl.
    destruct (decide (p = path)) as [->|Hne].
    + rewrite He in Hcl.
      destruct (_createTemplate w path to) as [[tmpl0 wasCached] w0] eqn:Hc.
      destruct (addPath_Qualifying E to isFull false relDel w promises path
                  tmpl0 wasCached w0 Hcl Hc) as (_ & Hcache & _).
      pose proof (fold_addPath_cacheEvolves E to isFull false relDel paths
                    (addPath E to isFull false relDel (w, promises) path).1
                    (addPath E to isFull false relDel (w, promises) path).2)
        as [_ Hkeep].
      destruct (addPath E to isFull false relDel (w, promises) path)
        as [w1 promises1].
      cbn [fst snd] in *.
      destruct (Hkeep path (policy E w isFull relDel wasCached tmpl0).1)
        as (t' & Ht' & _).
      { rewrite Hcache. apply lookup_insert_eq. }
      rewrite Ht'. eauto.
    + apply elem_of_cons in Hin as [->|Hin]; [contradiction|].
      destruct (addPath E to isFull false relDel (w, promises) path)
        as [w1 promises1].
      cbn [fst] in *. apply IH; [rewrite Hinc; assumption|assumption..].
Qed.

(** When every listed path with an engine has a handle already, the loop
    of a run without incremental file allocates none. *)
Lemma fold_addPath_full_run_reuses to isFull relDel paths w promises :
  (forall s, incrementalFile w <> JS.Str s) ->
  (forall p, p ∈ paths -> hasEngine E p = true ->
             is_Some (_templatePathCache w !! p)) ->
  nextTemplateId
    (fold_left (addPath E to isFull false relDel) paths (w, promises)).1
  = nextTemplateId w.
Proof.
  revert w promises. induction paths as [|path paths IH];
    intros w promises Hns Hall; [reflexivity|].
  cbn [fold_left].
  pose proof (addPath_sameSettings E to isFull false relDel w promises path)
    as (Hinc & _).
  pose proof (handleStep_cacheEvolves _ _
                (addPath_handleStep E to isFull false relDel w promises path))
    as [_ Hkeep].
  pose proof (classify_full_run w isFull path Hns) as Hcl.
  assert (Hnext : nextTemplateId
                    (addPath E to isFull false relDel (w, promises) path).1
                  = nextTemplateId w).
  { destruct (hasEngine E path) eqn:He.
    - rewrite addPath_nextTemplateId by assumption.
      destruct (Hall path) as [old Hold];
        [apply elem_of_cons; left; reflexivity|assumption|].
      destruct (_createTemplate_cached w path to old Hold)
        as (t & w1 & -> & Hn & _). exact Hn.
    - rewrite addPath_NoEngine by assumption. reflexivity. }
  destruct (addPath E to isFull false relDel (w, promises) path)
    as [w1 promises1].
  cbn [fst] in *. rewrite IH; [assumption|rewrite Hinc; assumption|].
  intros p Hin He. destruct (Hall p) as [old Hold];
    [apply elem_of_cons; right; assumption|assumption|].
  destruct (Hkeep p old Hold) as (t' & -> & _). eauto.
Qed.

(** A run without incremental file is the loop alone. *)
Lemma _createTemplateMap_full_run w paths to :
  (forall s, incrementalFile w <> JS.Str s) ->
  exists isFull,
    let st :=
      fold_left (addPath E to isFull false ∅) paths (withTemplateMap [] w, [])
    in
    _templatePathCache (_createTemplateMap E w paths to).1
    = _templatePathCache st.1
    /\ nextTemplateId (_createTemplateMap E w paths to).1
       = nextTemplateId st.1
    /\ incrementalFile (_createTemplateMap E w paths to).1 = incrementalFile w.
Proof.
  intros Hns. exists (isFullTemplateFile E paths (incrementalFile w)).
  unfold _createTemplateMap, _addToTemplateMap.
  change (incrementalFile (withTemplateMap [] w)) with (incrementalFile w).
  assert (Hpass : _isIncrementalFileAPassthroughCopy E (withTemplateMap [] w)
                    paths = false).
  { unfold _isIncrementalFileAPassthroughCopy.
    change (incrementalFile (withTemplateMap [] w)) with (incrementalFile w).
    rewrite asTruthy_not_a_string by assumption. reflexivity. }
  rewrite Hpass, asTruthy_not_a_string by assumption.
  replace (if isFullTemplateFile E paths (incrementalFile w)
           then @None string else None) with (@None string)
    by (destruct (isFullTemplateFile E paths (incrementalFile w)); reflexivity).
  pose proof (fold_addPath_sameSettings E to
                (isFullTemplateFile E paths (incrementalFile w)) false ∅ paths
                (withTemplateMap [] w) []) as (Hinc & _).
  destruct (fold_left _ paths (withTemplateMap [] w, [])) as [w2 promises2].
  destruct (allRegistered_frame E promises2 w2)
    as (_ & _ & Hc & Hn & _ & Hinc2 & _).
  cbn [fst] in *.
  destruct (allRegistered E promises2 w2) as [w3 [|]]; cbn [fst] in *; simpl;
    (split; [assumption|]); (split; [assumption|]);
    rewrite Hinc2, Hinc; reflexivity.
Qed.

(** X11. With no incremental file set, a run leaves a handle in the cache
    for every listed path that has an engine, and a second run over the
    same paths reuses them: it allocates no handle. *)
Theorem X11_second_full_run_reuses_every_handle w paths to to' :
  (forall s, incrementalFile w <> JS.Str s) ->
  (forall p, p ∈ paths -> hasEngine E p = true ->
     is_Some (_templatePathCache (_createTemplateMap E w paths to).1 !! p))
  /\ nextTemplateId
       (_createTemplateMap E (_createTemplateMap E w paths to).1 paths to').1
     = nextTemplateId (_createTemplateMap E w paths to).1.
Proof.
  intros Hns.
  destruct (_createTemplateMap_full_run w paths to Hns)
    as (isFull & Hc & Hn & Hinc).
  cbn zeta in *.
  assert (Hcached : forall p, p ∈ paths -> hasEngine E p = true ->
            is_Some (_templatePathCache (_createTemplateMap E w paths to).1
                       !! p)).
  { intros p Hin He. rewrite Hc.
    apply fold_addPath_full_run_cached; assumption. }
  split; [exact Hcached|].
  set (w1 := (_createTemplateMap E w paths to).1) in *.
  assert (Hns1 : forall s, incrementalFile w1 <> JS.Str s)
    by (rewrite Hinc; assumption).
  destruct (_createTemplateMap_full_run w1 paths to' Hns1)
    as (isFull' & _ & Hn' & _).
  cbn zeta in *. rewrite Hn'.
  apply (fold_addPath_full_run_reuses to' isFull' ∅ paths
           (withTemplateMap [] w1) []); assumption.
Qed.

End BuilderExtras.

(** ** More on the generation scheduler *)

Section SchedulerExtras.

Context (E : Env).

Lemma callbacks_result task r : (callbacks E task r).2 = resultOf E task.
Proof.
  destruct task as [paths|mapEntry wave]; simpl; [reflexivity|].
  unfold _generateTemplate, firstPassCatch.
  destruct (generateMapEntry E mapEntry wave) as [pages written|e];
    [reflexivity|].
  destruct wave; [destruct (isPrematureTemplateContentError e)|]; reflexivity.
Qed.

Lemma callbacks_written task r :
  writeCount (writer (callbacks E task r).1)
  = writeCount (writer r) + writtenBy E task.
Proof.
  destruct task as [paths|mapEntry wave]; simpl; [lia|].
  unfold _generateTemplate, firstPassCatch.
  destruct (generateMapEntry E mapEntry wave) as [pages written|e]; simpl;
    [reflexivity|].
  destruct wave; [destruct (isPrematureTemplateContentError e)|]; simpl; lia.
Qed.

(** What settling does to a pending promise, and that it does nothing
    else. *)
Lemma settle_pending r i task :
  promises r !! i = Some (task, Pending) ->
  promises (settle E r i) = <[i := (task, resultOf E task)]> (promises r)
  /\ writeCount (writer (settle E r i))
     = writeCount (writer r) + writtenBy E task.
Proof.
  intros Hi. unfold settle. rewrite Hi.
  pose proof (callbacks_result task r) as Hres.
  pose proof (callbacks_written task r) as Hwr.
  destruct (callbacks_frame E task r) as (_ & Hp & _). cbn zeta in Hp.
  destruct (callbacks E task r) as [r1 result]. cbn [fst snd] in *.
  subst result. unfold observe. cbn [rejection].
  destruct (resultOf E task) as [|v|e]; [| |destruct (rejection r1)];
    cbn; rewrite Hp; split; auto.
Qed.

Lemma settle_not_pending r i :
  (forall task, promises r !! i <> Some (task, Pending)) ->
  settle E r i = r.
Proof.
  intros Hi. unfold settle.
  destruct (promises r !! i) as [[task [| |]]|]; try reflexivity.
  exfalso. apply (Hi task). reflexivity.
Qed.

Lemma settle_settledAsTasks r i :
  settledAsTasks E r -> settledAsTasks E (settle E r i).
Proof.
  intros Hinv. unfold settledAsTasks.
  destruct (promises r !! i) as [[task p]|] eqn:Hi.
  - destruct p.
    + destruct (settle_pending r i task Hi) as [-> _].
      apply Forall_insert; [assumption|]. right. reflexivity.
    + rewrite settle_not_pending; [assumption|].
      intros task'. rewrite Hi. discriminate.
    + rewrite settle_not_pending; [assumption|].
      intros task'. rewrite Hi. discriminate.
  - rewrite settle_not_pending; [assumption|].
    intros task'. rewrite Hi. discriminate.
Qed.

Lemma run_settledAsTasks schedule r :
  settledAsTasks E r -> settledAsTasks E (fold_left (settle E) schedule r).
Proof.
  revert r. induction schedule as [|i schedule IH]; intros r Hinv;
    [assumption|].
  simpl. apply IH, settle_settledAsTasks. assumption.
Qed.

Lemma run_tasks schedule r :
  fst <$> promises (fold_left (settle E) schedule r) = fst <$> promises r.
Proof.
  revert r. induction schedule as [|i schedule IH]; intros r; [reflexivity|].
  simpl. rewrite IH. apply settle_tasks.
Qed.

(** When a run is fulfilled, each result is the value its task is
    fulfilled with, in the order of the [promises] array. *)
Lemma run_results schedule r results :
  settledAsTasks E r ->
  outcome (fold_left (settle E) schedule r) = Returned results ->
  Forall2 (fun task v => resultOf E task = Fulfilled v)
    (fst <$> promises r) results.
Proof.
  intros Hinv Hout.
  pose proof (run_settledAsTasks schedule r Hinv) as Hfin.
  rewrite <- (run_tasks schedule r).
  unfold outcome in Hout.
  destruct (rejection (fold_left (settle E) schedule r)); [discriminate|].
  destruct (mapM fulfilledValue (promises (fold_left (settle E) schedule r)))
    as [vs|] eqn:Hm; [|discriminate].
  injection Hout as ->. apply mapM_Some in Hm.
  apply Forall2_fmap_l.
  unfold settledAsTasks in Hfin.
  induction Hm as [|[task p] v ps vs Hv Hrest IH]; [constructor|].
  apply Forall_cons in Hfin as [Hp Hfin].
  constructor; [|apply IH; assumption].
  unfold fulfilledValue in Hv. cbn [fst snd] in *.
  destruct p as [|v'|e]; try discriminate.
  injection Hv as ->. destruct Hp as [Hp|Hp]; [discriminate|]. auto.
Qed.

Lemma fold_start_promises wave entries r :
  promises
    (fold_left (fun r mapEntry => start (TaskGenerate mapEntry wave) r)
       entries r)
  = promises r ++ map (fun mapEntry => (TaskGenerate mapEntry wave, Pending))
                    entries.
Proof.
  revert r. induction entries as [|mapEntry entries IH]; intros r.
  - simpl. rewrite app_nil_r. reflexivity.
  - cbn [fold_left]. rewrite IH. simpl. rewrite <- app_assoc. reflexivity.
Qed.

(** The synchronous part of [generateTemplates]: the promises it pushes. *)
Lemma generateTemplates_promises r paths to :
  (generateTemplates E r paths to).2 = (_createTemplateMap E (writer r) paths to).2
  /\ match (_createTemplateMap E (writer r) paths to).2 with
     | Resolves =>
       promises (generateTemplates E r paths to).1
       = promises r ++
         map (fun mapEntry => (TaskGenerate mapEntry FirstWave, Pending))
           (templateMap (_createTemplateMap E (writer r) paths to).1)
     | Rejects =>
       promises (generateTemplates E r paths to).1 = promises r
       /\ history (generateTemplates E r paths to).1 = history r
     end.
Proof.
  unfold generateTemplates.
  destruct (_createTemplateMap E (writer r) paths to) as [w c].
  destruct c; cbn [fst snd]; [|repeat split].
  split; [reflexivity|].
  match goal with
  | |- context [fold_left ?f (templateMap w) ?r0] =>
    destruct (fold_start_frame FirstWave (templateMap w) r0)
      as (_ & Hu1 & _);
    pose proof (fold_start_promises FirstWave (templateMap w) r0) as Hp
  end.
  cbn zeta in *. cbn [usedTemplateContentTooEarlyMap] in Hu1.
  rewrite Hu1. cbn [fold_left]. rewrite Hp. reflexivity.
Qed.

Lemma entry_results entries results :
  Forall2 (fun task v => resultOf E task = Fulfilled v)
    (map (fun mapEntry => TaskGenerate mapEntry FirstWave) entries) results ->
  results = map (entryValue E) entries.
Proof.
  revert results. induction entries as [|mapEntry entries IH]; intros results H.
  - inversion H. reflexivity.
  - simpl in H. inversion H as [|task v tasks vs Hv Hrest]; subst.
    simpl. f_equal; [|apply IH; assumption].
    unfold entryValue. simpl in Hv.
    destruct (generateMapEntry E mapEntry FirstWave) as [pages written|e].
    + injection Hv as <-. reflexivity.
    + destruct (isPrematureTemplateContentError e); [|discriminate].
      injection Hv as <-. reflexivity.
Qed.

(** X13. When [write()] is fulfilled, its results are in the order of the
    [promises] array, whatever the order in which the tasks settled: first
    the result of the passthrough copy, then one value for each entry of
    the template map, in the order of the map: the pages of the entry, or
    undefined for an entry whose premature use of template content was
    swallowed. *)
Theorem X13_results_of_write_are_in_promise_order w paths schedule results :
  (write E w paths schedule).2 = Returned results ->
  results
  = VCopied
    :: map (entryValue E) (templateMap (writer (write E w paths schedule).1)).
Proof.
  destruct (write_writer E w paths schedule) as (_ & _ & ->).
  unfold write.
  destruct (generateTemplates_promises (start (TaskCopy paths) (newRun w))
              paths "fs") as [Hc Hp].
  change (writer (start (TaskCopy paths) (newRun w))) with w in *.
  destruct (generateTemplates E (start (TaskCopy paths) (newRun w)) paths "fs")
    as [r c].
  cbn [fst snd] in *. subst c.
  destruct ((_createTemplateMap E w paths "fs").2); [|discriminate].
  cbn [snd]. intros Hout.
  assert (Hinv : settledAsTasks E r).
  { unfold settledAsTasks. rewrite Hp. simpl.
    constructor; [left; reflexivity|].
    apply Forall_fmap, Forall_true. intros me. left. reflexivity. }
  pose proof (run_results schedule r results Hinv Hout) as Hres.
  rewrite Hp in Hres. simpl in Hres.
  inversion Hres as [|task v tasks vs Hv Hrest]; subst.
  f_equal.
  - cbn [resultOf] in Hv. unfold writePassthroughCopy in Hv.
    destruct (copyAll E paths); [discriminate|]. injection Hv as <-. reflexivity.
  - apply entry_results. rewrite <- list_fmap_compose in Hrest. exact Hrest.
Qed.

(** X14. [getJSON()] starts no passthrough copy, and when it is fulfilled
    it returns the values of the entries of the template map, in the order
    of the map, flattened by one level: each page of an entry by itself,
    undefined for an entry whose premature use of template content was
    swallowed. *)
Theorem X14_getJSON_copies_nothing_and_flattens_in_map_order
  w to paths schedule :
  Forall (fun ev => forall i ps, ev <> Started i (TaskCopy ps))
    (history (getJSON E w to paths schedule).1)
  /\ forall results,
       (getJSON E w to paths schedule).2 = Returned results ->
       results
       = flat (map (entryValue E)
                 (templateMap (writer (getJSON E w to paths schedule).1))).
Proof.
  destruct (getJSON_writer E w to paths schedule) as (_ & _ & ->).
  unfold getJSON.
  destruct (generateTemplates_promises (newRun w) paths to) as [Hc Hp].
  destruct (generateTemplates_frame E (newRun w) paths to)
    as (_ & _ & _ & evs & Hh & Hevs).
  cbn zeta in *. change (writer (newRun w)) with w in *.
  destruct (generateTemplates E (newRun w) paths to) as [r c].
  cbn [fst snd] in *. subst c.
  assert (Hstarts : Forall (fun ev => forall i ps, ev <> Started i (TaskCopy ps))
                      (history r)).
  { rewrite Hh. simpl. eapply Forall_impl; [eassumption|].
    intros ev (i & mapEntry & ->) j ps. discriminate. }
  destruct ((_createTemplateMap E w paths to).2); cbn [fst snd].
  - split.
    + apply run_starts; [intros; discriminate|intros; discriminate|assumption].
    + intros results Hout.
      destruct (outcome (fold_left (settle E) schedule r)) as [vs| | |] eqn:Ho;
        try discriminate.
      injection Hout as <-. f_equal.
      assert (Hinv : settledAsTasks E r).
      { unfold settledAsTasks. rewrite Hp. simpl.
        apply Forall_fmap, Forall_true. intros me. left. reflexivity. }
      pose proof (run_results schedule r vs Hinv Ho) as Hres.
      rewrite Hp in Hres. simpl in Hres.
      apply entry_results. rewrite <- list_fmap_compose in Hres. exact Hres.
  - split; [assumption|]. intros results Hout. discriminate.
Qed.

(** X15. When the template map cannot be built, [write()] is rejected
    without generating anything: the passthrough copy was started before,
    no generation is started, whatever the schedule, and the write counter
    is as it was. *)
Theorem X15_write_generates_nothing_when_the_map_is_rejected
  w paths schedule :
  (_createTemplateMap E w paths "fs").2 = Rejects ->
  (write E w paths schedule).2 = TemplateMapRejected
  /\ history (write E w paths schedule).1 = [Started 0 (TaskCopy paths)]
  /\ writeCount (writer (write E w paths schedule).1) = writeCount w.
Proof.
  intros Hrej. unfold write.
  destruct (generateTemplates_promises (start (TaskCopy paths) (newRun w))
              paths "fs") as [Hc Hp].
  pose proof (generateTemplates_writer E (start (TaskCopy paths) (newRun w))
                paths "fs") as Hw.
  change (writer (start (TaskCopy paths) (newRun w))) with w in *.
  rewrite Hrej in Hc, Hp.
  destruct (_createTemplateMap_counts E w paths "fs") as [Hwc _].
  destruct (generateTemplates E (start (TaskCopy paths) (newRun w)) paths "fs")
    as [r c].
  cbn [fst snd] in *. subst c. cbn [fst snd].
  destruct Hp as [_ Hh]. rewrite Hh, Hw. repeat split. assumption.
Qed.

(** Once [Promise.all] is rejected, its reason stays. *)
Lemma run_rejection_stays schedule r e :
  rejection r = Some e ->
  rejection (fold_left (settle E) schedule r) = Some e.
Proof.
  revert r. induction schedule as [|i schedule IH]; intros r Hr; [assumption|].
  simpl. apply IH. rewrite settle_rejection, Hr. reflexivity.
Qed.

(** X16. When the passthrough copy fails and settles before any entry
    does, [write()] is rejected with an EleventyPassthroughCopyError that
    wraps the failure, whatever the entries do afterwards. *)
Theorem X16_failing_copy_that_settles_first_rejects_write
  w paths schedule e :
  (_createTemplateMap E w paths "fs").2 = Resolves ->
  copyAll E paths = Some e ->
  (write E w paths (0 :: schedule)).2
  = Thrown (EleventyPassthroughCopyError "Having trouble copying" e).
Proof.
  intros Hres Hcopy. unfold write.
  destruct (generateTemplates_promises (start (TaskCopy paths) (newRun w))
              paths "fs") as [Hc Hp].
  destruct (generateTemplates_frame E (start (TaskCopy paths) (newRun w))
              paths "fs") as (Hrej & _).
  cbn zeta in *.
  change (writer (start (TaskCopy paths) (newRun w))) with w in *.
  rewrite Hres in Hc, Hp.
  destruct (generateTemplates E (start (TaskCopy paths) (newRun w)) paths "fs")
    as [r c].
  cbn [fst snd] in *. subst c. cbn [fst snd fold_left].
  unfold outcome.
  rewrite (run_rejection_stays schedule (settle E r 0)
             (EleventyPassthroughCopyError "Having trouble copying" e));
    [reflexivity|].
  rewrite settle_rejection, Hrej, Hp. simpl.
  unfold writePassthroughCopy. rewrite Hcopy. reflexivity.
Qed.

(** A pending promise whose task settles adds what the task wrote. *)
Lemma run_writeCount schedule r :
  NoDup schedule ->
  (forall i task p,
     i ∈ schedule -> promises r !! i = Some (task, p) -> p = Pending) ->
  writeCount (writer (fold_left (settle E) schedule r))
  = writeCount (writer r)
    + sum_list_with
        (fun i => from_option (writtenBy E) 0 ((fst <$> promises r) !! i))
        schedule.
Proof.
  revert r. induction schedule as [|i schedule IH]; intros r Hnd Hpend.
  - simpl. lia.
  - apply NoDup_cons in Hnd as [Hi Hnd]. cbn [fold_left sum_list_with].
    rewrite IH; [|assumption|].
    + rewrite settle_tasks. rewrite list_lookup_fmap.
      destruct (promises r !! i) as [[task p]|] eqn:Hlook.
      * assert (p = Pending) as ->
          by (eapply Hpend; [apply elem_of_cons; left; reflexivity|eassumption]).
        destruct (settle_pending r i task Hlook) as [_ ->]. simpl. lia.
      * rewrite settle_not_pending; [simpl; lia|].
        intros task. rewrite Hlook. discriminate.
    + intros j task p Hj Hlook.
      assert (Hne : i <> j) by (intros ->; contradiction).
      destruct (promises r !! i) as [[taski pi]|] eqn:Hlooki.
      * assert (pi = Pending) as ->
          by (eapply Hpend; [apply elem_of_cons; left; reflexivity|eassumption]).
        destruct (settle_pending r i taski Hlooki) as [Hp _].
        rewrite Hp, list_lookup_insert_ne in Hlook by assumption.
        eapply Hpend; [apply elem_of_cons; right; eassumption|eassumption].
      * rewrite settle_not_pending in Hlook
          by (intros task'; rewrite Hlooki; discriminate).
        eapply Hpend; [apply elem_of_cons; right; eassumption|eassumption].
Qed.

Lemma sum_over_indices {A} (f : A -> nat) (pre l : list A) :
  sum_list_with (fun i => from_option f 0 ((pre ++ l) !! i))
    (seq (length pre) (length l))
  = sum_list_with f l.
Proof.
  revert pre. induction l as [|x l IH]; intros pre; [reflexivity|].
  simpl. rewrite list_lookup_middle by reflexivity. simpl. f_equal.
  specialize (IH (pre ++ [x])).
  rewrite <- app_assoc, length_app in IH. simpl in IH.
  rewrite Nat.add_1_r in IH. exact IH.
Qed.

(** X12. When every task of a run of [write()] has settled, each once, the
    write counter has grown by the sum of the write counts of the entries
    whose generation succeeded, whatever the order in which they settled:
    entries that failed, the passthrough copy and the building of the
    template map add nothing. *)
Theorem X12_write_counter_adds_what_the_generated_entries_wrote
  w paths schedule :
  (_createTemplateMap E w paths "fs").2 = Resolves ->
  schedule
  ≡ₚ seq 0 (S (length (templateMap (_createTemplateMap E w paths "fs").1))) ->
  writeCount (writer (write E w paths schedule).1)
  = writeCount w
    + sum_list_with
        (fun mapEntry => writtenBy E (TaskGenerate mapEntry FirstWave))
        (templateMap (_createTemplateMap E w paths "fs").1).
Proof.
  intros Hres Hperm. unfold write.
  destruct (generateTemplates_promises (start (TaskCopy paths) (newRun w))
              paths "fs") as [Hc Hp].
  destruct (generateTemplates_frame E (start (TaskCopy paths) (newRun w))
              paths "fs") as (_ & Hw & _).
  cbn zeta in *.
  change (writer (start (TaskCopy paths) (newRun w))) with w in *.
  rewrite Hres in Hc, Hp.
  destruct (generateTemplates E (start (TaskCopy paths) (newRun w)) paths "fs")
    as [r c].
  cbn [fst snd] in *. subst c. cbn [fst].
  set (entries := templateMap (_createTemplateMap E w paths "fs").1) in *.
  assert (Htasks : fst <$> promises r
                   = TaskCopy paths
                     :: map (fun me => TaskGenerate me FirstWave) entries).
  { rewrite Hp. simpl. f_equal. clear.
    induction entries as [|me entries IHe]; [reflexivity|].
    simpl. f_equal. exact IHe. }
  rewrite run_writeCount.
  - rewrite Hw. f_equal. rewrite Hperm, Htasks.
    pose proof (sum_over_indices (writtenBy E) []
                  (TaskCopy paths
                   :: map (fun me => TaskGenerate me FirstWave) entries))
      as Hsum.
    cbn [app length] in Hsum. rewrite length_map in Hsum.
    rewrite Hsum. cbn [sum_list_with writtenBy]. clear.
    induction entries as [|me entries IHe]; [reflexivity|].
    simpl. simpl in IHe. rewrite IHe. reflexivity.
  - rewrite Hperm. apply NoDup_seq.
  - intros i task p _ Hlook. rewrite Hp in Hlook.
    apply list_elem_of_lookup_2 in Hlook.
    apply elem_of_app in Hlook as [Hin|Hin].
    + apply list_elem_of_singleton in Hin. injection Hin as _ ->. reflexivity.
    + apply list_elem_of_fmap in Hin as (me & Heq & _).
      injection Heq as _ ->. reflexivity.
Qed.

End SchedulerExtras.

(** ** The collaborators created on first use *)

Lemma errorHandler_stays a s h :
  Services._errorHandler s = Some h ->
  exists h',
    Services._errorHandler (Services.access a s) = Some h'
    /\ Services.eh_id h' = Services.eh_id h
    /\ Services.eh_logger h' = Services.eh_logger h.
Proof.
  intros Hh. destruct a; simpl.
  - unfold Services.logger. destruct (Services._logger s); simpl; eauto.
  - eauto.
  - unfold Services.errorHandler. rewrite Hh. simpl. eauto.
  - unfold Services.setVerboseOutput, Services.errorHandler. simpl.
    rewrite Hh. simpl. eauto.
  - eauto.
  - unfold Services.extensionMap. destruct (Services._extensionMap s); simpl; eauto.
  - eauto.
  - unfold Services.eleventyFiles.
    destruct (Services._eleventyFiles s); simpl; eauto.
  - eauto.
Qed.

(** X17. Once the error handler exists it is never replaced, and it keeps
    the logger it was created with: whatever is read or set afterwards, a
    new logger included, the writer hands out the same error handler with
    its first logger. *)
Theorem X17_error_handler_keeps_its_first_logger accesses s h :
  Services._errorHandler s = Some h ->
  Services.eh_id (Services.errorHandler (Services.accessAll accesses s)).1
  = Services.eh_id h
  /\ Services.lg_id
       (Services.eh_logger
          (Services.errorHandler (Services.accessAll accesses s)).1)
     = Services.lg_id (Services.eh_logger h).
Proof.
  revert s h. induction accesses as [|a accesses IH]; intros s h Hh.
  - simpl. unfold Services.errorHandler. rewrite Hh. simpl. split; reflexivity.
  - simpl. destruct (errorHandler_stays a s h Hh) as (h' & Hh' & <- & <-).
    apply IH. assumption.
Qed.

(** X17 at a sample input: the logger set after the first read of the
    error handler does not reach the error handler. *)
Lemma X17_witness :
  Services._errorHandler
    (Services.errorHandler (Services.initial ["md"])).2
  = Some (Services.errorHandler (Services.initial ["md"])).1
  /\ Services._logger
       (Services.accessAll
          [Services.SetLogger
             (Some {| Services.lg_id := 7; Services.lg_isVerbose := Some true |})]
          (Services.errorHandler (Services.initial ["md"])).2)
     = Some {| Services.lg_id := 7; Services.lg_isVerbose := Some true |}
  /\ Services.lg_id
       (Services.eh_logger
          (Services.errorHandler
             (Services.accessAll
                [Services.SetLogger
                   (Some {| Services.lg_id := 7;
                            Services.lg_isVerbose := Some true |})]
                (Services.errorHandler (Services.initial ["md"])).2)).1)
     = 1.
Proof.
  split; [reflexivity|]. split; [reflexivity|].
  destruct (X17_error_handler_keeps_its_first_logger
              [Services.SetLogger
                 (Some {| Services.lg_id := 7;
                          Services.lg_isVerbose := Some true |})]
              (Services.errorHandler (Services.initial ["md"])).2
              (Services.errorHandler (Services.initial ["md"])).1 eq_refl)
    as [_ Hl].
  rewrite Hl. reflexivity.
Defined.

Lemma extensionMap_stays a s m :
  (forall m', a <> Services.SetExtensionMap m') ->
  Services._extensionMap s = Some m ->
  Services._extensionMap (Services.access a s) = Some m.
Proof.
  intros Hnot Hm. destruct a; simpl; try assumption.
  - unfold Services.logger. destruct (Services._logger s); simpl; assumption.
  - unfold Services.errorHandler, Services.logger.
    destruct (Services._errorHandler s); simpl; [assumption|].
    destruct (Services._logger s); simpl; assumption.
  - unfold Services.setVerboseOutput, Services.errorHandler, Services.logger.
    simpl. destruct (Services._errorHandler s); simpl; [assumption|].
    destruct (Services._logger s); simpl; assumption.
  - unfold Services.extensionMap. rewrite Hm. simpl. assumption.
  - exfalso. apply (Hnot m0). reflexivity.
  - unfold Services.eleventyFiles.
    destruct (Services._eleventyFiles s); simpl; assumption.
Qed.

Lemma eleventyFiles_stays a s f :
  (forall f', a <> Services.SetEleventyFiles f') ->
  Services._eleventyFiles s = Some f ->
  Services._eleventyFiles (Services.access a s) = Some f.
Proof.
  intros Hnot Hf. destruct a; simpl; try assumption.
  - unfold Services.logger. destruct (Services._logger s); simpl; assumption.
  - unfold Services.errorHandler, Services.logger.
    destruct (Services._errorHandler s); simpl; [assumption|].
    destruct (Services._logger s); simpl; assumption.
  - unfold Services.setVerboseOutput, Services.errorHandler, Services.logger.
    simpl. destruct (Services._errorHandler s); simpl; [assumption|].
    destruct (Services._logger s); simpl; assumption.
  - unfold Services.extensionMap.
    destruct (Services._extensionMap s); simpl; assumption.
  - unfold Services.eleventyFiles. rewrite Hf. simpl. assumption.
  - exfalso. apply (Hnot f0). reflexivity.
Qed.

(** X18. The extension map and the file manager that the writer creates
    itself are built from the template formats of the moment of their
    first read. Unless they are set from outside, every later read hands
    out the same object with those formats: setting [templateFormats]
    afterwards does not change them. *)
Theorem X18_formats_are_fixed_at_the_first_read accesses s :
  Forall (fun a => (forall m, a <> Services.SetExtensionMap m)
                   /\ (forall f, a <> Services.SetEleventyFiles f)) accesses ->
  (Services.extensionMap
     (Services.accessAll accesses (Services.extensionMap s).2)).1
  = (Services.extensionMap s).1
  /\ (Services.eleventyFiles
        (Services.accessAll accesses (Services.eleventyFiles s).2)).1
     = (Services.eleventyFiles s).1
  /\ (Services._extensionMap s = None ->
      Services.em_formats (Services.extensionMap s).1
      = Services.templateFormats s)
  /\ (Services._eleventyFiles s = None ->
      Services.ef_formats (Services.eleventyFiles s).1
      = Services.templateFormats s).
Proof.
  intros Hacc.
  assert (Hem : forall s0 m, Services._extensionMap s0 = Some m ->
            Services._extensionMap (Services.accessAll accesses s0) = Some m).
  { clear s. induction Hacc as [|a accesses [Ha _] _ IH]; intros s0 m Hm;
      [assumption|].
    simpl. apply IH. apply extensionMap_stays; assumption. }
  assert (Hef : forall s0 f, Services._eleventyFiles s0 = Some f ->
            Services._eleventyFiles (Services.accessAll accesses s0) = Some f).
  { clear s Hem. induction Hacc as [|a accesses [_ Ha] _ IH]; intros s0 f Hf;
      [assumption|].
    simpl. apply IH. apply eleventyFiles_stays; assumption. }
  split; [|split; [|split]].
  - assert (H1 : Services._extensionMap (Services.extensionMap s).2
                 = Some (Services.extensionMap s).1).
    { unfold Services.extensionMap.
      destruct (Services._extensionMap s) eqn:Hm; simpl; [assumption|reflexivity]. }
    apply Hem in H1. unfold Services.extensionMap at 1. rewrite H1. reflexivity.
  - assert (H1 : Services._eleventyFiles (Services.eleventyFiles s).2
                 = Some (Services.eleventyFiles s).1).
    { unfold Services.eleventyFiles.
      destruct (Services._eleventyFiles s) eqn:Hm; simpl; [assumption|reflexivity]. }
    apply Hef in H1. unfold Services.eleventyFiles at 1. rewrite H1. reflexivity.
  - intros Hnone. unfold Services.extensionMap. rewrite Hnone. reflexivity.
  - intros Hnone. unfold Services.eleventyFiles. rewrite Hnone. reflexivity.
Qed.

(** X18 at a sample input. *)
Lemma X18_witness :
  Forall (fun a => (forall m, a <> Services.SetExtensionMap m)
                   /\ (forall f, a <> Services.SetEleventyFiles f))
    [Services.SetTemplateFormats ["njk"]; Services.GetErrorHandler]
  /\ Services.em_formats
       (Services.extensionMap
          (Services.accessAll
             [Services.SetTemplateFormats ["njk"]; Services.GetErrorHandler]
             (Services.extensionMap (Services.initial ["md"])).2)).1
     = ["md"].
Proof.
  assert (H : Forall (fun a => (forall m, a <> Services.SetExtensionMap m)
                               /\ (forall f, a <> Services.SetEleventyFiles f))
                [Services.SetTemplateFormats ["njk"]; Services.GetErrorHandler]).
  { repeat constructor; intros; discriminate. }
  split; [exact H|].
  destruct (X18_formats_are_fixed_at_the_first_read
              [Services.SetTemplateFormats ["njk"]; Services.GetErrorHandler]
              (Services.initial ["md"]) H) as (Hem & _).
  rewrite Hem. reflexivity.
Defined.

(** ** The further properties at sample inputs *)

(** X5 at a sample input: the handle of a.md is still there after a
    restart, an incremental run and a run of [getJSON]. *)
Lemma X5_witness :
  _templatePathCache (_createTemplate Sample.fresh "a.md" "fs").2 !! "a.md"
  = Some (_createTemplate Sample.fresh "a.md" "fs").1.1
  /\ exists t',
       _templatePathCache
         (performAll Sample.env
            [OpRestart; OpSetIncrementalFile (JS.Str "b.md");
             OpWrite ["a.md"; "b.md"] [0; 1; 2]; OpGetJSON "json" ["b.md"] [0]]
            (_createTemplate Sample.fresh "a.md" "fs").2) !! "a.md"
       = Some t'
       /\ Template.tid t'
          = Template.tid (_createTemplate Sample.fresh "a.md" "fs").1.1
       /\ Template.inputPath t'
          = Template.inputPath (_createTemplate Sample.fresh "a.md" "fs").1.1.
Proof.
  split; [vm_compute; reflexivity|].
  apply (X5_handles_survive_every_operation Sample.env).
  vm_compute. reflexivity.
Defined.

(** X6 at a sample input: logo.png has no engine. *)
Lemma X6_witness :
  hasEngine Sample.assetEnv "logo.png" = false
  /\ incrementalFile Sample.fresh <> JS.Str "logo.png"
  /\ _templatePathCache
       (_addToTemplateMap Sample.assetEnv Sample.fresh ["a.md"; "logo.png"]
          "fs").1 !! "logo.png"
     = None.
Proof.
  assert (Hnot : incrementalFile Sample.fresh <> JS.Str "logo.png")
    by discriminate.
  split; [reflexivity|]. split; [exact Hnot|].
  destruct (X6_path_without_engine_gets_no_handle_and_no_entry
              Sample.assetEnv Sample.fresh ["a.md"; "logo.png"] "fs"
              "logo.png" eq_refl Hnot) as [Hcache _].
  rewrite Hcache. vm_compute. reflexivity.
Defined.

(** X7 at a sample input: logo.png has no engine, and the data cascade of
    a.md ends after the one of b.md. *)
Lemma X7_witness :
  (forall s, incrementalFile Sample.fresh <> JS.Str s)
  /\ cacheOk Sample.fresh /\ keysAreInputPaths Sample.fresh
  /\ registrationsStarted
       (trace
          (_createTemplateMap Sample.slowFirstEnv Sample.fresh
             ["a.md"; "logo.png"; "b.md"] "fs").1)
     = ["a.md"; "b.md"]
  /\ (_createTemplateMap Sample.slowFirstEnv Sample.fresh
        ["a.md"; "logo.png"; "b.md"] "fs").2 = Resolves
  /\ templateMap
       (_createTemplateMap Sample.slowFirstEnv Sample.fresh
          ["a.md"; "logo.png"; "b.md"] "fs").1
     = [Sample.entryB; Sample.entryA].
Proof.
  assert (Hns : forall s, incrementalFile Sample.fresh <> JS.Str s)
    by (intros s; discriminate).
  split; [exact Hns|].
  split; [apply cacheOk_initial|].
  split; [apply keysAreInputPaths_initial|].
  destruct (X7_full_run_registers_the_paths_with_an_engine Sample.slowFirstEnv
              Sample.fresh ["a.md"; "logo.png"; "b.md"] "fs" Hns
              (cacheOk_initial _ _) (keysAreInputPaths_initial _ _))
    as [Hstarted Hmap].
  split; [exact Hstarted|]. split; [reflexivity|].
  destruct (Hmap eq_refl) as [-> _]. reflexivity.
Defined.

(** X8 at a sample input: the data cascade of a.md fails, and the
    registration of b.md is started all the same. *)
Lemma X8_witness :
  (forall s, incrementalFile Sample.fresh <> JS.Str s)
  /\ cacheOk Sample.fresh /\ keysAreInputPaths Sample.fresh
  /\ "a.md" ∈ ["a.md"; "b.md"]
  /\ hasEngine Sample.brokenCascadeEnv "a.md" = true
  /\ dataCascade Sample.brokenCascadeEnv "a.md" = false
  /\ (_createTemplateMap Sample.brokenCascadeEnv Sample.fresh
        ["a.md"; "b.md"] "fs").2 = Rejects
  /\ registrationsStarted
       (trace
          (_createTemplateMap Sample.brokenCascadeEnv Sample.fresh
             ["a.md"; "b.md"] "fs").1)
     = ["a.md"; "b.md"].
Proof.
  assert (Hns : forall s, incrementalFile Sample.fresh <> JS.Str s)
    by (intros s; discriminate).
  assert (Hin : "a.md" ∈ ["a.md"; "b.md"])
    by (apply elem_of_cons; left; reflexivity).
  split; [exact Hns|].
  split; [apply cacheOk_initial|].
  split; [apply keysAreInputPaths_initial|].
  split; [exact Hin|]. split; [reflexivity|]. split; [reflexivity|].
  destruct (X8_failing_cascade_rejects_the_build_after_the_loop
              Sample.brokenCascadeEnv Sample.fresh ["a.md"; "b.md"] "fs" "a.md"
              Hns (cacheOk_initial _ _) (keysAreInputPaths_initial _ _)
              Hin eq_refl eq_refl) as (Hrej & Hstarted & _).
  split; [exact Hrej|exact Hstarted].
Defined.

(** X9 at a sample input: the data cascade of the changed file b.md
    fails. *)
Lemma X9_witness :
  keysAreInputPaths Sample.incremental
  /\ JS.asTruthy (incrementalFile Sample.incremental) = Some "b.md"
  /\ isFullTemplateFile Sample.brokenDataEnv ["a.md"; "b.md"]
       (incrementalFile Sample.incremental) = true
  /\ dataCascade Sample.brokenDataEnv "b.md" = false
  /\ (_addToTemplateMap Sample.brokenDataEnv Sample.incremental
        ["a.md"; "b.md"] "fs").2 = Rejects
  /\ templateMap
       (_addToTemplateMap Sample.brokenDataEnv Sample.incremental
          ["a.md"; "b.md"] "fs").1
     = [].
Proof.
  assert (Hkeys : keysAreInputPaths Sample.incremental).
  { intros p t H.
    change (_templatePathCache Sample.incremental)
      with (∅ : gmap string Template.t) in H.
    rewrite lookup_empty in H. discriminate. }
  split; [exact Hkeys|]. split; [reflexivity|]. split; [reflexivity|].
  split; [reflexivity|].
  destruct (X9_failed_registration_of_the_changed_template_stops_the_build
              Sample.brokenDataEnv Sample.incremental ["a.md"; "b.md"] "fs"
              "b.md" Hkeys eq_refl eq_refl eq_refl) as (Hrej & Hmap & _).
  split; [exact Hrej|]. rewrite Hmap. reflexivity.
Defined.

(** X11 at a sample input: the second run, for JSON, allocates nothing. *)
Lemma X11_witness :
  (forall s, incrementalFile Sample.fresh <> JS.Str s)
  /\ nextTemplateId
       (_createTemplateMap Sample.env
          (_createTemplateMap Sample.env Sample.fresh ["a.md"; "b.md"] "fs").1
          ["a.md"; "b.md"] "json").1
     = nextTemplateId
         (_createTemplateMap Sample.env Sample.fresh ["a.md"; "b.md"] "fs").1.
Proof.
  assert (Hns : forall s, incrementalFile Sample.fresh <> JS.Str s)
    by (intros s; discriminate).
  split; [exact Hns|].
  exact (proj2 (X11_second_full_run_reuses_every_handle Sample.env
                  Sample.fresh ["a.md"; "b.md"] "fs" "json" Hns)).
Defined.

(** X12 at a sample input: the entries settle before the copy and in
    reverse order; each wrote one page. *)
Lemma X12_witness :
  (_createTemplateMap Sample.env Sample.fresh ["a.md"; "b.md"] "fs").2
  = Resolves
  /\ [2; 0; 1]
     ≡ₚ seq 0
          (S (length
                (templateMap
                   (_createTemplateMap Sample.env Sample.fresh
                      ["a.md"; "b.md"] "fs").1)))
  /\ writeCount
       (writer (write Sample.env Sample.fresh ["a.md"; "b.md"] [2; 0; 1]).1)
     = 2.
Proof.
  assert (Hperm : [2; 0; 1]
                  ≡ₚ seq 0
                       (S (length
                             (templateMap
                                (_createTemplateMap Sample.env Sample.fresh
                                   ["a.md"; "b.md"] "fs").1)))).
  { change ([2; 0; 1] ≡ₚ [0; 1; 2]).
    etrans; [apply perm_swap|]. apply perm_skip, perm_swap. }
  split; [reflexivity|]. split; [exact Hperm|].
  rewrite (X12_write_counter_adds_what_the_generated_entries_wrote
             Sample.env Sample.fresh ["a.md"; "b.md"] [2; 0; 1] eq_refl Hperm).
  reflexivity.
Defined.

(** X13 at a sample input: the copy settles last and is first in the
    results. *)
Lemma X13_witness :
  (write Sample.env Sample.fresh ["a.md"; "b.md"] [2; 1; 0]).2
  = Returned [VCopied; VPages ["_site/a.md"]; VPages ["_site/b.md"]]
  /\ [VCopied; VPages ["_site/a.md"]; VPages ["_site/b.md"]]
     = VCopied
       :: map (entryValue Sample.env)
            (templateMap
               (writer
                  (write Sample.env Sample.fresh ["a.md"; "b.md"] [2; 1; 0]).1)).
Proof.
  assert (Hret : (write Sample.env Sample.fresh ["a.md"; "b.md"] [2; 1; 0]).2
                 = Returned
                     [VCopied; VPages ["_site/a.md"]; VPages ["_site/b.md"]])
    by (vm_compute; reflexivity).
  split; [exact Hret|].
  exact (X13_results_of_write_are_in_promise_order Sample.env Sample.fresh
           ["a.md"; "b.md"] [2; 1; 0] _ Hret).
Defined.

(** X14 at a sample input: [getJSON()] is fulfilled with the pages of the
    two entries. *)
Lemma X14_witness :
  (getJSON Sample.env Sample.fresh "json" ["a.md"; "b.md"] [1; 0]).2
  = Returned [VPage "_site/a.md"; VPage "_site/b.md"]
  /\ [VPage "_site/a.md"; VPage "_site/b.md"]
     = flat (map (entryValue Sample.env)
               (templateMap
                  (writer
                     (getJSON Sample.env Sample.fresh "json" ["a.md"; "b.md"]
                        [1; 0]).1))).
Proof.
  assert (Hret : (getJSON Sample.env Sample.fresh "json" ["a.md"; "b.md"]
                    [1; 0]).2
                 = Returned [VPage "_site/a.md"; VPage "_site/b.md"])
    by (vm_compute; reflexivity).
  split; [exact Hret|].
  exact (proj2 (X14_getJSON_copies_nothing_and_flattens_in_map_order
                  Sample.env Sample.fresh "json" ["a.md"; "b.md"] [1; 0])
           _ Hret).
Defined.

(** X15 at a sample input: the data cascade of the changed file fails. *)
Lemma X15_witness :
  (_createTemplateMap Sample.brokenDataEnv Sample.incremental
     ["a.md"; "b.md"] "fs").2 = Rejects
  /\ (write Sample.brokenDataEnv Sample.incremental ["a.md"; "b.md"]
        [0; 1; 2]).2 = TemplateMapRejected
  /\ history
       (write Sample.brokenDataEnv Sample.incremental ["a.md"; "b.md"]
          [0; 1; 2]).1
     = [Started 0 (TaskCopy ["a.md"; "b.md"])].
Proof.
  split; [reflexivity|].
  destruct (X15_write_generates_nothing_when_the_map_is_rejected
              Sample.brokenDataEnv Sample.incremental ["a.md"; "b.md"]
              [0; 1; 2] eq_refl) as (Hout & Hhist & _).
  split; assumption.
Defined.

(** X16 at a sample input: the copy fails, the entry succeeds. *)
Lemma X16_witness :
  (_createTemplateMap Sample.brokenCopyEnv Sample.fresh ["a.md"] "fs").2
  = Resolves
  /\ copyAll Sample.brokenCopyEnv ["a.md"] = Some (OtherError "no space left")
  /\ (write Sample.brokenCopyEnv Sample.fresh ["a.md"] [0; 1]).2
     = Thrown
         (EleventyPassthroughCopyError "Having trouble copying"
            (OtherError "no space left")).
Proof.
  split; [reflexivity|]. split; [reflexivity|].
  exact (X16_failing_copy_that_settles_first_rejects_write
           Sample.brokenCopyEnv Sample.fresh ["a.md"] [1]
           (OtherError "no space left") eq_refl eq_refl).
Defined.
